(** * Cross-Market-Analysis: ingestion, storage and query layer

    A shallow embedding of the Python sources
    [sql_operation.py], [coin_daily_price.py], [collect_coingecko_data.py],
    [stock_price.py] and the snapshot query of [data_report.py].

    - SQLite tables are lists of rows; a primary key is enforced by the
      statements ([REPLACE INTO] deletes the conflicting row, a plain
      [INSERT] is rejected), never by the representation.
    - A connection carries the committed database and the open transaction.
    - The network and the clock are an explicit world: a response oracle and
      a trace of the requests, sleeps and log lines performed.
    - Python floats and the calendar are an interface ([PyRuntime]); every
      theorem holds for all its implementations. *)

From Stdlib Require Import List String Ascii ZArith Bool Lia Permutation Sorted.
From Stdlib Require Import DecimalString.
Import ListNotations.

Local Open Scope string_scope.
Local Open Scope list_scope.

(** ** The Python runtime the sources rely on *)

Class PyRuntime : Type := {
  (** Python [float]. *)
  pyfloat : Type;
  (** [float(n)] for an [int]; [None] when it raises [OverflowError]. *)
  float_of_int : Z -> option pyfloat;
  (** [float(s)] for a [str]; [None] when it raises [ValueError]. *)
  float_of_str : string -> option pyfloat;
  (** [round(x, 6)]. *)
  round6 : pyfloat -> pyfloat;
  (** [int(x)]; [None] when [x] is not finite. *)
  int_of_float : pyfloat -> option Z;
  (** [datetime.fromtimestamp(ms / 1000, tz=timezone.utc).strftime("%Y-%m-%d")]
      for an [int] [ms]; [None] when the instant is out of range. *)
  utc_day_of_ms : Z -> option string;
  (** The same for a [float] [ms]. *)
  utc_day_of_float_ms : pyfloat -> option string;
  (** [Timestamp.strftime("%Y-%m-%d")] for a pandas timestamp, given in
      milliseconds of wall-clock time. *)
  timestamp_ymd : Z -> string;
  (** [bool(x)]: false for a zero. *)
  float_truthy : pyfloat -> bool;
  (** [math.isnan(x)]: the value pandas treats as missing. *)
  isnan : pyfloat -> bool;
  (** [DataFrame.sort_index()] on a frame indexed by timestamps: the rows in
      index order; the order among rows of one index value is not
      specified. *)
  sort_index : forall A : Type, (A -> Z) -> list A -> list A;
  sort_index_perm : forall A (f : A -> Z) l, Permutation (sort_index A f l) l;
  sort_index_sorted : forall A (f : A -> Z) l,
    Sorted (fun a b => (f a <= f b)%Z) (sort_index A f l)
}.

(** ** Tables with a primary key *)

Section Table.
Context {K R : Type}.
Variable key : R -> K.
Variable K_eq_dec : forall a b : K, {a = b} + {a <> b}.

Definition has_key (k : K) (r : R) : bool :=
  if K_eq_dec (key r) k then true else false.

(** [SELECT * FROM t WHERE key = k] *)
Definition select_key (k : K) (t : list R) : list R :=
  filter (has_key k) t.

Definition delete_key (k : K) (t : list R) : list R :=
  filter (fun r => negb (has_key k r)) t.

(** [REPLACE INTO t VALUES r]: the row in conflict on the primary key is
    deleted, then [r] is inserted. *)
Definition replace_into (t : list R) (r : R) : list R :=
  delete_key (key r) t ++ [r].

(** [executemany("REPLACE INTO ...", rows)]: one statement per row, in
    list order. *)
Definition executemany_replace (rows : list R) (t : list R) : list R :=
  fold_left replace_into rows t.

(** [INSERT INTO t VALUES r]: rejected when the key is already there. *)
Definition insert_into (t : list R) (r : R) : option (list R) :=
  if existsb (has_key (key r)) t then None else Some (t ++ [r]).

Definition pk_unique (t : list R) : Prop := NoDup (map key t).

Definition key_in (k : K) (rows : list R) : bool := existsb (has_key k) rows.

(** A run of [INSERT]s, up to the first one that is rejected. *)
Fixpoint insert_all (rows : list R) (t : list R) : option (list R) :=
  match rows with
  | [] => Some t
  | r :: rows' =>
    match insert_into t r with
    | Some t' => insert_all rows' t'
    | None => None
    end
  end.

(** The last row of a batch that carries key [k]. *)
Definition last_with_key (k : K) (rows : list R) : option R :=
  find (has_key k) (rev rows).

Lemma has_key_true k r : has_key k r = true <-> key r = k.
Proof. unfold has_key. destruct (K_eq_dec (key r) k); split; congruence. Qed.

Lemma has_key_false k r : has_key k r = false <-> key r <> k.
Proof. unfold has_key. destruct (K_eq_dec (key r) k); split; congruence. Qed.

Lemma has_key_self r : has_key (key r) r = true.
Proof. now apply has_key_true. Qed.

Lemma key_in_true k rows : key_in k rows = true <-> In k (map key rows).
Proof.
  unfold key_in. rewrite existsb_exists, in_map_iff.
  split; intros [r [H1 H2]]; exists r.
  - apply has_key_true in H2. auto.
  - split; [assumption | now apply has_key_true].
Qed.

Lemma key_in_false k rows : key_in k rows = false <-> ~ In k (map key rows).
Proof.
  rewrite <- key_in_true. destruct (key_in k rows); split; congruence.
Qed.

Lemma select_delete_same k t : select_key k (delete_key k t) = [].
Proof.
  unfold select_key, delete_key. induction t as [|x t IH]; simpl; auto.
  destruct (has_key k x) eqn:E; simpl; auto. now rewrite E.
Qed.

Lemma select_delete_other k k' t :
  k <> k' -> select_key k (delete_key k' t) = select_key k t.
Proof.
  intros Hne. unfold select_key, delete_key.
  induction t as [|x t IH]; simpl; auto.
  destruct (has_key k' x) eqn:E'; simpl.
  - apply has_key_true in E'.
    assert (has_key k x = false) as -> by (apply has_key_false; congruence).
    assumption.
  - destruct (has_key k x); now rewrite IH.
Qed.

Lemma select_app k t u : select_key k (t ++ u) = select_key k t ++ select_key k u.
Proof. apply filter_app. Qed.

Lemma select_replace_same t r : select_key (key r) (replace_into t r) = [r].
Proof.
  unfold replace_into. rewrite select_app, select_delete_same. simpl.
  now rewrite has_key_self.
Qed.

Lemma select_replace_other k t r :
  k <> key r -> select_key k (replace_into t r) = select_key k t.
Proof.
  intros Hne. unfold replace_into. rewrite select_app, select_delete_other by assumption.
  simpl. assert (has_key k r = false) as -> by (apply has_key_false; congruence).
  apply app_nil_r.
Qed.

Lemma delete_key_keys k t : ~ In k (map key (delete_key k t)).
Proof.
  unfold delete_key. rewrite in_map_iff. intros [r [H1 H2]].
  apply filter_In in H2. destruct H2 as [_ H2].
  apply negb_true_iff, has_key_false in H2. contradiction.
Qed.

Lemma delete_key_pk k t : pk_unique t -> pk_unique (delete_key k t).
Proof.
  unfold pk_unique, delete_key. induction t as [|x t IH]; simpl; intros H; auto.
  inversion H as [|? ? Hx Ht]; subst.
  destruct (has_key k x); simpl; auto.
  constructor; auto.
  rewrite in_map_iff in *. intros [r [H1 H2]]. apply Hx.
  exists r. split; auto. apply filter_In in H2. tauto.
Qed.

Lemma replace_into_pk t r : pk_unique t -> pk_unique (replace_into t r).
Proof.
  intros H. unfold pk_unique, replace_into. rewrite map_app. simpl.
  apply NoDup_app.
  - now apply delete_key_pk.
  - repeat constructor. simpl. tauto.
  - intros k Hk [Hr | []]. subst k. now apply delete_key_keys in Hk.
Qed.

Lemma executemany_replace_pk rows : forall t,
  pk_unique t -> pk_unique (executemany_replace rows t).
Proof.
  unfold executemany_replace.
  induction rows as [|x rows IH]; simpl; intros t H; auto using replace_into_pk.
Qed.

Lemma executemany_replace_snoc rows x t :
  executemany_replace (rows ++ [x]) t = replace_into (executemany_replace rows t) x.
Proof. unfold executemany_replace. now rewrite fold_left_app. Qed.

Lemma last_with_key_snoc k rows x :
  last_with_key k (rows ++ [x]) =
  if has_key k x then Some x else last_with_key k rows.
Proof. unfold last_with_key. now rewrite rev_unit. Qed.

Lemma last_with_key_none k rows :
  last_with_key k rows = None <-> key_in k rows = false.
Proof.
  unfold last_with_key, key_in. split; intros H.
  - destruct (existsb (has_key k) rows) eqn:E; auto.
    apply existsb_exists in E. destruct E as [r [Hin Hr]].
    apply in_rev in Hin. apply (find_none _ _ H r) in Hin. congruence.
  - destruct (find (has_key k) (rev rows)) eqn:E; auto.
    apply find_some in E. destruct E as [Hin Hr].
    assert (existsb (has_key k) rows = true) as X
      by (apply existsb_exists; exists r; split; [now apply in_rev | assumption]).
    congruence.
Qed.

Lemma last_with_key_some k rows r :
  last_with_key k rows = Some r -> In r rows /\ key r = k.
Proof.
  unfold last_with_key. intros H. apply find_some in H. destruct H as [H1 H2].
  split; [now apply in_rev | now apply has_key_true].
Qed.

Lemma select_executemany_touched k rows : forall t r,
  last_with_key k rows = Some r ->
  select_key k (executemany_replace rows t) = [r].
Proof.
  induction rows as [|x rows IH] using rev_ind; intros t r H.
  - discriminate.
  - rewrite last_with_key_snoc in H. rewrite executemany_replace_snoc.
    destruct (has_key k x) eqn:E.
    + injection H as <-. apply has_key_true in E. subst k.
      apply select_replace_same.
    + apply has_key_false in E. rewrite select_replace_other by congruence.
      now apply IH.
Qed.

Lemma select_executemany_untouched k rows : forall t,
  key_in k rows = false ->
  select_key k (executemany_replace rows t) = select_key k t.
Proof.
  induction rows as [|x rows IH] using rev_ind; intros t H; auto.
  rewrite executemany_replace_snoc.
  unfold key_in in H. rewrite existsb_app in H. simpl in H.
  apply orb_false_iff in H. destruct H as [H1 H2].
  rewrite orb_false_r in H2. apply has_key_false in H2.
  rewrite select_replace_other by congruence. now apply IH.
Qed.

Lemma executemany_replace_incl rows : forall t r,
  In r (executemany_replace rows t) -> In r t \/ In r rows.
Proof.
  unfold executemany_replace.
  induction rows as [|x rows IH]; simpl; intros t r H; auto.
  apply IH in H. destruct H as [H | H]; auto.
  unfold replace_into, delete_key in H. apply in_app_or in H.
  destruct H as [H | [H | []]]; auto.
  apply filter_In in H. tauto.
Qed.

(** Closed form of a batch of [REPLACE]s: the rows the batch does not touch
    stay, in place, followed by what the batch leaves in an empty table. *)
Lemma executemany_replace_split rows : forall t,
  executemany_replace rows t =
  filter (fun r => negb (key_in (key r) rows)) t ++ executemany_replace rows [].
Proof.
  induction rows as [|x rows IH]; intros t.
  - simpl. rewrite app_nil_r. induction t as [|y t IHt]; simpl; congruence.
  - change (executemany_replace (x :: rows) t)
      with (executemany_replace rows (replace_into t x)).
    change (executemany_replace (x :: rows) [])
      with (executemany_replace rows (replace_into [] x)).
    rewrite (IH (replace_into t x)), (IH (replace_into [] x)).
    unfold replace_into. simpl delete_key. rewrite filter_app, <- app_assoc.
    f_equal. unfold delete_key. clear IH.
    induction t as [|y t IHt]; auto.
    cbn [filter]. rewrite <- IHt.
    change (key_in (key y) (x :: rows))
      with (has_key (key y) x || key_in (key y) rows).
    assert (has_key (key y) x = has_key (key x) y) as ->.
    { unfold has_key.
      destruct (K_eq_dec (key x) (key y)), (K_eq_dec (key y) (key x)); congruence. }
    destruct (has_key (key x) y); cbn [negb orb filter]; auto.
Qed.

(** Running the same batch of [REPLACE]s again changes nothing. *)
Lemma executemany_replace_idem rows t :
  executemany_replace rows (executemany_replace rows t) = executemany_replace rows t.
Proof.
  rewrite (executemany_replace_split rows (executemany_replace rows t)).
  rewrite (executemany_replace_split rows t) at 1.
  rewrite filter_app.
  assert (filter (fun r => negb (key_in (key r) rows)) (executemany_replace rows []) = []) as ->.
  { assert (forall l, incl l rows ->
      filter (fun r => negb (key_in (key r) rows)) l = []) as X.
    { induction l as [|y l IHl]; intros Hl; auto. cbn [filter].
      assert (key_in (key y) rows = true) as ->
        by (apply key_in_true, in_map, Hl; now left).
      apply IHl. intros z Hz. apply Hl. now right. }
    apply X. intros r Hr.
    apply executemany_replace_incl in Hr. now destruct Hr as [[] | Hr]. }
  rewrite app_nil_r.
  assert (forall (f : R -> bool) l, filter f (filter f l) = filter f l) as ff.
  { intros f l. induction l as [|y l IHl]; simpl; auto.
    destruct (f y) eqn:E; simpl; rewrite ?E; congruence. }
  rewrite ff. symmetry. apply executemany_replace_split.
Qed.

Lemma insert_into_some t r t' :
  insert_into t r = Some t' <-> ~ In (key r) (map key t) /\ t' = t ++ [r].
Proof.
  unfold insert_into. fold (key_in (key r) t).
  destruct (key_in (key r) t) eqn:E.
  - apply key_in_true in E. split; [discriminate | tauto].
  - apply key_in_false in E. split.
    + intros H. injection H as <-. auto.
    + intros [_ ->]. reflexivity.
Qed.

Lemma insert_all_some rows : forall t t',
  insert_all rows t = Some t' ->
  t' = t ++ rows /\ NoDup (map key rows) /\
  (forall k, In k (map key rows) -> ~ In k (map key t)).
Proof.
  induction rows as [|r rows IH]; simpl; intros t t' H.
  - injection H as <-. rewrite app_nil_r. repeat split; [constructor | tauto].
  - destruct (insert_into t r) as [t1|] eqn:E; [|discriminate].
    apply insert_into_some in E. destruct E as [Hr ->].
    apply IH in H. destruct H as [-> [Hnd Hdis]].
    rewrite <- app_assoc. split; [reflexivity|]. split.
    + constructor; auto. intros Hin. apply (Hdis _ Hin).
      rewrite map_app. apply in_or_app. right. now left.
    + intros k [<- | Hk]; auto. intros Hin. apply (Hdis _ Hk).
      rewrite map_app. apply in_or_app. now left.
Qed.

Lemma insert_all_distinct rows : forall t,
  NoDup (map key rows) ->
  (forall k, In k (map key rows) -> ~ In k (map key t)) ->
  insert_all rows t = Some (t ++ rows).
Proof.
  induction rows as [|r rows IH]; simpl; intros t Hnd Hdis.
  - now rewrite app_nil_r.
  - inversion Hnd as [|? ? Hr Hnd']; subst.
    assert (insert_into t r = Some (t ++ [r])) as ->
      by (apply insert_into_some; split; auto).
    rewrite IH, <- app_assoc; auto.
    intros k Hk. rewrite map_app. intros Hin. apply in_app_or in Hin.
    destruct Hin as [Hin | [<- | []]]; [eapply Hdis; eauto | contradiction].
Qed.

End Table.

(** ** Calls that return or raise *)

(** The Python exceptions the sources meet. *)
Inductive exn : Type :=
| IntegrityError                 (* sqlite3: a constraint is violated *)
| OverflowError                  (* sqlite3: an [int] does not fit 64 bits *)
| HTTPError (status : Z)         (* requests: [raise_for_status] *)
| ConnectionError                (* requests: the request itself failed *)
| JSONDecodeError                (* requests: the body is not JSON *)
| YFRateLimitError               (* yfinance: too many requests *)
| TypeError
| ValueError
| NameError.

(** [except requests.RequestException] catches these. *)
Definition is_RequestException (e : exn) : bool :=
  match e with
  | HTTPError _ | ConnectionError | JSONDecodeError => true
  | _ => false
  end.

Inductive outcome (A : Type) : Type :=
| Returned (a : A)
| Raised (e : exn).
Arguments Returned {A} a.
Arguments Raised {A} e.

(** A computation over a state [S] that returns or raises. *)
Definition M (S A : Type) : Type := S -> outcome A * S.

Definition ret {S A} (a : A) : M S A := fun s => (Returned a, s).

Definition raise {S A} (e : exn) : M S A := fun s => (Raised e, s).

Definition bind {S A B} (m : M S A) (k : A -> M S B) : M S B :=
  fun s => match m s with
           | (Returned a, s') => k a s'
           | (Raised e, s') => (Raised e, s')
           end.

(** [try: m  except <handled>: h] *)
Definition try_except {S A} (m : M S A) (handled : exn -> bool) (h : exn -> M S A) : M S A :=
  fun s => match m s with
           | (Returned a, s') => (Returned a, s')
           | (Raised e, s') => if handled e then h e s' else (Raised e, s')
           end.

Notation "x <- m ;; k" := (bind m (fun x => k))
  (at level 61, m at next level, right associativity).
Notation "m ;; k" := (bind m (fun _ => k))
  (at level 61, right associativity).

(** ** The store of [sql_operation.py] *)

Definition key2_eq_dec (a b : string * string) : {a = b} + {a <> b}.
Proof. decide equality; apply string_dec. Defined.

Section Store.
Context {RT : PyRuntime}.

(** Canonical rows, one record per table.  Keys and dates are text; a date
    is in the form [YYYY-MM-DD], which SQLite stores and compares as text. *)

(** [Cryptocurrencies]: [id] is the primary key. *)
Record coin_row := {
  coin_id : string;
  coin_symbol : string;
  coin_name : string;
  current_price : option pyfloat;
  market_cap : option pyfloat;
  market_cap_rank : option Z;
  total_volume : option pyfloat;
  circulating_supply : option pyfloat;
  total_supply : option pyfloat;
  ath : option pyfloat;
  atl : option pyfloat;
  last_updated : string
}.

(** [Crypto_prices]: primary key [(coin_id, date)].  The foreign key to
    [Cryptocurrencies] is declared but SQLite does not enforce it unless
    asked to, and no connection here asks. *)
Record crypto_price_row := {
  cp_coin_id : string;
  cp_date : string;
  cp_price_usd : pyfloat
}.

(** [oil_price]: primary key [date]. *)
Record oil_price_row := {
  oil_date : string;
  oil_price_usd : pyfloat
}.

(** [stock_price]: primary key [(ticker, date)]. *)
Record stock_price_row := {
  st_date : string;
  st_open : pyfloat;
  st_high : pyfloat;
  st_low : pyfloat;
  st_close : pyfloat;
  st_volume : Z;
  st_ticker : string
}.

Definition crypto_key (r : crypto_price_row) : string * string :=
  (cp_coin_id r, cp_date r).

Definition stock_key (r : stock_price_row) : string * string :=
  (st_ticker r, st_date r).

(** The four tables of [cryptocurrencies.db].  Every function below runs
    [CREATE TABLE IF NOT EXISTS] before it touches a table, so a table that
    is absent and one that is empty are the same state here. *)
Record database := {
  Cryptocurrencies : list coin_row;
  Crypto_prices : list crypto_price_row;
  oil_price : list oil_price_row;
  stock_price : list stock_price_row
}.

Definition set_Cryptocurrencies (t : list coin_row) (d : database) : database :=
  {| Cryptocurrencies := t; Crypto_prices := Crypto_prices d;
     oil_price := oil_price d; stock_price := stock_price d |}.

Definition set_Crypto_prices (t : list crypto_price_row) (d : database) : database :=
  {| Cryptocurrencies := Cryptocurrencies d; Crypto_prices := t;
     oil_price := oil_price d; stock_price := stock_price d |}.

Definition set_oil_price (t : list oil_price_row) (d : database) : database :=
  {| Cryptocurrencies := Cryptocurrencies d; Crypto_prices := Crypto_prices d;
     oil_price := t; stock_price := stock_price d |}.

Definition set_stock_price (t : list stock_price_row) (d : database) : database :=
  {| Cryptocurrencies := Cryptocurrencies d; Crypto_prices := Crypto_prices d;
     oil_price := oil_price d; stock_price := t |}.

(** A [sqlite3.Connection] in the module's default transaction mode:
    [disk] is what is committed (what any other connection reads), [txn] the
    working copy of the open transaction, if one is open. *)
Record connection := {
  disk : database;
  txn : option database
}.

(** The connection together with every committed state the file went
    through since the call started, oldest first: what a reader, or a
    restart after an interruption, could have found. *)
Record session := {
  conn : connection;
  seen : list database
}.

Definition sql (A : Type) : Type := M session A.

Definition working (c : connection) : database :=
  match txn c with Some w => w | None => disk c end.

Definition observe (c : connection) (s : session) : session :=
  {| conn := c; seen := seen s ++ [disk c] |}.

(** [sqlite3.connect(DB_PATH)] on a file whose committed content is [d]. *)
Definition get_connection (d : database) : connection :=
  {| disk := d; txn := None |}.

(** A data-definition statement: it runs inside the open transaction when
    there is one, and is committed at once otherwise. *)
Definition execute_ddl (f : database -> database) : sql unit :=
  fun s =>
    let c := conn s in
    let c' := match txn c with
              | Some w => {| disk := disk c; txn := Some (f w) |}
              | None => {| disk := f (disk c); txn := None |}
              end in
    (Returned tt, observe c' s).

(** An [INSERT], [REPLACE] or [DELETE]: the module opens a transaction
    first when none is open.  A statement whose parameters cannot be bound,
    or that violates a constraint, changes nothing and raises; the
    transaction stays open. *)
Definition execute_dml (f : database -> outcome database) : sql unit :=
  fun s =>
    let c := conn s in
    match f (working c) with
    | Returned w' => (Returned tt, observe {| disk := disk c; txn := Some w' |} s)
    | Raised e => (Raised e,
                   observe {| disk := disk c; txn := Some (working c) |} s)
    end.

(** [cursor.executemany(stmt, rows)]: the statement once per row, in order,
    up to the first one that raises. *)
Fixpoint executemany {R} (stmt : R -> database -> outcome database)
  (rows : list R) : sql unit :=
  match rows with
  | [] => ret tt
  | r :: rows' => execute_dml (stmt r) ;; executemany stmt rows'
  end.

Definition commit : sql unit :=
  fun s =>
    let c := conn s in
    (Returned tt, observe {| disk := working c; txn := None |} s).

Definition rollback : sql unit :=
  fun s =>
    let c := conn s in
    (Returned tt, observe {| disk := disk c; txn := None |} s).

(** [conn.close()]: what was not committed is lost. *)
Definition close (s : session) : session :=
  observe {| disk := disk (conn s); txn := None |} s.

(** [CREATE TABLE IF NOT EXISTS ...] *)
Definition create_table_if_not_exists (d : database) : database := d.

(** The body of a function called with [conn=None]: it opens its own
    connection and closes it in [finally], whether the body returns or
    raises.  The result is the outcome, the committed database left behind
    and the committed states gone through. *)
Definition with_own_connection {A} (body : sql A) (d : database)
  : outcome A * database * list database :=
  let '(r, s) := body {| conn := get_connection d; seen := [] |} in
  let s' := close s in
  (r, disk (conn s'), seen s').

Definition store_after {A} (x : outcome A * database * list database) : database :=
  snd (fst x).

Definition result_of {A} (x : outcome A * database * list database) : outcome A :=
  fst (fst x).

Definition states_seen {A} (x : outcome A * database * list database) : list database :=
  snd x.

(** *** The statements *)

Definition delete_from_Cryptocurrencies (d : database) : outcome database :=
  Returned (set_Cryptocurrencies [] d).

Definition insert_into_Cryptocurrencies (r : coin_row) (d : database) : outcome database :=
  match insert_into coin_id string_dec (Cryptocurrencies d) r with
  | Some t => Returned (set_Cryptocurrencies t d)
  | None => Raised IntegrityError
  end.

(** An [int] parameter is bound as a 64-bit integer; one that does not fit
    raises [OverflowError] before the statement runs. *)
Definition fits_int64 (z : Z) : bool :=
  ((- 2 ^ 63 <=? z) && (z <? 2 ^ 63))%Z.

(** A [float] parameter is bound as a REAL, and SQLite stores the NaN it is
    handed as NULL.  The price columns of the three historical tables are
    declared [NOT NULL], so a row with a NaN in one of them is rejected:
    [REPLACE] has no default to fall back on, the statement changes nothing
    and raises [IntegrityError].  What a row is rejected with, if it is: *)
Definition crypto_price_rejected (r : crypto_price_row) : option exn :=
  if isnan (cp_price_usd r) then Some IntegrityError else None.

Definition oil_price_rejected (r : oil_price_row) : option exn :=
  if isnan (oil_price_usd r) then Some IntegrityError else None.

Definition stock_price_rejected (r : stock_price_row) : option exn :=
  if negb (fits_int64 (st_volume r)) then Some OverflowError
  else if isnan (st_open r) || isnan (st_high r) || isnan (st_low r)
          || isnan (st_close r)
  then Some IntegrityError
  else None.

Definition replace_into_Crypto_prices (r : crypto_price_row) (d : database) : outcome database :=
  match crypto_price_rejected r with
  | Some e => Raised e
  | None =>
    Returned (set_Crypto_prices (replace_into crypto_key key2_eq_dec (Crypto_prices d) r) d)
  end.

Definition replace_into_oil_price (r : oil_price_row) (d : database) : outcome database :=
  match oil_price_rejected r with
  | Some e => Raised e
  | None =>
    Returned (set_oil_price (replace_into oil_date string_dec (oil_price d) r) d)
  end.

Definition replace_into_stock_price (r : stock_price_row) (d : database) : outcome database :=
  match stock_price_rejected r with
  | Some e => Raised e
  | None =>
    Returned (set_stock_price (replace_into stock_key key2_eq_dec (stock_price d) r) d)
  end.

(** The exception of the first row of a batch that is rejected, if one is. *)
Fixpoint first_rejected {R} (check : R -> option exn) (rows : list R) : option exn :=
  match rows with
  | [] => None
  | r :: rows' =>
    match check r with
    | Some e => Some e
    | None => first_rejected check rows'
    end
  end.

(** A batch every row of which the table takes. *)
Definition accepted {R} (check : R -> option exn) (rows : list R) : Prop :=
  Forall (fun r => check r = None) rows.

(** *** The functions of [sql_operation.py], on a given connection *)

Definition create_cryptocurrencies_table_on : sql unit :=
  execute_ddl create_table_if_not_exists ;; commit.

Definition create_crypto_prices_table_on : sql unit :=
  execute_ddl create_table_if_not_exists ;; commit.

Definition create_oil_price_table_on : sql unit :=
  execute_ddl create_table_if_not_exists ;; commit.

Definition create_stock_price_table_on : sql unit :=
  execute_ddl create_table_if_not_exists ;; commit.

(** [DataFrame.to_sql(name, conn, if_exists="append", index=False)] on a
    table that exists: nothing for an empty frame; otherwise every row is
    inserted and pandas commits, or rolls back and re-raises. *)
Definition to_sql_append (df : list coin_row) : sql unit :=
  fun s =>
    match df with
    | [] => (Returned tt, s)
    | _ =>
      match executemany insert_into_Cryptocurrencies df s with
      | (Returned _, s') => commit s'
      | (Raised e, s') => (Raised e, snd (rollback s'))
      end
    end.

(** [push_dataframe_to_table(df, conn)].  The frame's [last_updated] column
    holds dates; [astype(str)] makes them the text the rows carry here. *)
Definition push_dataframe_to_table_on (df : list coin_row) : sql nat :=
  create_cryptocurrencies_table_on ;;
  execute_dml delete_from_Cryptocurrencies ;;
  to_sql_append df ;;
  commit ;;
  ret (List.length df).

Definition insert_crypto_prices_on (rows : list crypto_price_row) : sql nat :=
  create_crypto_prices_table_on ;;
  executemany replace_into_Crypto_prices rows ;;
  commit ;;
  ret (List.length rows).

Definition insert_oil_prices_on (rows : list oil_price_row) : sql nat :=
  create_oil_price_table_on ;;
  executemany replace_into_oil_price rows ;;
  commit ;;
  ret (List.length rows).

Definition insert_stock_prices_on (rows : list stock_price_row) : sql nat :=
  create_stock_price_table_on ;;
  executemany replace_into_stock_price rows ;;
  commit ;;
  ret (List.length rows).

(** *** The same functions called with [conn=None] *)

Definition push_dataframe_to_table (df : list coin_row) :=
  with_own_connection (push_dataframe_to_table_on df).

Definition insert_crypto_prices (rows : list crypto_price_row) :=
  with_own_connection (insert_crypto_prices_on rows).

Definition insert_oil_prices (rows : list oil_price_row) :=
  with_own_connection (insert_oil_prices_on rows).

Definition insert_stock_prices (rows : list stock_price_row) :=
  with_own_connection (insert_stock_prices_on rows).

(** *** What the claims about the store say *)

(** A table after a batch was upserted into it: a key of the batch has
    exactly one row, the last one the batch carries for it; the rows of any
    other key are as before; and no key that was unique is duplicated. *)
Definition upserted {K R} (key : R -> K) dec (rows before after : list R) : Prop :=
  (forall k r, last_with_key key dec k rows = Some r ->
               select_key key dec k after = [r]) /\
  (forall k, key_in key dec k rows = false ->
             select_key key dec k after = select_key key dec k before) /\
  (pk_unique key before -> pk_unique key after).

(** The snapshot table after a batch replaced it: a key of the batch has
    exactly one row, from the batch, and no other key has any. *)
Definition snapshot_replaced (df after : list coin_row) : Prop :=
  (forall k, key_in coin_id string_dec k df = true ->
             exists r, In r df /\ select_key coin_id string_dec k after = [r]) /\
  (forall k, key_in coin_id string_dec k df = false ->
             select_key coin_id string_dec k after = []).

(** *** Running the statements *)

Lemma set_Cryptocurrencies_same d : set_Cryptocurrencies (Cryptocurrencies d) d = d.
Proof. now destruct d. Qed.

Lemma set_Crypto_prices_same d : set_Crypto_prices (Crypto_prices d) d = d.
Proof. now destruct d. Qed.

Lemma set_oil_price_same d : set_oil_price (oil_price d) d = d.
Proof. now destruct d. Qed.

Lemma set_stock_price_same d : set_stock_price (stock_price d) d = d.
Proof. now destruct d. Qed.

Lemma working_txn d w : working {| disk := d; txn := Some w |} = w.
Proof. reflexivity. Qed.

Lemma seen_snoc (sn : list database) d n :
  (sn ++ [d]) ++ repeat d n = sn ++ repeat d (S n).
Proof. now rewrite <- app_assoc. Qed.

Lemma first_rejected_none {R} (check : R -> option exn) rows :
  first_rejected check rows = None <-> accepted check rows.
Proof.
  unfold accepted. induction rows as [|r rows IH]; simpl.
  - split; auto.
  - destruct (check r) as [e|] eqn:E.
    + split; [discriminate|]. intros H. inversion H; congruence.
    + rewrite IH. split; intros H; [now constructor | now inversion H].
Qed.





Lemma crypto_prices_accepted rows :
  Forall (fun r => isnan (cp_price_usd r) = false) rows ->
  accepted crypto_price_rejected rows.
Proof.
  apply Forall_impl. intros r H. unfold crypto_price_rejected. now rewrite H.
Qed.

Lemma oil_prices_accepted rows :
  Forall (fun r => isnan (oil_price_usd r) = false) rows ->
  accepted oil_price_rejected rows.
Proof.
  apply Forall_impl. intros r H. unfold oil_price_rejected. now rewrite H.
Qed.

Lemma stock_prices_accepted rows :
  Forall (fun r => fits_int64 (st_volume r) = true /\
                   isnan (st_open r) = false /\ isnan (st_high r) = false /\
                   isnan (st_low r) = false /\ isnan (st_close r) = false) rows ->
  accepted stock_price_rejected rows.
Proof.
  apply Forall_impl. intros r [Hv [Ho [Hh [Hl Hc]]]].
  unfold stock_price_rejected. now rewrite Hv, Ho, Hh, Hl, Hc.
Qed.

(** A batch of statements each of which either rejects its row, whatever
    the table holds, or goes through: the statements run up to the first
    rejected row; the transaction holds the fold of those that ran, and
    nothing is committed meanwhile. *)
Lemma executemany_checked {R} (stmt : R -> database -> outcome database)
  (check : R -> option exn) (f : database -> R -> database) :
  (forall r d, stmt r d = match check r with
                          | Some e => Raised e
                          | None => Returned (f d r)
                          end) ->
  forall rows c sn, exists c' n,
    disk c' = disk c /\
    match first_rejected check rows with
    | None =>
      executemany stmt rows {| conn := c; seen := sn |} =
        (Returned tt, {| conn := c'; seen := sn ++ repeat (disk c) n |}) /\
      working c' = fold_left f rows (working c) /\
      n = List.length rows
    | Some e =>
      executemany stmt rows {| conn := c; seen := sn |} =
        (Raised e, {| conn := c'; seen := sn ++ repeat (disk c) n |})
    end.
Proof.
  intros Hstmt. induction rows as [|r rows IH]; intros c sn.
  - exists c, 0%nat. simpl. now rewrite app_nil_r.
  - simpl executemany. simpl first_rejected.
    unfold bind, execute_dml. cbn [conn seen].
    rewrite Hstmt. destruct (check r) as [e|].
    + exists {| disk := disk c; txn := Some (working c) |}, 1%nat.
      unfold observe. cbn. auto.
    + unfold observe. cbn [conn seen disk].
      destruct (IH {| disk := disk c; txn := Some (f (working c) r) |} (sn ++ [disk c]))
        as [c' [n [Hd H]]].
      exists c', (S n). cbn [disk] in Hd. split; auto.
      rewrite working_txn in H. cbn [disk] in H.
      destruct (first_rejected check rows).
      * now rewrite H, seen_snoc.
      * destruct H as [H1 [H2 H3]]. rewrite H1, seen_snoc. simpl. auto.
Qed.

(** The [INSERT]s of [to_sql]: they go through exactly when [insert_all]
    does, and nothing is committed meanwhile. *)
Lemma executemany_insert_run rows : forall c sn, exists c' n,
  disk c' = disk c /\
  match insert_all coin_id string_dec rows (Cryptocurrencies (working c)) with
  | Some t =>
    executemany insert_into_Cryptocurrencies rows {| conn := c; seen := sn |} =
      (Returned tt, {| conn := c'; seen := sn ++ repeat (disk c) n |}) /\
    working c' = set_Cryptocurrencies t (working c)
  | None =>
    executemany insert_into_Cryptocurrencies rows {| conn := c; seen := sn |} =
      (Raised IntegrityError, {| conn := c'; seen := sn ++ repeat (disk c) n |})
  end.
Proof.
  induction rows as [|r rows IH]; intros c sn.
  - exists c, 0%nat. simpl. rewrite app_nil_r, set_Cryptocurrencies_same. auto.
  - simpl executemany. simpl insert_all.
    unfold bind, execute_dml. cbn [conn seen].
    change (insert_into_Cryptocurrencies r (working c))
      with (match insert_into coin_id string_dec (Cryptocurrencies (working c)) r with
            | Some t => Returned (set_Cryptocurrencies t (working c))
            | None => Raised IntegrityError
            end).
    destruct (insert_into coin_id string_dec (Cryptocurrencies (working c)) r)
      as [t1|] eqn:E.
    + unfold observe. cbn [conn seen disk].
      destruct (IH {| disk := disk c; txn := Some (set_Cryptocurrencies t1 (working c)) |}
                  (sn ++ [disk c])) as [c' [n [Hd H]]].
      exists c', (S n). cbn [disk] in Hd. split; auto.
      rewrite working_txn in H.
      cbn [disk Cryptocurrencies set_Cryptocurrencies] in H.
      destruct (insert_all coin_id string_dec rows t1).
      * destruct H as [H1 H2]. rewrite H1, seen_snoc. split; auto.
      * now rewrite H, seen_snoc.
    + exists {| disk := disk c; txn := Some (working c) |}, 1%nat.
      unfold observe. cbn. auto.
Qed.

Lemma fold_left_lens {R} (get : database -> list R)
  (set : list R -> database -> database) (g : list R -> R -> list R) :
  (forall t d, get (set t d) = t) ->
  (forall t t' d, set t (set t' d) = set t d) ->
  (forall d, set (get d) d = d) ->
  forall rows d,
    fold_left (fun d r => set (g (get d) r) d) rows d = set (fold_left g rows (get d)) d.
Proof.
  intros Hgs Hss Hsg. induction rows as [|r rows IH]; intros d; simpl.
  - now rewrite Hsg.
  - now rewrite IH, Hgs, Hss.
Qed.

(** What a historical insert does, from creating the table to closing the
    connection.  Either the table takes every row: the batch is folded into
    the table by [REPLACE] and committed in one piece.  Or a row is
    rejected: the call raises before it commits, closing the connection
    drops the rows that went in before, and the old database is all there
    ever was. *)
Lemma replace_batch_run {K R} (key : R -> K) dec
  (get : database -> list R) (set : list R -> database -> database)
  (stmt : R -> database -> outcome database) (check : R -> option exn) :
  (forall t d, get (set t d) = t) ->
  (forall t t' d, set t (set t' d) = set t d) ->
  (forall d, set (get d) d = d) ->
  (forall r d, stmt r d = match check r with
                          | Some e => Raised e
                          | None => Returned (set (replace_into key dec (get d) r) d)
                          end) ->
  forall rows d, exists n,
    with_own_connection
      (execute_ddl create_table_if_not_exists ;; commit ;;
       executemany stmt rows ;; commit ;; ret (List.length rows)) d =
    match first_rejected check rows with
    | None =>
      (Returned (List.length rows),
       set (executemany_replace key dec rows (get d)) d,
       repeat d (2 + List.length rows) ++
       repeat (set (executemany_replace key dec rows (get d)) d) 2)
    | Some e => (Raised e, d, repeat d n)
    end.
Proof.
  intros Hgs Hss Hsg Hstmt rows d.
  unfold with_own_connection, bind, execute_ddl, commit, ret, close, observe,
    get_connection, create_table_if_not_exists.
  cbn [conn seen disk txn working app].
  destruct (executemany_checked stmt check _ Hstmt rows {| disk := d; txn := None |} [d; d])
    as [c' [n [Hd H]]].
  change (working {| disk := d; txn := None |}) with d in *.
  cbn [disk] in Hd, H.
  destruct (first_rejected check rows) as [e|].
  - rewrite H. cbn [conn seen disk txn working]. rewrite Hd.
    exists (2 + n + 1)%nat. f_equal.
    rewrite !repeat_app. reflexivity.
  - destruct H as [E [Hw Hn]]. subst n.
    rewrite E. cbn [conn seen disk txn working].
    rewrite Hw.
    rewrite (fold_left_lens get set (replace_into key dec) Hgs Hss Hsg).
    fold (executemany_replace key dec rows (get d)).
    exists 0%nat. f_equal. simpl. rewrite <- !app_assoc. reflexivity.
Qed.

Lemma insert_crypto_prices_run rows d : exists n,
  insert_crypto_prices rows d =
  match first_rejected crypto_price_rejected rows with
  | None =>
    (Returned (List.length rows),
     set_Crypto_prices (executemany_replace crypto_key key2_eq_dec rows (Crypto_prices d)) d,
     repeat d (2 + List.length rows) ++
     repeat (set_Crypto_prices
               (executemany_replace crypto_key key2_eq_dec rows (Crypto_prices d)) d) 2)
  | Some e => (Raised e, d, repeat d n)
  end.
Proof.
  apply (replace_batch_run crypto_key key2_eq_dec Crypto_prices set_Crypto_prices);
    try reflexivity. apply set_Crypto_prices_same.
Qed.

Lemma insert_oil_prices_run rows d : exists n,
  insert_oil_prices rows d =
  match first_rejected oil_price_rejected rows with
  | None =>
    (Returned (List.length rows),
     set_oil_price (executemany_replace oil_date string_dec rows (oil_price d)) d,
     repeat d (2 + List.length rows) ++
     repeat (set_oil_price
               (executemany_replace oil_date string_dec rows (oil_price d)) d) 2)
  | Some e => (Raised e, d, repeat d n)
  end.
Proof.
  apply (replace_batch_run oil_date string_dec oil_price set_oil_price);
    try reflexivity. apply set_oil_price_same.
Qed.

Lemma insert_stock_prices_run rows d : exists n,
  insert_stock_prices rows d =
  match first_rejected stock_price_rejected rows with
  | None =>
    (Returned (List.length rows),
     set_stock_price (executemany_replace stock_key key2_eq_dec rows (stock_price d)) d,
     repeat d (2 + List.length rows) ++
     repeat (set_stock_price
               (executemany_replace stock_key key2_eq_dec rows (stock_price d)) d) 2)
  | Some e => (Raised e, d, repeat d n)
  end.
Proof.
  apply (replace_batch_run stock_key key2_eq_dec stock_price set_stock_price);
    try reflexivity. apply set_stock_price_same.
Qed.

(** The same for a batch the table takes. *)
Lemma insert_crypto_prices_accepted rows d :
  accepted crypto_price_rejected rows ->
  insert_crypto_prices rows d =
  (Returned (List.length rows),
   set_Crypto_prices (executemany_replace crypto_key key2_eq_dec rows (Crypto_prices d)) d,
   repeat d (2 + List.length rows) ++
   repeat (set_Crypto_prices
             (executemany_replace crypto_key key2_eq_dec rows (Crypto_prices d)) d) 2).
Proof.
  intros H. apply first_rejected_none in H.
  destruct (insert_crypto_prices_run rows d) as [n E]. now rewrite H in E.
Qed.

Lemma insert_oil_prices_accepted rows d :
  accepted oil_price_rejected rows ->
  insert_oil_prices rows d =
  (Returned (List.length rows),
   set_oil_price (executemany_replace oil_date string_dec rows (oil_price d)) d,
   repeat d (2 + List.length rows) ++
   repeat (set_oil_price
             (executemany_replace oil_date string_dec rows (oil_price d)) d) 2).
Proof.
  intros H. apply first_rejected_none in H.
  destruct (insert_oil_prices_run rows d) as [n E]. now rewrite H in E.
Qed.

Lemma insert_stock_prices_accepted rows d :
  accepted stock_price_rejected rows ->
  insert_stock_prices rows d =
  (Returned (List.length rows),
   set_stock_price (executemany_replace stock_key key2_eq_dec rows (stock_price d)) d,
   repeat d (2 + List.length rows) ++
   repeat (set_stock_price
             (executemany_replace stock_key key2_eq_dec rows (stock_price d)) d) 2).
Proof.
  intros H. apply first_rejected_none in H.
  destruct (insert_stock_prices_run rows d) as [n E]. now rewrite H in E.
Qed.

Lemma to_sql_append_cons r df s :
  to_sql_append (r :: df) s =
  match executemany insert_into_Cryptocurrencies (r :: df) s with
  | (Returned _, s') => commit s'
  | (Raised e, s') => (Raised e, snd (rollback s'))
  end.
Proof. reflexivity. Qed.

(** What the snapshot refresh does, from creating the table to closing the
    connection.  Either every [INSERT] goes through, and the committed
    states are the old database, some number of times, then the new one; or
    one is rejected, the call raises, and the old database is all there
    ever was. *)
Lemma push_dataframe_to_table_run df d : exists n m,
  push_dataframe_to_table df d =
  match insert_all coin_id string_dec df [] with
  | Some _ =>
    (Returned (List.length df), set_Cryptocurrencies df d,
     repeat d n ++ repeat (set_Cryptocurrencies df d) (S m))
  | None => (Raised IntegrityError, d, repeat d n)
  end.
Proof.
  destruct df as [|r df].
  - exists 3%nat, 1%nat. reflexivity.
  - unfold push_dataframe_to_table, with_own_connection, push_dataframe_to_table_on,
      create_cryptocurrencies_table_on, bind, execute_ddl, execute_dml, commit, ret,
      close, observe, get_connection, create_table_if_not_exists,
      delete_from_Cryptocurrencies.
    cbn [conn seen disk txn working app].
    rewrite to_sql_append_cons.
    destruct (executemany_insert_run (r :: df)
                {| disk := d; txn := Some (set_Cryptocurrencies [] d) |} [d; d; d])
      as [c' [n [Hd H]]].
    rewrite working_txn in H. cbn [disk Cryptocurrencies set_Cryptocurrencies] in H, Hd.
    destruct (insert_all coin_id string_dec (r :: df) []) as [t|] eqn:E.
    + apply insert_all_some in E. destruct E as [E _]. simpl in E. subst t.
      destruct H as [H Hw]. rewrite H.
      unfold commit, observe. cbn [conn seen disk txn working]. rewrite Hw.
      exists (3 + n)%nat, 2%nat.
      change (set_Cryptocurrencies (r :: df) (set_Cryptocurrencies [] d))
        with (set_Cryptocurrencies (r :: df) d).
      f_equal. cbn [repeat Nat.add app]. rewrite <- !app_assoc. reflexivity.
    + rewrite H. unfold rollback, observe. cbn [conn seen disk txn working snd].
      rewrite Hd. exists (3 + (n + 2))%nat, 0%nat. f_equal.
      cbn [repeat Nat.add app]. rewrite repeat_app, <- !app_assoc. reflexivity.
Qed.

Lemma executemany_replace_upserted {K R} (key : R -> K) dec rows t :
  upserted key dec rows t (executemany_replace key dec rows t).
Proof.
  repeat split.
  - intros k r H. now apply select_executemany_touched.
  - intros k H. now apply select_executemany_untouched.
  - apply executemany_replace_pk.
Qed.

Lemma push_distinct_ids df d :
  NoDup (map coin_id df) ->
  result_of (push_dataframe_to_table df d) = Returned (List.length df) /\
  store_after (push_dataframe_to_table df d) = set_Cryptocurrencies df d.
Proof.
  intros Hnd. destruct (push_dataframe_to_table_run df d) as [n [m E]].
  rewrite (insert_all_distinct coin_id string_dec df [] Hnd) in E by (intros k _ []).
  rewrite E. split; reflexivity.
Qed.

(** A frame that repeats an id is rejected by the primary key: the call
    raises and the committed database is the one it found. *)
Lemma push_repeated_id df d :
  ~ NoDup (map coin_id df) ->
  result_of (push_dataframe_to_table df d) = Raised IntegrityError /\
  store_after (push_dataframe_to_table df d) = d.
Proof.
  intros Hnd. destruct (push_dataframe_to_table_run df d) as [n [m E]].
  destruct (insert_all coin_id string_dec df []) as [t|] eqn:Ei.
  - apply insert_all_some in Ei. tauto.
  - rewrite E. split; reflexivity.
Qed.

Lemma snapshot_replaced_distinct df :
  NoDup (map coin_id df) -> snapshot_replaced df df.
Proof.
  intros Hnd. split.
  - intros k Hk. apply key_in_true, in_map_iff in Hk. destruct Hk as [r [<- Hr]].
    exists r. split; auto. clear -Hnd Hr.
    induction df as [|x df IH]; [destruct Hr|]. simpl in Hnd.
    inversion Hnd as [|? ? Hx Hnd']; subst. unfold select_key. cbn [filter].
    fold (select_key coin_id string_dec (coin_id r) df).
    destruct Hr as [-> | Hr].
    + rewrite has_key_self. f_equal.
      destruct (select_key coin_id string_dec (coin_id r) df) as [|y l] eqn:E; auto.
      assert (In y (select_key coin_id string_dec (coin_id r) df)) as Hy
        by (rewrite E; now left).
      apply filter_In in Hy. destruct Hy as [Hy Hk]. apply has_key_true in Hk.
      exfalso. apply Hx. rewrite <- Hk. now apply in_map.
    + assert (has_key coin_id string_dec (coin_id r) x = false) as ->.
      { apply has_key_false. intros e. apply Hx. rewrite e. now apply in_map. }
      now apply IH.
  - intros k Hk. apply key_in_false in Hk.
    destruct (select_key coin_id string_dec k df) as [|y l] eqn:E; auto.
    assert (In y (select_key coin_id string_dec k df)) as Hy by (rewrite E; now left).
    apply filter_In in Hy. destruct Hy as [Hy Hk']. apply has_key_true in Hk'.
    exfalso. apply Hk. rewrite <- Hk'. now apply in_map.
Qed.

(** C1 (as amended): after an insert call, for the historical tables
    (Crypto_prices, oil_price, stock_price), when the table takes every row
    of the batch (no price of a row is NaN, which SQLite would store as
    NULL in a NOT NULL column, and a volume fits 64 bits), every key of the
    batch has exactly one row, holding the values of the batch's last row
    for that key, and the rows of keys the batch does not carry are
    untouched; for the snapshot table (Cryptocurrencies), when the ids of
    the batch are pairwise distinct, every id of the batch has exactly one
    row, from the batch, and every other row is removed. *)
Theorem insert_leaves_one_row_per_key : forall d : database,
  (forall rows,
     accepted crypto_price_rejected rows ->
     upserted crypto_key key2_eq_dec rows (Crypto_prices d)
       (Crypto_prices (store_after (insert_crypto_prices rows d)))) /\
  (forall rows,
     accepted oil_price_rejected rows ->
     upserted oil_date string_dec rows (oil_price d)
       (oil_price (store_after (insert_oil_prices rows d)))) /\
  (forall rows,
     accepted stock_price_rejected rows ->
     upserted stock_key key2_eq_dec rows (stock_price d)
       (stock_price (store_after (insert_stock_prices rows d)))) /\
  (forall df,
     NoDup (map coin_id df) ->
     snapshot_replaced df
       (Cryptocurrencies (store_after (push_dataframe_to_table df d)))).
Proof.
  intros d. split; [|split; [|split]].
  - intros rows H. rewrite insert_crypto_prices_accepted by assumption.
    apply executemany_replace_upserted.
  - intros rows H. rewrite insert_oil_prices_accepted by assumption.
    apply executemany_replace_upserted.
  - intros rows H. rewrite insert_stock_prices_accepted by assumption.
    apply executemany_replace_upserted.
  - intros df H. destruct (push_distinct_ids df d H) as [_ ->].
    now apply snapshot_replaced_distinct.
Qed.

(** C2: ingesting the same batch twice leaves the store as ingesting it
    once does, for the three historical tables and for the snapshot table
    (the whole database is the same, so the row set and the values are). *)
Theorem ingest_twice_same_store : forall d : database,
  (forall rows,
     store_after (insert_crypto_prices rows (store_after (insert_crypto_prices rows d)))
     = store_after (insert_crypto_prices rows d)) /\
  (forall rows,
     store_after (insert_oil_prices rows (store_after (insert_oil_prices rows d)))
     = store_after (insert_oil_prices rows d)) /\
  (forall rows,
     store_after (insert_stock_prices rows (store_after (insert_stock_prices rows d)))
     = store_after (insert_stock_prices rows d)) /\
  (forall df,
     store_after (push_dataframe_to_table df (store_after (push_dataframe_to_table df d)))
     = store_after (push_dataframe_to_table df d)).
Proof.
  intros d. repeat split; intros rows.
  - destruct (insert_crypto_prices_run rows d) as [n E].
    destruct (insert_crypto_prices_run rows
                (store_after (insert_crypto_prices rows d))) as [n' E'].
    rewrite E'. rewrite E. clear E E'.
    destruct (first_rejected crypto_price_rejected rows); [reflexivity|].
    unfold store_after. cbn [fst snd].
    cbn [Crypto_prices set_Crypto_prices]. now rewrite executemany_replace_idem.
  - destruct (insert_oil_prices_run rows d) as [n E].
    destruct (insert_oil_prices_run rows
                (store_after (insert_oil_prices rows d))) as [n' E'].
    rewrite E'. rewrite E. clear E E'.
    destruct (first_rejected oil_price_rejected rows); [reflexivity|].
    unfold store_after. cbn [fst snd].
    cbn [oil_price set_oil_price]. now rewrite executemany_replace_idem.
  - destruct (insert_stock_prices_run rows d) as [n E].
    destruct (insert_stock_prices_run rows
                (store_after (insert_stock_prices rows d))) as [n' E'].
    rewrite E'. rewrite E. clear E E'.
    destruct (first_rejected stock_price_rejected rows); [reflexivity|].
    unfold store_after. cbn [fst snd].
    cbn [stock_price set_stock_price]. now rewrite executemany_replace_idem.
  - destruct (push_dataframe_to_table_run rows d) as [n [m E]].
    destruct (push_dataframe_to_table_run rows
                (store_after (push_dataframe_to_table rows d))) as [n' [m' E']].
    rewrite E'. rewrite E. clear E E'.
    destruct (insert_all coin_id string_dec rows []); reflexivity.
Qed.

(** C6: the snapshot refresh deletes every row and inserts every row of the
    frame inside one transaction.  For a frame whose ids are pairwise
    distinct the call returns the number of rows, the table it leaves holds
    the rows of the frame and no other (every old row is deleted, every new
    one inserted), and the committed states the database goes through
    during the call are the prior database, some number of times, followed
    by the database with the complete new snapshot, at least once: whenever
    the call is interrupted, a reader finds the prior snapshot or the new
    one, never the emptied table and never some rows of each.  For a frame
    that repeats an id the call raises and the prior database is the only
    state there ever was. *)
Theorem snapshot_refresh_is_atomic : forall (df : list coin_row) (d : database),
  (NoDup (map coin_id df) ->
   exists n m,
     states_seen (push_dataframe_to_table df d)
     = repeat d n ++ repeat (set_Cryptocurrencies df d) (S m) /\
     store_after (push_dataframe_to_table df d) = set_Cryptocurrencies df d /\
     Cryptocurrencies (store_after (push_dataframe_to_table df d)) = df /\
     result_of (push_dataframe_to_table df d) = Returned (List.length df)) /\
  (~ NoDup (map coin_id df) ->
   exists n,
     states_seen (push_dataframe_to_table df d) = repeat d n /\
     store_after (push_dataframe_to_table df d) = d /\
     result_of (push_dataframe_to_table df d) = Raised IntegrityError).
Proof.
  intros df d. destruct (push_dataframe_to_table_run df d) as [n [m E]].
  split; intros Hnd.
  - rewrite (insert_all_distinct coin_id string_dec df [] Hnd) in E by (intros k _ []).
    exists n, m. rewrite E. repeat split.
  - destruct (insert_all coin_id string_dec df []) as [t|] eqn:Ei.
    + apply insert_all_some in Ei. tauto.
    + exists n. rewrite E. repeat split.
Qed.

(** C9 (as amended): when the table takes every row of a batch given to a
    historical insert (no price of a row is NaN, a volume fits 64 bits) and
    the batch carries a key, on several rows or on one, the row stored for
    that key after the call is the last row of the list with that key, and
    the function returns the length of the list. *)
Theorem historical_insert_last_row_wins : forall d : database,
  (forall rows,
     accepted crypto_price_rejected rows ->
     result_of (insert_crypto_prices rows d) = Returned (List.length rows) /\
     forall k r, last_with_key crypto_key key2_eq_dec k rows = Some r ->
       select_key crypto_key key2_eq_dec k
         (Crypto_prices (store_after (insert_crypto_prices rows d))) = [r]) /\
  (forall rows,
     accepted oil_price_rejected rows ->
     result_of (insert_oil_prices rows d) = Returned (List.length rows) /\
     forall k r, last_with_key oil_date string_dec k rows = Some r ->
       select_key oil_date string_dec k
         (oil_price (store_after (insert_oil_prices rows d))) = [r]) /\
  (forall rows,
     accepted stock_price_rejected rows ->
     result_of (insert_stock_prices rows d) = Returned (List.length rows) /\
     forall k r, last_with_key stock_key key2_eq_dec k rows = Some r ->
       select_key stock_key key2_eq_dec k
         (stock_price (store_after (insert_stock_prices rows d))) = [r]).
Proof.
  intros d. split; [|split]; intros rows Hok.
  - rewrite insert_crypto_prices_accepted by assumption. split; [reflexivity|].
    intros k r H. now apply select_executemany_touched.
  - rewrite insert_oil_prices_accepted by assumption. split; [reflexivity|].
    intros k r H. now apply select_executemany_touched.
  - rewrite insert_stock_prices_accepted by assumption. split; [reflexivity|].
    intros k r H. now apply select_executemany_touched.
Qed.

End Store.

(** ** Sorting by a text key, as [sorted] and [ORDER BY] do *)

Section SortByKey.
Context {A : Type}.
Variable key : A -> string.

Fixpoint insert_by_key (x : A) (l : list A) : list A :=
  match l with
  | [] => [x]
  | y :: l' => if String.leb (key x) (key y) then x :: l else y :: insert_by_key x l'
  end.

(** A stable sort on the key, in code-point order. *)
Definition sort_by_key (l : list A) : list A := fold_right insert_by_key [] l.

Definition key_le (a b : A) : Prop := String.leb (key a) (key b) = true.

Lemma insert_by_key_perm x l : Permutation (insert_by_key x l) (x :: l).
Proof.
  induction l as [|y l IH]; simpl; auto.
  destruct (String.leb (key x) (key y)); auto.
  rewrite IH. apply perm_swap.
Qed.

Lemma sort_by_key_perm l : Permutation (sort_by_key l) l.
Proof.
  induction l as [|x l IH]; simpl; auto.
  rewrite insert_by_key_perm. now constructor.
Qed.

Lemma insert_by_key_sorted x l : Sorted key_le l -> Sorted key_le (insert_by_key x l).
Proof.
  induction l as [|y l IH]; simpl; intros H.
  - repeat constructor.
  - destruct (String.leb (key x) (key y)) eqn:E.
    + constructor; auto.
    + inversion H as [|? ? Hs Hh]; subst. constructor; auto.
      assert (key_le y x) as Hyx
        by (destruct (String.leb_total (key x) (key y)); [congruence | assumption]).
      destruct l as [|z l]; simpl.
      * repeat constructor. assumption.
      * inversion Hh; subst. destruct (String.leb (key x) (key z)); constructor; auto.
Qed.

Lemma sort_by_key_sorted l : Sorted key_le (sort_by_key l).
Proof.
  induction l as [|x l IH]; simpl; [constructor | now apply insert_by_key_sorted].
Qed.

End SortByKey.

Lemma map_insert_by_key {A} (key : A -> string) x l :
  map key (insert_by_key key x l) = insert_by_key (fun s => s) (key x) (map key l).
Proof.
  induction l as [|y l IH]; simpl; auto.
  destruct (String.leb (key x) (key y)); simpl; congruence.
Qed.

Lemma map_sort_by_key {A} (key : A -> string) l :
  map key (sort_by_key key l) = sort_by_key (fun s => s) (map key l).
Proof.
  induction l as [|x l IH]; simpl; auto.
  now rewrite map_insert_by_key, IH.
Qed.

(** ** Python dictionaries, in insertion order *)

Section Dict.
Context {V : Type}.

(** [d[k] = v]: in place when the key is there, at the end otherwise. *)
Fixpoint dict_set (k : string) (v : V) (d : list (string * V)) : list (string * V) :=
  match d with
  | [] => [(k, v)]
  | (k', v') :: d' =>
    if String.eqb k' k then (k', v) :: d' else (k', v') :: dict_set k v d'
  end.

(** [d.get(k)] *)
Fixpoint dict_get (k : string) (d : list (string * V)) : option V :=
  match d with
  | [] => None
  | (k', v) :: d' => if String.eqb k' k then Some v else dict_get k d'
  end.

Lemma dict_set_keys k v d :
  map fst (dict_set k v d) = if existsb (String.eqb k) (map fst d)
                             then map fst d else map fst d ++ [k].
Proof.
  induction d as [|[k' v'] d IH]; simpl; auto.
  rewrite (String.eqb_sym k k').
  destruct (String.eqb k' k) eqn:E; simpl; auto.
  rewrite IH. destruct (existsb (String.eqb k) (map fst d)); reflexivity.
Qed.

Lemma dict_set_nodup k v d : NoDup (map fst d) -> NoDup (map fst (dict_set k v d)).
Proof.
  intros H. rewrite dict_set_keys.
  destruct (existsb (String.eqb k) (map fst d)) eqn:E; auto.
  apply NoDup_app; auto.
  - repeat constructor. simpl. tauto.
  - intros x Hx [e | []]. subst x.
    assert (existsb (String.eqb k) (map fst d) = true) as X
      by (apply existsb_exists; exists k; split; [assumption | apply String.eqb_refl]).
    congruence.
Qed.

End Dict.

(** ** JSON values and the crypto daily-price normalizer
       ([coin_daily_price.py]) *)

Section Crypto.
Context {RT : PyRuntime}.

(** What [json.load] and [response.json()] return.  [JNull] is [None]; an
    object is its items, in order, with pairwise distinct keys; the
    characters of a text are its bytes. *)
#[local] Unset Elimination Schemes.
Inductive json : Type :=
| JNull
| JBool (b : bool)
| JInt (z : Z)
| JFloat (x : pyfloat)
| JStr (s : string)
| JArr (l : list json)
| JObj (kv : list (string * json)).
#[local] Set Elimination Schemes.

(** [bool(j)] *)
Definition truthy (j : json) : bool :=
  match j with
  | JNull => false
  | JBool b => b
  | JInt z => negb (z =? 0)%Z
  | JFloat x => float_truthy x
  | JStr s => negb (String.eqb s "")
  | JArr l => match l with [] => false | _ => true end
  | JObj kv => match kv with [] => false | _ => true end
  end.

(** [iter(j)]: the elements of a list, the characters of a string, the keys
    of a dict; [None] when [j] is not iterable ([TypeError]). *)
Definition py_iter (j : json) : option (list json) :=
  match j with
  | JArr l => Some l
  | JStr s => Some (map (fun c => JStr (String c "")) (list_ascii_of_string s))
  | JObj kv => Some (map (fun p => JStr (fst p)) kv)
  | _ => None
  end.

(** [a, b = j] *)
Definition unpack2 (j : json) : option (json * json) :=
  match py_iter j with
  | Some [a; b] => Some (a, b)
  | _ => None
  end.

(** [datetime.fromtimestamp(ts_ms / 1000, tz=timezone.utc).strftime("%Y-%m-%d")];
    [None] when the division or the conversion raises. *)
Definition utc_day (ts_ms : json) : option string :=
  match ts_ms with
  | JInt z => utc_day_of_ms z
  | JBool b => utc_day_of_ms (if b then 1 else 0)
  | JFloat x => utc_day_of_float_ms x
  | _ => None
  end.

(** [float(price)]; [None] when it raises. *)
Definition to_float (price : json) : option pyfloat :=
  match price with
  | JInt z => float_of_int z
  | JBool b => float_of_int (if b then 1 else 0)
  | JFloat x => Some x
  | JStr s => float_of_str s
  | _ => None
  end.

(** [api_data.get("prices") or []]; [None] when [api_data] is not a dict. *)
Definition prices_or_empty (api_data : json) : option json :=
  match api_data with
  | JObj kv =>
    match dict_get "prices" kv with
    | Some v => Some (if truthy v then v else JArr [])
    | None => Some (JArr [])
    end
  | _ => None
  end.

(** The inner loop: [by_date[day] = round(float(price), 6)] for every
    sample, in list order. *)
Fixpoint group_by_date (prices : list json) (by_date : list (string * pyfloat))
  : option (list (string * pyfloat)) :=
  match prices with
  | [] => Some by_date
  | item :: rest =>
    match unpack2 item with
    | None => None
    | Some (ts_ms, price) =>
      match utc_day ts_ms with
      | None => None
      | Some day =>
        match to_float price with
        | None => None
        | Some x => group_by_date rest (dict_set day (round6 x) by_date)
        end
      end
    end
  end.

(** The rows one coin contributes: [sorted(by_date.items())], as records. *)
Definition rows_of_coin (coin_id : string) (api_data : json)
  : option (list crypto_price_row) :=
  match prices_or_empty api_data with
  | None => None
  | Some prices =>
    match py_iter prices with
    | None => None
    | Some samples =>
      match group_by_date samples [] with
      | None => None
      | Some by_date =>
        Some (map (fun p => {| cp_coin_id := coin_id; cp_date := fst p;
                               cp_price_usd := snd p |})
                  (sort_by_key fst by_date))
      end
    end
  end.

(** [process_prices_to_rows(raw_data)], [raw_data] given by its items;
    [None] when it raises. *)
Fixpoint process_prices_to_rows (raw_data : list (string * json))
  : option (list crypto_price_row) :=
  match raw_data with
  | [] => Some []
  | (coin_id, api_data) :: rest =>
    match rows_of_coin coin_id api_data with
    | None => None
    | Some rows =>
      match process_prices_to_rows rest with
      | None => None
      | Some rows' => Some (rows ++ rows')
      end
    end
  end.

(** [store_prices_to_sqlite(rows)] *)
Definition store_prices_to_sqlite (rows : list crypto_price_row) (d : database) :=
  insert_crypto_prices rows d.

(** A market-chart sample [[ts_ms, price]] as the API sends it. *)
Definition sample (tp : Z * pyfloat) : json := JArr [JInt (fst tp); JFloat (snd tp)].

(** The payload of a coin whose price series is [samples]. *)
Definition market_chart (samples : list (Z * pyfloat)) : json :=
  JObj [("prices", JArr (map sample samples))].

Lemma group_by_date_same_day day : forall init t p by_date,
  Forall (fun tp => utc_day_of_ms (fst tp) = Some day) (init ++ [(t, p)]) ->
  by_date = [] \/ (exists v, by_date = [(day, v)]) ->
  group_by_date (map sample (init ++ [(t, p)])) by_date = Some [(day, round6 p)].
Proof.
  induction init as [|[t0 p0] init IH]; intros t p by_date Hday Hby.
  - inversion Hday as [|? ? Ht _]; subst. simpl in *. rewrite Ht.
    destruct Hby as [-> | [v ->]]; simpl; [reflexivity|].
    now rewrite String.eqb_refl.
  - inversion Hday as [|? ? Ht Hrest]; subst. simpl in Ht.
    cbn [map app group_by_date sample unpack2 py_iter utc_day to_float fst snd].
    rewrite Ht. apply IH; auto. right. exists (round6 p0).
    destruct Hby as [-> | [v ->]]; simpl; [reflexivity|].
    now rewrite String.eqb_refl.
Qed.

Lemma sorted_last_is_latest : forall (init : list (Z * pyfloat)) t p,
  StronglySorted Z.lt (map fst (init ++ [(t, p)])) ->
  forall t' p', In (t', p') (init ++ [(t, p)]) -> (t' <= t)%Z.
Proof.
  induction init as [|[t0 p0] init IH]; simpl; intros t p Hs t' p' Hin.
  - destruct Hin as [e | []]. injection e as <- <-. lia.
  - inversion Hs as [|? ? Hs' Hall]; subst.
    destruct Hin as [e | Hin].
    + injection e as <- <-. rewrite Forall_forall in Hall.
      assert (t0 < t)%Z; [|lia]. apply Hall.
      rewrite map_app. apply in_or_app. right. now left.
    + eapply IH; eauto.
Qed.

Lemma rows_of_coin_sorted coin_id api_data rows :
  rows_of_coin coin_id api_data = Some rows ->
  Sorted (key_le cp_date) rows.
Proof.
  unfold rows_of_coin. intros H.
  destruct (prices_or_empty api_data) as [prices|]; [|discriminate].
  destruct (py_iter prices) as [samples|]; [|discriminate].
  destruct (group_by_date samples []) as [by_date|]; [|discriminate].
  injection H as <-.
  pose proof (sort_by_key_sorted fst by_date) as Hs.
  induction Hs as [|x l Hs IH Hh]; simpl; constructor; auto.
  destruct Hh; simpl; constructor. assumption.
Qed.

Lemma group_by_date_nodup : forall samples by_date by_date',
  group_by_date samples by_date = Some by_date' ->
  NoDup (map fst by_date) -> NoDup (map fst by_date').
Proof.
  induction samples as [|item rest IH]; simpl; intros by_date by_date' H Hnd.
  - now injection H as <-.
  - destruct (unpack2 item) as [[ts_ms price]|]; [|discriminate].
    destruct (utc_day ts_ms) as [day|]; [|discriminate].
    destruct (to_float price) as [x|]; [|discriminate].
    eapply IH; eauto. now apply dict_set_nodup.
Qed.

(** One row per day: the dates a coin contributes are pairwise distinct. *)
Lemma rows_of_coin_one_per_day coin_id api_data rows :
  rows_of_coin coin_id api_data = Some rows ->
  NoDup (map cp_date rows).
Proof.
  unfold rows_of_coin. intros H.
  destruct (prices_or_empty api_data) as [prices|]; [|discriminate].
  destruct (py_iter prices) as [samples|]; [|discriminate].
  destruct (group_by_date samples []) as [by_date|] eqn:E; [|discriminate].
  injection H as <-. rewrite map_map. cbn [cp_date].
  apply group_by_date_nodup in E; [|constructor].
  eapply Permutation_NoDup; [|exact E].
  symmetry. apply Permutation_map. apply sort_by_key_perm.
Qed.

(** C4: for every coin and every non-empty list of samples of one UTC day,
    given in increasing time order, the normalizer emits exactly one row,
    for that day, whose price is the price of the chronologically last
    sample rounded to 6 decimals; and the rows any coin contributes are
    sorted by date, one per date. *)
Theorem same_day_samples_collapse_to_last :
  forall (coin : string) (day : string) (init : list (Z * pyfloat)) (t : Z) (p : pyfloat),
    Forall (fun tp => utc_day_of_ms (fst tp) = Some day) (init ++ [(t, p)]) ->
    StronglySorted Z.lt (map fst (init ++ [(t, p)])) ->
    (forall t' p', In (t', p') (init ++ [(t, p)]) -> (t' <= t)%Z) /\
    process_prices_to_rows [(coin, market_chart (init ++ [(t, p)]))] =
      Some [{| cp_coin_id := coin; cp_date := day; cp_price_usd := round6 p |}] /\
    (forall api_data rows,
       rows_of_coin coin api_data = Some rows ->
       Sorted (key_le cp_date) rows /\ NoDup (map cp_date rows)).
Proof.
  intros coin day init t p Hday Hsorted. split; [|split].
  - now apply sorted_last_is_latest.
  - unfold process_prices_to_rows, rows_of_coin, market_chart, prices_or_empty.
    cbn [dict_get]. rewrite String.eqb_refl.
    assert (truthy (JArr (map sample (init ++ [(t, p)]))) = true) as ->
      by (destruct init; reflexivity).
    cbn [py_iter].
    rewrite (group_by_date_same_day day init t p []) by auto.
    reflexivity.
  - intros api_data rows H. split;
      [eapply rows_of_coin_sorted | eapply rows_of_coin_one_per_day]; eauto.
Qed.

End Crypto.

(** ** The outside world: network, Yahoo Finance, clock and console *)

Section World.
Context {RT : PyRuntime}.

(** What [requests.get] hands back: the status and the body, [None] when
    the body is not JSON. *)
Record response := {
  status_code : Z;
  body : option json
}.

(** The answer to one request: a response, or no response at all
    ([requests.get] raises [ConnectionError]). *)
Inductive net_reply : Type :=
| Reply (r : response)
| NoReply.

(** A row of [Ticker.history]: the trading day (a timestamp) and the OHLCV
    columns, floats where a missing value is NaN. *)
Record raw_row := {
  r_date : Z;
  r_open : pyfloat;
  r_high : pyfloat;
  r_low : pyfloat;
  r_close : pyfloat;
  r_volume : pyfloat
}.

(** What the scripts print. *)
Inductive log : Type :=
| RateLimitedWaiting
| ErrorFetching (coin_id : string) (e : exn)
| FetchingCoin (i : nat) (coin_id : string)
| FetchingPage (page : nat)
| WaitingNextRequest
| Downloading (ticker : string)
| Retrieved (ticker : string) (n : nat)
| Skipping (ticker : string).

Inductive event : Type :=
| Get (url : string)
| History (ticker : string)
| Sleep (seconds : Z)
| Print (msg : log).

(** The world a script runs in.  [network n url] is the answer to the
    [n]-th call of the run when it is a GET of [url], [yahoo n ticker] when
    it is a history download; [calls] counts the calls made, [trace] lists
    what the script did, oldest first. *)
Record world := {
  network : nat -> string -> net_reply;
  yahoo : nat -> string -> outcome (list raw_row);
  calls : nat;
  trace : list event
}.

Definition io (A : Type) : Type := M world A.

Definition emit (e : event) (w : world) : world :=
  {| network := network w; yahoo := yahoo w; calls := calls w;
     trace := trace w ++ [e] |}.

Definition called (e : event) (w : world) : world :=
  {| network := network w; yahoo := yahoo w; calls := S (calls w);
     trace := trace w ++ [e] |}.

Definition print (msg : log) : io unit := fun w => (Returned tt, emit (Print msg) w).

(** [time.sleep(seconds)] *)
Definition sleep (seconds : Z) : io unit := fun w => (Returned tt, emit (Sleep seconds) w).

(** [requests.get(url)] *)
Definition requests_get (url : string) : io response :=
  fun w => match network w (calls w) url with
           | Reply r => (Returned r, called (Get url) w)
           | NoReply => (Raised ConnectionError, called (Get url) w)
           end.

(** [yf.Ticker(ticker).history(...)] *)
Definition yf_history (ticker : string) : io (list raw_row) :=
  fun w => (yahoo w (calls w) ticker, called (History ticker) w).

(** [response.raise_for_status()] *)
Definition raise_for_status (r : response) : io unit :=
  if ((400 <=? status_code r) && (status_code r <? 600))%Z
  then raise (HTTPError (status_code r))
  else ret tt.

(** [response.json()] *)
Definition response_json (r : response) : io json :=
  match body r with
  | Some j => ret j
  | None => raise JSONDecodeError
  end.

(** *** [coin_daily_price.py] *)

Definition TOP_COIN_IDS : list string :=
  ["bitcoin"; "ethereum"; "tether"; "binancecoin"; "solana"; "ripple";
   "usd-coin"; "cardano"; "avalanche-2"; "dogecoin"].

Definition MARKET_CHART_URL (coin_id : string) : string :=
  "https://api.coingecko.com/api/v3/coins/" ++ coin_id
  ++ "/market_chart?vs_currency=usd&days=365".

Definition DELAY_SECONDS : Z := 15.
Definition RETRY_DELAY : Z := 60.
Definition MAX_RETRIES : nat := 3.

(** One turn of the [for attempt in range(MAX_RETRIES)] loop of
    [fetch_market_chart]: [Some v] when the turn ends in [return v], [None]
    when the loop goes on.  The [return response.json()] closes the [try]
    block, after the [if], so it is reached on every path that does not
    raise. *)
Definition fetch_market_chart_attempt (url coin_id : string) (attempt : nat)
  : io (option json) :=
  try_except
    (response <- requests_get url ;;
     (if (status_code response =? 429)%Z then
        if (attempt <? MAX_RETRIES - 1)%nat
        then print RateLimitedWaiting ;; sleep RETRY_DELAY
        else raise_for_status response
      else raise_for_status response) ;;
     j <- response_json response ;;
     ret (Some j))
    is_RequestException
    (fun e => print (ErrorFetching coin_id e) ;; ret (Some JNull)).

Fixpoint fetch_market_chart_loop (url coin_id : string) (attempts : list nat)
  : io json :=
  match attempts with
  | [] => ret JNull
  | attempt :: rest =>
    r <- fetch_market_chart_attempt url coin_id attempt ;;
    match r with
    | Some v => ret v
    | None => fetch_market_chart_loop url coin_id rest
    end
  end.

(** [fetch_market_chart(coin_id)]; [JNull] is Python's [None]. *)
Definition fetch_market_chart (coin_id : string) : io json :=
  fetch_market_chart_loop (MARKET_CHART_URL coin_id) coin_id (seq 0 MAX_RETRIES).

Definition is_None (j : json) : bool :=
  match j with JNull => true | _ => false end.

(** The loop of [fetch_all_daily_prices], over [enumerate(coins, 1)]. *)
Fixpoint fetch_all_daily_prices_loop (coins : list string) (i total : nat)
  (result : list (string * json)) : io (list (string * json)) :=
  match coins with
  | [] => ret result
  | coin_id :: rest =>
    print (FetchingCoin i coin_id) ;;
    data <- fetch_market_chart coin_id ;;
    (if (i <? total)%nat then sleep DELAY_SECONDS else ret tt) ;;
    fetch_all_daily_prices_loop rest (S i) total
      (if is_None data then result else dict_set coin_id data result)
  end.

Definition fetch_all_daily_prices_of (coins : list string) : io (list (string * json)) :=
  fetch_all_daily_prices_loop coins 1 (List.length coins) [].

Definition fetch_all_daily_prices : io (list (string * json)) :=
  fetch_all_daily_prices_of TOP_COIN_IDS.

(** *** [collect_coingecko_data.py] *)

Definition BASE_URL (page : nat) : string :=
  "https://api.coingecko.com/api/v3/coins/markets?vs_currency=inr&per_page=250&order=market_cap_desc&page="
  ++ NilEmpty.string_of_uint (Nat.to_uint page) ++ "&sparkline=False".


(** The loop of [fetch_page]; [last] is the variable [response]. *)
Fixpoint fetch_page_loop (url : string) (attempts : list nat) (last : option response)
  : io json :=
  match attempts with
  | [] =>
    match last with
    | Some response => response_json response
    | None => raise NameError
    end
  | attempt :: rest =>
    response <- requests_get url ;;
    if (status_code response =? 429)%Z then
      (if (attempt <? MAX_RETRIES - 1)%nat
       then print RateLimitedWaiting ;; sleep RETRY_DELAY
       else raise_for_status response) ;;
      fetch_page_loop url rest (Some response)
    else
      raise_for_status response ;;
      response_json response
  end.

Definition fetch_page (page : nat) : io json :=
  fetch_page_loop (BASE_URL page) (seq 0 MAX_RETRIES) None.

(** [all_data.extend(x)] *)
Definition extend (all_data : list json) (x : json) : io (list json) :=
  match py_iter x with
  | Some items => ret (all_data ++ items)
  | None => raise TypeError
  end.

Fixpoint fetch_all_pages_loop (pages : list nat) (num_pages : nat)
  (all_data : list json) : io (list json) :=
  match pages with
  | [] => ret all_data
  | page :: rest =>
    print (FetchingPage page) ;;
    data <- fetch_page page ;;
    all_data' <- extend all_data data ;;
    (if (page <? num_pages)%nat
     then print WaitingNextRequest ;; sleep DELAY_SECONDS
     else ret tt) ;;
    fetch_all_pages_loop rest num_pages all_data'
  end.

Definition fetch_all_pages_of (num_pages : nat) : io (list json) :=
  fetch_all_pages_loop (seq 1 num_pages) num_pages [].


(** *** [stock_price.py] *)

Definition TICKERS : list string := ["^GSPC"; "^IXIC"; "^NSEI"].
Definition DELAY_BETWEEN_TICKERS : Z := 3.
Definition RATE_LIMIT_RETRIES : nat := 4.
Definition RATE_LIMIT_WAIT_SEC : Z := 45.

(** [ticker.replace("^", "")] *)
Fixpoint remove_carets (s : string) : string :=
  match s with
  | EmptyString => EmptyString
  | String c s' =>
    if Ascii.eqb c "^" then remove_carets s' else String c (remove_carets s')
  end.

(** A row of the frame [download_ticker_history] returns: the OHLCV columns
    and the [ticker] column. *)
Record frame_row := {
  f_date : Z;
  f_open : pyfloat;
  f_high : pyfloat;
  f_low : pyfloat;
  f_close : pyfloat;
  f_volume : pyfloat;
  f_ticker : string
}.

(** A row of the combined frame, once [volume] is an integer column. *)
Record combined_row := {
  c_date : Z;
  c_open : pyfloat;
  c_high : pyfloat;
  c_low : pyfloat;
  c_close : pyfloat;
  c_volume : Z;
  c_ticker : string
}.

Definition with_ticker (ticker : string) (r : raw_row) : frame_row :=
  {| f_date := r_date r; f_open := r_open r; f_high := r_high r; f_low := r_low r;
     f_close := r_close r; f_volume := r_volume r; f_ticker := ticker |}.

(** [download_ticker_history(ticker, start, end, session)]: an empty frame
    is returned as it came. *)
Definition download_ticker_history (ticker : string) : io (list frame_row) :=
  df <- yf_history ticker ;;
  print (Retrieved ticker (List.length df)) ;;
  match df with
  | [] => ret []
  | _ => ret (map (with_ticker (remove_carets ticker)) df)
  end.

Definition is_YFRateLimitError (e : exn) : bool :=
  match e with YFRateLimitError => true | _ => false end.

(** The [for attempt in range(1, RATE_LIMIT_RETRIES + 1)] loop; [df] is the
    variable of that name, [None] while it is unbound.  A turn ends in
    [break] with the frame downloaded ([inl]) or goes on ([inr]). *)
Fixpoint download_attempts (t : string) (attempts : list nat)
  (df : option (list frame_row)) : io (list frame_row) :=
  match attempts with
  | [] =>
    match df with
    | Some d => ret d
    | None => raise NameError
    end
  | attempt :: rest =>
    r <- try_except
           (print (Downloading t) ;;
            d <- download_ticker_history t ;;
            ret (inl d))
           is_YFRateLimitError
           (fun _ =>
              if (attempt <? RATE_LIMIT_RETRIES)%nat
              then print RateLimitedWaiting ;; sleep RATE_LIMIT_WAIT_SEC ;; ret (inr df)
              else print (Skipping t) ;; ret (inr (Some []))) ;;
    match r with
    | inl d => ret d
    | inr df' => download_attempts t rest df'
    end
  end.

(** The [for i, t in enumerate(tickers)] loop. *)
Fixpoint download_frames (tickers : list string) (i : nat)
  (df : option (list frame_row)) (frames : list (list frame_row))
  : io (list (list frame_row)) :=
  match tickers with
  | [] => ret frames
  | t :: rest =>
    (if (0 <? i)%nat then sleep DELAY_BETWEEN_TICKERS else ret tt) ;;
    d <- download_attempts t (seq 1 RATE_LIMIT_RETRIES) df ;;
    download_frames rest (S i) (Some d)
      (match d with [] => frames | _ => frames ++ [d] end)
  end.

(** A row that [dropna(subset=["open", "high", "low", "close", "volume"])]
    keeps. *)
Definition complete (r : frame_row) : bool :=
  negb (isnan (f_open r)) && negb (isnan (f_high r)) && negb (isnan (f_low r))
  && negb (isnan (f_close r)) && negb (isnan (f_volume r)).

Definition dropna (df : list frame_row) : list frame_row := filter complete df.

Definition int_volume (r : frame_row) : option combined_row :=
  match int_of_float (f_volume r) with
  | Some v => Some {| c_date := f_date r; c_open := f_open r; c_high := f_high r;
                      c_low := f_low r; c_close := f_close r; c_volume := v;
                      c_ticker := f_ticker r |}
  | None => None
  end.

(** [combined["volume"].astype(int)]; [None] when a value has no integer. *)
Fixpoint astype_int (df : list frame_row) : option (list combined_row) :=
  match df with
  | [] => Some []
  | r :: df' =>
    match int_volume r, astype_int df' with
    | Some r', Some out => Some (r' :: out)
    | _, _ => None
    end
  end.

(** The end of [download_all_tickers]: concatenate, drop, cast, sort. *)
Definition combine (frames : list (list frame_row)) : io (list combined_row) :=
  match frames with
  | [] => ret []
  | _ =>
    match astype_int (dropna (List.concat frames)) with
    | Some combined => ret (sort_index combined_row c_date combined)
    | None => raise ValueError
    end
  end.

Definition download_all_tickers (tickers : list string) : io (list combined_row) :=
  frames <- download_frames tickers 0 None [] ;;
  combine frames.

Definition stock_tuple (r : combined_row) : stock_price_row :=
  {| st_date := timestamp_ymd (c_date r);
     st_open := round6 (c_open r);
     st_high := round6 (c_high r);
     st_low := round6 (c_low r);
     st_close := round6 (c_close r);
     st_volume := c_volume r;
     st_ticker := c_ticker r |}.

(** [prepare_stock_price_rows(df)] *)
Definition prepare_stock_price_rows (df : list combined_row) : list stock_price_row :=
  map stock_tuple df.

(** *** What a run leaves in the world *)

(** The world after one more event: a request counts as a call. *)
Definition record (w : world) (e : event) : world :=
  match e with
  | Get _ | History _ => called e w
  | _ => emit e w
  end.

Definition replay (events : list event) (w : world) : world :=
  fold_left record events w.

(** The error a reply makes [fetch_market_chart] and [fetch_page] meet at
    once: no reply, an error status other than 429, or a body that is not
    JSON. *)
Definition failure_of (r : net_reply) : option exn :=
  match r with
  | NoReply => Some ConnectionError
  | Reply r =>
    if (status_code r =? 429)%Z then None
    else if ((400 <=? status_code r) && (status_code r <? 600))%Z
         then Some (HTTPError (status_code r))
         else match body r with
              | Some _ => None
              | None => Some JSONDecodeError
              end
  end.

Lemma failure_is_RequestException r e :
  failure_of r = Some e -> is_RequestException e = true.
Proof.
  destruct r as [r|]; simpl.
  - destruct (status_code r =? 429)%Z; [discriminate|].
    destruct ((400 <=? status_code r) && (status_code r <? 600))%Z.
    + intros H. now injection H as <-.
    + destruct (body r); [discriminate|]. intros H. now injection H as <-.
  - intros H. now injection H as <-.
Qed.

Ltac run_io :=
  unfold bind, try_except, requests_get, yf_history, raise_for_status,
    response_json, print, sleep, ret, raise;
  cbn [network yahoo calls trace called emit fst snd].

(** A throttled first answer: [fetch_market_chart] sleeps once and returns
    the body of that answer; it asks no second time. *)
Lemma fetch_market_chart_throttled coin_id w r b :
  network w (calls w) (MARKET_CHART_URL coin_id) = Reply r ->
  status_code r = 429%Z ->
  body r = Some b ->
  fetch_market_chart coin_id w =
  (Returned b,
   replay [Get (MARKET_CHART_URL coin_id); Print RateLimitedWaiting; Sleep RETRY_DELAY] w).
Proof.
  intros Hn Hs Hb. unfold fetch_market_chart, MAX_RETRIES.
  cbn [seq fetch_market_chart_loop]. unfold fetch_market_chart_attempt.
  run_io. rewrite Hn, Hs. cbn [Z.eqb Pos.eqb Nat.ltb Nat.leb MAX_RETRIES Nat.sub].
  rewrite Hb. reflexivity.
Qed.





(** A page that is throttled on every attempt: three requests, a wait of
    [RETRY_DELAY] after the first and after the second, then the HTTP error
    of the third is raised. *)
Lemma fetch_page_always_throttled page w (rs : nat -> response) :
  (forall n, network w n (BASE_URL page) = Reply (rs n)) ->
  (forall n, status_code (rs n) = 429%Z) ->
  fetch_page page w =
  (Raised (HTTPError 429),
   replay [Get (BASE_URL page); Print RateLimitedWaiting; Sleep RETRY_DELAY;
           Get (BASE_URL page); Print RateLimitedWaiting; Sleep RETRY_DELAY;
           Get (BASE_URL page)] w).
Proof.
  intros Hn Hs. unfold fetch_page, MAX_RETRIES. cbn [seq fetch_page_loop].
  remember (BASE_URL page) as url eqn:Eurl. clear Eurl.
  run_io. rewrite Hn, Hs. cbn. rewrite Hn, Hs. cbn. rewrite Hn, Hs. reflexivity.
Qed.






End World.

(** ** The queries of [data_report.py] *)

Section Query.
Context {RT : PyRuntime}.

(** [l LEFT JOIN r ON on]: every row of [l], once per matching row of [r],
    and once with nulls when none matches. *)
Definition left_join {A B} (on : A -> B -> bool) (l : list A) (r : list B)
  : list (A * option B) :=
  flat_map (fun a => match filter (on a) r with
                     | [] => [(a, None)]
                     | matches => map (fun b => (a, Some b)) matches
                     end) l.

(** [(SELECT date, price_usd FROM Crypto_prices WHERE coin_id = ?)] *)
Definition price_series (coin : string) (d : database) : list (string * pyfloat) :=
  map (fun r => (cp_date r, cp_price_usd r))
      (filter (fun r => String.eqb (cp_coin_id r) coin) (Crypto_prices d)).

(** [(SELECT date, close FROM stock_price WHERE ticker = ?)] *)
Definition close_series (ticker : string) (d : database) : list (string * pyfloat) :=
  map (fun r => (st_date r, st_close r))
      (filter (fun r => String.eqb (st_ticker r) ticker) (stock_price d)).

(** ["SELECT * FROM stock_price WHERE ticker = ? ORDER BY date"], the first
    query of [_queries_stock(ticker)]. *)
Definition all_stock_prices_for_ticker (ticker : string) (d : database)
  : list stock_price_row :=
  sort_by_key st_date
    (filter (fun r => String.eqb (st_ticker r) ticker) (stock_price d)).

Definition joined_row : Type :=
  oil_price_row * option (string * pyfloat) * option (string * pyfloat)
  * option (string * pyfloat).

Definition joined_date (x : joined_row) : string := oil_date (fst (fst (fst x))).

(** The [FROM] clause of [snapshot_sql]: [oil_price o] left-joined, on the
    date, with the Bitcoin prices, the closes of [^GSPC] and the closes of
    [^NSEI], each a subquery of its own. *)
Definition snapshot_join (d : database) : list joined_row :=
  left_join (fun x n => String.eqb (oil_date (fst (fst x))) (fst n))
    (left_join (fun x s => String.eqb (oil_date (fst x)) (fst s))
       (left_join (fun o b => String.eqb (oil_date o) (fst b))
          (oil_price d) (price_series "bitcoin" d))
       (close_series "^GSPC" d))
    (close_series "^NSEI" d).

(** A row of the daily market snapshot. *)
Record snapshot_row := {
  snap_date : string;
  btc_price : option pyfloat;
  snap_oil_price : pyfloat;
  sp500_close : option pyfloat;
  nifty_close : option pyfloat
}.

Definition snapshot_select (x : joined_row) : snapshot_row :=
  {| snap_date := joined_date x;
     btc_price := option_map snd (snd (fst (fst x)));
     snap_oil_price := oil_price_usd (fst (fst (fst x)));
     sp500_close := option_map snd (snd (fst x));
     nifty_close := option_map snd (snd x) |}.

(** [date >= ? AND date <= ?], on text. *)
Definition in_window (start_s end_s date : string) : bool :=
  String.leb start_s date && String.leb date end_s.

(** [run_sql(snapshot_sql, [start_s, end_s])] in
    [page_filters_exploration]. *)
Definition snapshot_sql (d : database) (start_s end_s : string) : list snapshot_row :=
  sort_by_key snap_date
    (map snapshot_select
       (filter (fun x => in_window start_s end_s (joined_date x)) (snapshot_join d))).

Lemma in_left_join {A B} (on : A -> B -> bool) l r a ob :
  In (a, ob) (left_join on l r) <->
  In a l /\ match ob with
            | None => filter (on a) r = []
            | Some b => In b (filter (on a) r)
            end.
Proof.
  unfold left_join. rewrite in_flat_map. split.
  - intros [a' [Ha H]]. destruct (filter (on a') r) as [|m ms] eqn:E.
    + destruct H as [e | []]. injection e as <- <-. auto.
    + apply in_map_iff in H. destruct H as [b [e Hb]]. injection e as <- <-.
      rewrite E. auto.
  - intros [Ha H]. exists a. split; auto.
    destruct ob as [b|].
    + destruct (filter (on a) r) as [|m ms]; [destruct H|].
      apply in_map_iff. exists b. auto.
    + rewrite H. now left.
Qed.

(** A join on a key that is unique on the right does not multiply rows. *)
Lemma left_join_unique_right {A} (ka : A -> string) (r : list (string * pyfloat)) :
  NoDup (map fst r) ->
  forall l, map fst (left_join (fun a b => String.eqb (ka a) (fst b)) l r) = l.
Proof.
  intros Hnd.
  assert (forall k, filter (fun b : string * pyfloat => String.eqb k (fst b)) r = [] \/
                    exists b, filter (fun b => String.eqb k (fst b)) r = [b]) as Hone.
  { intros k. clear -Hnd. induction r as [|x r IH]; simpl; auto.
    inversion Hnd as [|? ? Hx Hnd']; subst.
    destruct (String.eqb k (fst x)) eqn:E.
    - right. exists x. f_equal. apply String.eqb_eq in E. subst k.
      destruct (filter (fun b => String.eqb (fst x) (fst b)) r) as [|y l] eqn:F; auto.
      assert (In y (filter (fun b => String.eqb (fst x) (fst b)) r)) as Hy
        by (rewrite F; now left).
      apply filter_In in Hy. destruct Hy as [Hy Hk]. apply String.eqb_eq in Hk.
      exfalso. apply Hx. rewrite Hk. now apply in_map.
    - now apply IH. }
  unfold left_join. induction l as [|a l IH]; auto.
  cbn [flat_map]. rewrite map_app, IH.
  destruct (Hone (ka a)) as [-> | [b ->]]; reflexivity.
Qed.

Lemma close_series_dates_unique ticker d :
  pk_unique stock_key (stock_price d) -> NoDup (map fst (close_series ticker d)).
Proof.
  unfold pk_unique, close_series. rewrite map_map. cbn [fst].
  induction (stock_price d) as [|x t IH]; simpl; intros H; [constructor|].
  inversion H as [|? ? Hx Ht]; subst.
  destruct (String.eqb (st_ticker x) ticker) eqn:E; simpl; auto.
  constructor; auto. intros Hin. apply Hx.
  apply in_map_iff in Hin. destruct Hin as [y [Hd Hy]].
  apply filter_In in Hy. destruct Hy as [Hy Ht'].
  apply String.eqb_eq in E, Ht'. apply in_map_iff. exists y. split; auto.
  unfold stock_key. congruence.
Qed.

Lemma price_series_dates_unique coin d :
  pk_unique crypto_key (Crypto_prices d) -> NoDup (map fst (price_series coin d)).
Proof.
  unfold pk_unique, price_series. rewrite map_map. cbn [fst].
  induction (Crypto_prices d) as [|x t IH]; simpl; intros H; [constructor|].
  inversion H as [|? ? Hx Ht]; subst.
  destruct (String.eqb (cp_coin_id x) coin) eqn:E; simpl; auto.
  constructor; auto. intros Hin. apply Hx.
  apply in_map_iff in Hin. destruct Hin as [y [Hd Hy]].
  apply filter_In in Hy. destruct Hy as [Hy Ht'].
  apply String.eqb_eq in E, Ht'. apply in_map_iff. exists y. split; auto.
  unfold crypto_key. congruence.
Qed.

(** Every commodity row is in the join exactly once. *)
Lemma snapshot_join_keeps_oil d :
  pk_unique crypto_key (Crypto_prices d) ->
  pk_unique stock_key (stock_price d) ->
  map (fun x : joined_row => fst (fst (fst x))) (snapshot_join d) = oil_price d.
Proof.
  intros Hc Hs. unfold snapshot_join.
  rewrite <- (left_join_unique_right oil_date (price_series "bitcoin" d)
                (price_series_dates_unique "bitcoin" d Hc) (oil_price d)) at 2.
  rewrite <- (left_join_unique_right (fun x => oil_date (fst x)) (close_series "^GSPC" d)
                (close_series_dates_unique "^GSPC" d Hs)
                (left_join (fun o b => String.eqb (oil_date o) (fst b))
                   (oil_price d) (price_series "bitcoin" d))) at 2.
  rewrite <- (left_join_unique_right (fun x => oil_date (fst (fst x)))
                (close_series "^NSEI" d)
                (close_series_dates_unique "^NSEI" d Hs)
                (left_join (fun x s => String.eqb (oil_date (fst x)) (fst s))
                   (left_join (fun o b => String.eqb (oil_date o) (fst b))
                      (oil_price d) (price_series "bitcoin" d))
                   (close_series "^GSPC" d))) at 2.
  rewrite !map_map. reflexivity.
Qed.

Lemma no_match_iff ticker d date :
  filter (fun s : string * pyfloat => String.eqb date (fst s)) (close_series ticker d) = [] <->
  ~ exists s, In s (stock_price d) /\ st_ticker s = ticker /\ st_date s = date.
Proof.
  split.
  - intros H [s [Hin [Ht Hd]]].
    assert (In (st_date s, st_close s)
              (filter (fun s => String.eqb date (fst s)) (close_series ticker d))) as X.
    { apply filter_In. split.
      - unfold close_series. apply in_map_iff. exists s. split; auto.
        apply filter_In. split; auto. now apply String.eqb_eq.
      - simpl. apply String.eqb_eq. auto. }
    rewrite H in X. destruct X.
  - intros H.
    destruct (filter (fun s => String.eqb date (fst s)) (close_series ticker d))
      as [|y l] eqn:E; auto.
    exfalso. apply H.
    assert (In y (filter (fun s => String.eqb date (fst s)) (close_series ticker d))) as Hy
      by (rewrite E; now left).
    apply filter_In in Hy. destruct Hy as [Hy Hd]. apply String.eqb_eq in Hd.
    unfold close_series in Hy. apply in_map_iff in Hy. destruct Hy as [s [<- Hs]].
    apply filter_In in Hs. destruct Hs as [Hs Ht]. apply String.eqb_eq in Ht.
    exists s. simpl in Hd. auto.
Qed.

Lemma option_map_none {A B} (f : A -> B) o : option_map f o = None <-> o = None.
Proof. destruct o; simpl; split; congruence. Qed.

(** C8: in every stored state (the primary keys hold), the left join of the
    snapshot query between the commodity series and the equity series
    contains every commodity row exactly once, whatever number of tickers
    share its date, since each ticker is joined through a subquery of its
    own; the snapshot shows every commodity date of the window, once, in date
    order; and an equity column is null exactly when the store has no row
    of that ticker for the date. *)
Theorem oil_left_join_complete : forall d : database,
  pk_unique crypto_key (Crypto_prices d) ->
  pk_unique stock_key (stock_price d) ->
  map (fun x : joined_row => fst (fst (fst x))) (snapshot_join d) = oil_price d /\
  (forall start_s end_s,
     map snap_date (snapshot_sql d start_s end_s) =
     sort_by_key (fun s => s)
       (filter (in_window start_s end_s) (map oil_date (oil_price d)))) /\
  (forall start_s end_s row,
     In row (snapshot_sql d start_s end_s) ->
     (sp500_close row = None <->
      ~ exists s, In s (stock_price d) /\ st_ticker s = "^GSPC" /\ st_date s = snap_date row) /\
     (nifty_close row = None <->
      ~ exists s, In s (stock_price d) /\ st_ticker s = "^NSEI" /\ st_date s = snap_date row)).
Proof.
  intros d Hc Hs. split; [|split].
  - now apply snapshot_join_keeps_oil.
  - intros start_s end_s. unfold snapshot_sql.
    rewrite map_sort_by_key, map_map. cbn [snap_date snapshot_select].
    f_equal. rewrite <- (snapshot_join_keeps_oil d Hc Hs).
    rewrite map_map. unfold joined_date.
    induction (snapshot_join d) as [|x l IH]; simpl; auto.
    destruct (in_window start_s end_s (oil_date (fst (fst (fst x))))); simpl; congruence.
  - intros start_s end_s row Hrow. unfold snapshot_sql in Hrow.
    apply (Permutation_in _ (sort_by_key_perm snap_date _)) in Hrow.
    apply in_map_iff in Hrow. destruct Hrow as [x [<- Hx]].
    apply filter_In in Hx. destruct Hx as [Hx _].
    destruct x as [[[o ob] os] on]. unfold snapshot_join in Hx.
    apply in_left_join in Hx. destruct Hx as [Hx Hn].
    apply in_left_join in Hx. destruct Hx as [_ Hsp].
    cbn [sp500_close nifty_close snap_date snapshot_select fst snd] in *.
    unfold joined_date. cbn [fst snd].
    rewrite !option_map_none. split.
    + rewrite <- no_match_iff. destruct os as [s|]; split; try congruence; auto.
      intros E. rewrite E in Hsp. destruct Hsp.
    + rewrite <- no_match_iff. destruct on as [s|]; split; try congruence; auto.
      intros E. rewrite E in Hn. destruct Hn.
Qed.

End Query.

(** ** What the equity normalizer emits *)

Section Equity.
Context {RT : PyRuntime}.

(** The tuple a complete row of a downloaded frame becomes. *)
Definition tuple_of (r : frame_row) (v : Z) : stock_price_row :=
  {| st_date := timestamp_ymd (f_date r);
     st_open := round6 (f_open r);
     st_high := round6 (f_high r);
     st_low := round6 (f_low r);
     st_close := round6 (f_close r);
     st_volume := v;
     st_ticker := f_ticker r |}.

Lemma astype_int_in : forall df combined,
  astype_int df = Some combined ->
  forall c, In c combined <-> exists r, In r df /\ int_volume r = Some c.
Proof.
  induction df as [|r df IH]; simpl; intros combined H c.
  - injection H as <-. split; [intros [] | intros [r [[] _]]].
  - destruct (int_volume r) as [r'|] eqn:E; [|discriminate].
    destruct (astype_int df) as [out|]; [|discriminate].
    injection H as <-. simpl. rewrite (IH out eq_refl c). split.
    + intros [<- | [x [Hx Hc]]]; [exists r | exists x]; auto.
    + intros [x [[<- | Hx] Hc]]; [left; congruence | right; exists x; auto].
Qed.

(** The rows emitted for the frames downloaded: one for each row that has
    all five OHLCV values, with the prices rounded, the volume an integer
    and the [ticker] column of the frame; none for a row with a missing
    value. *)
Lemma equity_rows_characterised frames combined w w' :
  combine frames w = (Returned combined, w') ->
  forall out,
    In out (prepare_stock_price_rows combined) <->
    exists r v, In r (List.concat frames) /\ complete r = true /\
                int_of_float (f_volume r) = Some v /\ out = tuple_of r v.
Proof.
  unfold combine. intros H out.
  destruct frames as [|f frames].
  - injection H as <- _. simpl. split; [intros [] | intros [r [v [[] _]]]].
  - destruct (astype_int (dropna (List.concat (f :: frames)))) as [rows|] eqn:E;
      [|discriminate].
    injection H as <- _. unfold prepare_stock_price_rows. rewrite in_map_iff.
    split.
    + intros [c [<- Hc]].
      apply (Permutation_in _ (sort_index_perm _ c_date rows)) in Hc.
      apply (astype_int_in _ _ E) in Hc. destruct Hc as [r [Hr Hv]].
      apply filter_In in Hr. destruct Hr as [Hr Hcomp].
      unfold int_volume in Hv. destruct (int_of_float (f_volume r)) as [v|] eqn:Ev;
        [|discriminate].
      injection Hv as <-. exists r, v. auto.
    + intros [r [v [Hr [Hcomp [Hv ->]]]]].
      exists {| c_date := f_date r; c_open := f_open r; c_high := f_high r;
                c_low := f_low r; c_close := f_close r; c_volume := v;
                c_ticker := f_ticker r |}.
      split; [reflexivity|].
      apply (Permutation_in _ (Permutation_sym (sort_index_perm _ c_date rows))).
      apply (astype_int_in _ _ E). exists r. split.
      * apply filter_In. auto.
      * unfold int_volume. now rewrite Hv.
Qed.

(** The [ticker] column of a frame is the ticker without its carets. *)
Lemma download_ticker_history_ticker ticker w df w' :
  download_ticker_history ticker w = (Returned df, w') ->
  Forall (fun r => f_ticker r = remove_carets ticker) df.
Proof.
  unfold download_ticker_history, bind, yf_history, print, ret.
  destruct (yahoo w (calls w) ticker) as [raw|e]; [|discriminate].
  destruct raw as [|x raw]; intros H; injection H as <- _; [constructor|].
  apply Forall_forall. intros r Hr.
  change (In r (map (with_ticker (remove_carets ticker)) (x :: raw))) in Hr.
  apply in_map_iff in Hr. destruct Hr as [y [<- _]]. reflexivity.
Qed.

End Equity.

(** ** More on the crypto normalizer and its way into the store *)

Section TableMore.
Context {K R : Type}.
Variable key : R -> K.
Variable K_eq_dec : forall a b : K, {a = b} + {a <> b}.

Lemma delete_key_absent k t :
  ~ In k (map key t) -> delete_key key K_eq_dec k t = t.
Proof.
  unfold delete_key. induction t as [|x t IH]; simpl; intros H; auto.
  assert (has_key key K_eq_dec k x = false) as ->
    by (apply has_key_false; intros e; apply H; now left).
  simpl. rewrite IH; auto.
Qed.

(** A batch of pairwise distinct keys lands in an empty table as it is. *)
Lemma executemany_replace_distinct rows :
  NoDup (map key rows) -> executemany_replace key K_eq_dec rows [] = rows.
Proof.
  induction rows as [|x rows IH] using rev_ind; intros H; auto.
  rewrite executemany_replace_snoc. rewrite map_app in H. simpl in H.
  apply NoDup_remove in H. rewrite app_nil_r in H. destruct H as [Hnd Hx].
  rewrite IH by assumption. unfold replace_into.
  now rewrite delete_key_absent.
Qed.

End TableMore.

Lemma find_snoc {A} (f : A -> bool) l x :
  find f (l ++ [x]) =
  match find f l with
  | Some y => Some y
  | None => if f x then Some x else None
  end.
Proof.
  induction l as [|y l IH]; simpl; auto. destruct (f y); auto.
Qed.

Section DictMore.
Context {V : Type}.

Lemma dict_get_set_same k (v : V) d : dict_get k (dict_set k v d) = Some v.
Proof.
  induction d as [|[k' v'] d IH]; simpl.
  - now rewrite String.eqb_refl.
  - destruct (String.eqb k' k) eqn:E; simpl; rewrite E; auto.
Qed.

Lemma dict_get_set_other k k' (v : V) d :
  k <> k' -> dict_get k (dict_set k' v d) = dict_get k d.
Proof.
  intros Hne. induction d as [|[k0 v0] d IH]; simpl.
  - assert (String.eqb k' k = false) as -> by (apply String.eqb_neq; congruence).
    reflexivity.
  - destruct (String.eqb k0 k') eqn:E; simpl.
    + apply String.eqb_eq in E. subst k0.
      assert (String.eqb k' k = false) as -> by (apply String.eqb_neq; congruence).
      reflexivity.
    + destruct (String.eqb k0 k); auto.
Qed.

Lemma dict_get_in k (v : V) d :
  NoDup (map fst d) -> (In (k, v) d <-> dict_get k d = Some v).
Proof.
  induction d as [|[k0 v0] d IH]; simpl; intros Hnd.
  - split; [intros [] | discriminate].
  - inversion Hnd as [|? ? Hk Hnd']; subst.
    destruct (String.eqb k0 k) eqn:E.
    + apply String.eqb_eq in E. subst k0. split.
      * intros [e | Hin]; [congruence|].
        exfalso. apply Hk. change k with (fst (k, v)). now apply in_map.
      * intros e. left. congruence.
    + apply String.eqb_neq in E. rewrite <- IH by assumption. split.
      * intros [e | Hin]; [congruence | assumption].
      * auto.
Qed.

End DictMore.

Section CryptoMore.
Context {RT : PyRuntime}.

Definition on_day (day : string) (tp : Z * pyfloat) : bool :=
  match utc_day_of_ms (fst tp) with
  | Some d => String.eqb d day
  | None => false
  end.

(** The price of the last sample of the list that falls on [day]. *)
Definition last_of_day (day : string) (samples : list (Z * pyfloat)) : option pyfloat :=
  option_map snd (find (on_day day) (rev samples)).

(** A sample the inner loop gets through: a pair whose first component is
    an instant and whose second has a float. *)
Definition sample_ok (item : json) : bool :=
  match unpack2 item with
  | Some (ts_ms, price) =>
    match utc_day ts_ms, to_float price with
    | Some _, Some _ => true
    | _, _ => false
    end
  | None => false
  end.

Lemma last_of_day_cons day tp samples :
  last_of_day day (tp :: samples) =
  match last_of_day day samples with
  | Some x => Some x
  | None => if on_day day tp then Some (snd tp) else None
  end.
Proof.
  unfold last_of_day. simpl rev. rewrite find_snoc.
  destruct (find (on_day day) (rev samples)); simpl; auto.
  destruct (on_day day tp); reflexivity.
Qed.

Lemma group_by_date_lookup : forall samples by_date,
  Forall (fun tp => utc_day_of_ms (fst tp) <> None) samples ->
  exists by_date',
    group_by_date (map sample samples) by_date = Some by_date' /\
    forall day, dict_get day by_date' =
                match last_of_day day samples with
                | Some x => Some (round6 x)
                | None => dict_get day by_date
                end.
Proof.
  induction samples as [|[t p] samples IH]; intros by_date Hok.
  - exists by_date. split; reflexivity.
  - inversion Hok as [|? ? Ht Hrest]; subst. simpl in Ht.
    cbn [map group_by_date sample unpack2 py_iter utc_day to_float fst snd].
    destruct (utc_day_of_ms t) as [d0|] eqn:Et; [|congruence].
    destruct (IH (dict_set d0 (round6 p) by_date) Hrest) as [bd [E Hbd]].
    exists bd. split; auto. intros day. rewrite Hbd, last_of_day_cons.
    destruct (last_of_day day samples); auto.
    unfold on_day. cbn [fst snd]. rewrite Et.
    destruct (String.eqb d0 day) eqn:Ed.
    + apply String.eqb_eq in Ed. subst. apply dict_get_set_same.
    + apply String.eqb_neq in Ed. apply dict_get_set_other. congruence.
Qed.

Lemma group_by_date_bad : forall samples bad by_date,
  In bad samples -> sample_ok bad = false -> group_by_date samples by_date = None.
Proof.
  induction samples as [|item rest IH]; intros bad by_date Hin Hbad; [destruct Hin|].
  simpl. destruct Hin as [-> | Hin].
  - unfold sample_ok in Hbad.
    destruct (unpack2 bad) as [[ts_ms price]|]; auto.
    destruct (utc_day ts_ms); auto. destruct (to_float price); [discriminate | auto].
  - destruct (unpack2 item) as [[ts_ms price]|]; auto.
    destruct (utc_day ts_ms); auto. destruct (to_float price); auto.
    eapply IH; eauto.
Qed.

Lemma rows_of_coin_coin coin api_data rows :
  rows_of_coin coin api_data = Some rows ->
  Forall (fun r => cp_coin_id r = coin) rows.
Proof.
  unfold rows_of_coin. intros H.
  destruct (prices_or_empty api_data) as [prices|]; [|discriminate].
  destruct (py_iter prices) as [samples|]; [|discriminate].
  destruct (group_by_date samples []) as [by_date|]; [|discriminate].
  injection H as <-. apply Forall_forall. intros r Hr.
  apply in_map_iff in Hr. destruct Hr as [p [<- _]]. reflexivity.
Qed.

Lemma process_keys_distinct : forall raw_data rows,
  NoDup (map fst raw_data) ->
  process_prices_to_rows raw_data = Some rows ->
  NoDup (map crypto_key rows) /\
  Forall (fun r => In (cp_coin_id r) (map fst raw_data)) rows.
Proof.
  induction raw_data as [|[c a] raw IH]; simpl; intros rows Hnd H.
  - injection H as <-. split; constructor.
  - inversion Hnd as [|? ? Hc Hnd']; subst.
    destruct (rows_of_coin c a) as [rs|] eqn:Ec; [|discriminate].
    destruct (process_prices_to_rows raw) as [rs'|] eqn:Ep; [|discriminate].
    injection H as <-. destruct (IH rs' Hnd' eq_refl) as [Hk Hids].
    pose proof (rows_of_coin_coin _ _ _ Ec) as Hcoin.
    pose proof (rows_of_coin_one_per_day _ _ _ Ec) as Hdays.
    rewrite Forall_forall in Hcoin, Hids. split.
    + rewrite map_app. apply NoDup_app; auto.
      * clear -Hcoin Hdays. induction rs as [|r rs IHr]; simpl; [constructor|].
        simpl in Hdays. inversion Hdays as [|? ? Hr Hd']; subst.
        constructor.
        -- intros Hin. apply Hr. apply in_map_iff in Hin.
           destruct Hin as [r' [e Hr']]. unfold crypto_key in e.
           injection e as _ e. rewrite <- e. now apply in_map.
        -- apply IHr; auto. intros x Hx. apply Hcoin. now right.
      * intros k Hk1 Hk2. apply in_map_iff in Hk1, Hk2.
        destruct Hk1 as [r1 [e1 Hr1]]. destruct Hk2 as [r2 [e2 Hr2]].
        apply Hc. rewrite <- (Hcoin r1 Hr1).
        assert (cp_coin_id r1 = cp_coin_id r2) as ->
          by (unfold crypto_key in *; congruence).
        now apply Hids.
    + apply Forall_forall. intros r Hr. apply in_app_or in Hr.
      destruct Hr as [Hr | Hr]; [left; symmetry; now apply Hcoin | right; now apply Hids].
Qed.

(** The rows of a coin whose samples all have a UTC day. *)
Lemma rows_of_coin_market_chart (coin : string) (samples : list (Z * pyfloat)) :
  Forall (fun tp => utc_day_of_ms (fst tp) <> None) samples ->
  exists rows,
    rows_of_coin coin (market_chart samples) = Some rows /\
    forall r, In r rows <->
              cp_coin_id r = coin /\
              exists x, last_of_day (cp_date r) samples = Some x /\
                        cp_price_usd r = round6 x.
Proof.
  intros Hok.
  destruct (group_by_date_lookup samples [] Hok) as [bd [E Hbd]].
  pose proof (group_by_date_nodup _ _ _ E (NoDup_nil _)) as Hnd.
  exists (map (fun p => {| cp_coin_id := coin; cp_date := fst p; cp_price_usd := snd p |})
              (sort_by_key fst bd)).
  split.
  - unfold rows_of_coin, market_chart, prices_or_empty. cbn [dict_get].
    rewrite String.eqb_refl.
    assert ((if truthy (JArr (map sample samples))
             then JArr (map sample samples) else JArr []) = JArr (map sample samples)) as ->
      by (destruct samples; reflexivity).
    cbn [py_iter]. now rewrite E.
  - intros r. rewrite in_map_iff. split.
    + intros [[d p] [<- Hin]]. cbn [cp_coin_id cp_date cp_price_usd fst snd].
      split; auto.
      apply (Permutation_in _ (sort_by_key_perm fst bd)) in Hin.
      apply (dict_get_in d p bd Hnd) in Hin. rewrite Hbd in Hin.
      destruct (last_of_day d samples) as [x|]; [|discriminate].
      exists x. split; congruence.
    + intros [Hc [x [Hx Hp]]]. exists (cp_date r, cp_price_usd r). split.
      * destruct r; simpl in *. congruence.
      * apply (Permutation_in _ (Permutation_sym (sort_by_key_perm fst bd))).
        apply (dict_get_in _ _ bd Hnd). rewrite Hbd, Hx. congruence.
Qed.

(** A coin's id with the payload of its price series. *)
Definition coin_chart (cs : string * list (Z * pyfloat)) : string * json :=
  (fst cs, market_chart (snd cs)).

Lemma process_prices_to_rows_app : forall l1 l2,
  process_prices_to_rows (l1 ++ l2) =
  match process_prices_to_rows l1, process_prices_to_rows l2 with
  | Some rows1, Some rows2 => Some (rows1 ++ rows2)
  | _, _ => None
  end.
Proof.
  induction l1 as [|[c a] l1 IH]; intros l2; simpl.
  - destruct (process_prices_to_rows l2); reflexivity.
  - rewrite IH. destruct (rows_of_coin c a) as [rs|]; [|reflexivity].
    destruct (process_prices_to_rows l1) as [rs1|]; [|reflexivity].
    destruct (process_prices_to_rows l2) as [rs2|]; [|reflexivity].
    now rewrite app_assoc.
Qed.

(** A payload of price series whose samples all have a UTC day: the
    normalizer returns, and every coin has its row for every day on which
    one of its samples falls. *)
Lemma process_coin_charts : forall l : list (string * list (Z * pyfloat)),
  Forall (fun cs => Forall (fun tp => utc_day_of_ms (fst tp) <> None) (snd cs)) l ->
  exists rows,
    process_prices_to_rows (map coin_chart l) = Some rows /\
    forall other samples day x,
      In (other, samples) l ->
      last_of_day day samples = Some x ->
      In {| cp_coin_id := other; cp_date := day; cp_price_usd := round6 x |} rows.
Proof.
  induction l as [|[c smp] l IH]; intros Hok.
  - exists []. split; [reflexivity|]. intros ? ? ? ? [].
  - inversion Hok as [|? ? Hc Hl]; subst. cbn [snd] in Hc.
    destruct (IH Hl) as [rows' [E' Hrows']].
    destruct (rows_of_coin_market_chart c smp Hc) as [rs [E Hrs]].
    exists (rs ++ rows'). split.
    + cbn [map coin_chart fst snd process_prices_to_rows]. now rewrite E, E'.
    + intros other samples day x [e | Hin] Hx; apply in_or_app.
      * injection e as <- <-. left. apply Hrs. cbn [cp_coin_id cp_date cp_price_usd].
        split; [reflexivity|]. now exists x.
      * right. eapply Hrows'; eauto.
Qed.


(** C10: a coin whose payload has no ["prices"] key, or has [null] there,
    contributes no row and does not make the normalizer fail, and the rows
    of the other coins are still emitted: the payload gives what the
    payload without that coin gives; when the coins before it give
    [rows_b] and the coins after it give [rows_a], the payload gives
    [rows_b ++ rows_a]; and when the other coins carry price series whose
    samples all have a UTC day, the normalizer returns rows among which
    every other coin has, for every day one of its samples falls on, its
    row priced at the last sample of that day, rounded. *)
Theorem missing_prices_yield_no_rows :
  forall (coin : string) (kv : list (string * json))
         (before after : list (string * json)),
    dict_get "prices" kv = None \/ dict_get "prices" kv = Some JNull ->
    rows_of_coin coin (JObj kv) = Some [] /\
    process_prices_to_rows (before ++ (coin, JObj kv) :: after) =
      process_prices_to_rows (before ++ after) /\
    (forall rows_b rows_a,
       process_prices_to_rows before = Some rows_b ->
       process_prices_to_rows after = Some rows_a ->
       process_prices_to_rows (before ++ (coin, JObj kv) :: after) =
         Some (rows_b ++ rows_a)) /\
    (forall others_b others_a : list (string * list (Z * pyfloat)),
       before = map coin_chart others_b ->
       after = map coin_chart others_a ->
       Forall (fun cs => Forall (fun tp => utc_day_of_ms (fst tp) <> None) (snd cs))
              (others_b ++ others_a) ->
       exists rows,
         process_prices_to_rows (before ++ (coin, JObj kv) :: after) = Some rows /\
         forall other samples day x,
           In (other, samples) (others_b ++ others_a) ->
           last_of_day day samples = Some x ->
           In {| cp_coin_id := other; cp_date := day; cp_price_usd := round6 x |} rows).
Proof.
  intros coin kv before after Hkv.
  assert (rows_of_coin coin (JObj kv) = Some []) as Hc.
  { unfold rows_of_coin, prices_or_empty. destruct Hkv as [-> | ->]; reflexivity. }
  assert (process_prices_to_rows (before ++ (coin, JObj kv) :: after) =
          process_prices_to_rows (before ++ after)) as Heq.
  { rewrite !process_prices_to_rows_app. cbn [process_prices_to_rows]. rewrite Hc.
    destruct (process_prices_to_rows before); [|reflexivity].
    destruct (process_prices_to_rows after); reflexivity. }
  split; [exact Hc|]. split; [exact Heq|]. split.
  - intros rows_b rows_a Hb Ha.
    now rewrite Heq, process_prices_to_rows_app, Hb, Ha.
  - intros others_b others_a -> -> Hok.
    rewrite Heq, <- map_app. now apply process_coin_charts.
Qed.

(** X2: one sample the loop cannot read (not a pair, an instant that is no
    number, a price that has no float, such as [null]) makes the normalizer
    raise for the whole payload, whatever the other coins hold. *)
Theorem bad_sample_fails_whole_payload :
  forall (before after : list (string * json)) (coin : string)
         (kv : list (string * json)) (samples : list json) (bad : json),
    dict_get "prices" kv = Some (JArr samples) ->
    In bad samples ->
    sample_ok bad = false ->
    process_prices_to_rows (before ++ (coin, JObj kv) :: after) = None.
Proof.
  intros before after coin kv samples bad Hkv Hin Hbad.
  assert (rows_of_coin coin (JObj kv) = None) as Hc.
  { unfold rows_of_coin, prices_or_empty. rewrite Hkv.
    assert (truthy (JArr samples) = true) as ->
      by (destruct samples; [destruct Hin | reflexivity]).
    cbn [py_iter]. now rewrite (group_by_date_bad samples bad [] Hin Hbad). }
  induction before as [|[c a] before IH]; simpl.
  - now rewrite Hc.
  - rewrite IH. destruct (rows_of_coin c a); reflexivity.
Qed.

(** X3: the rows the normalizer makes of a payload (a dict, so its coin ids
    are pairwise distinct) have pairwise distinct keys; when none of them
    has a NaN price, which the table would reject, storing them keeps the
    stored rows of other keys, appends the new rows as they are, and returns
    their number. *)
Theorem normalized_rows_stored_verbatim :
  forall (raw_data : list (string * json)) (rows : list crypto_price_row) (d : database),
    NoDup (map fst raw_data) ->
    process_prices_to_rows raw_data = Some rows ->
    Forall (fun r => isnan (cp_price_usd r) = false) rows ->
    NoDup (map crypto_key rows) /\
    result_of (store_prices_to_sqlite rows d) = Returned (List.length rows) /\
    Crypto_prices (store_after (store_prices_to_sqlite rows d)) =
      filter (fun r => negb (key_in crypto_key key2_eq_dec (crypto_key r) rows))
             (Crypto_prices d) ++ rows.
Proof.
  intros raw_data rows d Hnd Hp Hok.
  destruct (process_keys_distinct raw_data rows Hnd Hp) as [Hk _].
  split; auto. unfold store_prices_to_sqlite.
  rewrite insert_crypto_prices_accepted by now apply crypto_prices_accepted.
  split; [reflexivity|].
  unfold store_after. cbn [fst snd Crypto_prices set_Crypto_prices].
  rewrite executemany_replace_split. f_equal.
  now apply executemany_replace_distinct.
Qed.

End CryptoMore.

(** ** More on the fetchers: requests made, waits kept *)

Section WorldMore.
Context {RT : PyRuntime}.

Definition is_request (e : event) : bool :=
  match e with
  | Get _ | History _ => true
  | _ => false
  end.

Definition is_sleep (seconds : Z) (e : event) : bool :=
  match e with
  | Sleep s => (s =? seconds)%Z
  | _ => false
  end.

(** The requests among the events of a run, and its waits of a length. *)
Definition count_requests (events : list event) : nat :=
  List.length (filter is_request events).

Definition count_sleeps (seconds : Z) (events : list event) : nat :=
  List.length (filter (is_sleep seconds) events).

Ltac run_io :=
  unfold bind, try_except, requests_get, yf_history, raise_for_status,
    response_json, print, sleep, ret, raise;
  cbn [network yahoo calls trace called emit fst snd].

Lemma replay_app ev1 ev2 w : replay (ev1 ++ ev2) w = replay ev2 (replay ev1 w).
Proof. unfold replay. apply fold_left_app. Qed.

Lemma replay_network events : forall w, network (replay events w) = network w.
Proof.
  induction events as [|e events IH]; intros w; auto.
  change (replay (e :: events) w) with (replay events (record w e)).
  rewrite IH. destruct e; reflexivity.
Qed.

Lemma replay_yahoo events : forall w, yahoo (replay events w) = yahoo w.
Proof.
  induction events as [|e events IH]; intros w; auto.
  change (replay (e :: events) w) with (replay events (record w e)).
  rewrite IH. destruct e; reflexivity.
Qed.

Lemma replay_calls events : forall w,
  calls (replay events w) = (calls w + count_requests events)%nat.
Proof.
  unfold count_requests.
  induction events as [|e events IH]; intros w; [simpl; lia|].
  change (replay (e :: events) w) with (replay events (record w e)).
  rewrite IH. destruct e; simpl; lia.
Qed.

Lemma replay_trace events : forall w, trace (replay events w) = trace w ++ events.
Proof.
  induction events as [|e events IH]; intros w; [simpl; now rewrite app_nil_r|].
  change (replay (e :: events) w) with (replay events (record w e)).
  rewrite IH. destruct e; simpl; now rewrite <- app_assoc.
Qed.

Lemma count_requests_app ev1 ev2 :
  count_requests (ev1 ++ ev2) = (count_requests ev1 + count_requests ev2)%nat.
Proof. unfold count_requests. now rewrite filter_app, length_app. Qed.

Lemma count_sleeps_app s ev1 ev2 :
  count_sleeps s (ev1 ++ ev2) = (count_sleeps s ev1 + count_sleeps s ev2)%nat.
Proof. unfold count_sleeps. now rewrite filter_app, length_app. Qed.

(** What one call of [fetch_market_chart] does to the world, whatever the
    answer: one request, then at most a wait of [RETRY_DELAY] and a printed
    error. *)
Lemma fetch_market_chart_events coin_id w :
  exists j events,
    fetch_market_chart coin_id w =
      (Returned j, replay (Get (MARKET_CHART_URL coin_id) :: events) w) /\
    count_requests events = 0%nat /\
    count_sleeps DELAY_SECONDS events = 0%nat.
Proof.
  unfold fetch_market_chart, MAX_RETRIES.
  cbn [seq fetch_market_chart_loop]. unfold fetch_market_chart_attempt.
  run_io.
  destruct (network w (calls w) (MARKET_CHART_URL coin_id)) as [r|].
  - destruct (status_code r =? 429)%Z.
    + cbn [Nat.ltb Nat.leb MAX_RETRIES Nat.sub]. destruct (body r) as [b|].
      * exists b, [Print RateLimitedWaiting; Sleep RETRY_DELAY]. auto.
      * exists JNull, [Print RateLimitedWaiting; Sleep RETRY_DELAY;
                       Print (ErrorFetching coin_id JSONDecodeError)]. auto.
    + destruct ((400 <=? status_code r) && (status_code r <? 600))%Z.
      * exists JNull, [Print (ErrorFetching coin_id (HTTPError (status_code r)))]. auto.
      * destruct (body r) as [b|].
        -- exists b, []. auto.
        -- exists JNull, [Print (ErrorFetching coin_id JSONDecodeError)]. auto.
  - exists JNull, [Print (ErrorFetching coin_id ConnectionError)]. auto.
Qed.

(** X4: whatever the provider answers, [fetch_market_chart] returns (it
    never raises) and has made exactly one request. *)
Theorem fetch_market_chart_asks_once : forall (coin_id : string) (w : world),
  exists j w',
    fetch_market_chart coin_id w = (Returned j, w') /\
    calls w' = S (calls w) /\
    exists events,
      trace w' = trace w ++ Get (MARKET_CHART_URL coin_id) :: events /\
      count_requests events = 0%nat.
Proof.
  intros coin_id w.
  destruct (fetch_market_chart_events coin_id w) as [j [events [E [Hr _]]]].
  exists j, (replay (Get (MARKET_CHART_URL coin_id) :: events) w).
  split; auto. split.
  - rewrite replay_calls.
    change (Get (MARKET_CHART_URL coin_id) :: events)
      with ([Get (MARKET_CHART_URL coin_id)] ++ events).
    rewrite count_requests_app, Hr. simpl. lia.
  - exists events. split; auto. apply replay_trace.
Qed.

Lemma dict_set_incl {V} k (v : V) d : incl (map fst (dict_set k v d)) (k :: map fst d).
Proof.
  rewrite dict_set_keys. destruct (existsb (String.eqb k) (map fst d)).
  - intros x Hx. now right.
  - intros x Hx. apply in_app_or in Hx. destruct Hx as [Hx | [<- | []]];
      [now right | now left].
Qed.

Lemma fetch_all_daily_prices_loop_events coins : forall i total result w,
  (i + List.length coins = S total)%nat ->
  NoDup (map fst result) ->
  exists out events,
    fetch_all_daily_prices_loop coins i total result w = (Returned out, replay events w) /\
    count_requests events = List.length coins /\
    count_sleeps DELAY_SECONDS events = (List.length coins - 1)%nat /\
    incl (map fst out) (map fst result ++ coins) /\
    NoDup (map fst out).
Proof.
  induction coins as [|c coins IH]; intros i total result w Hi Hnd.
  - exists result, []. cbn. repeat split; auto. rewrite app_nil_r. apply incl_refl.
  - cbn [fetch_all_daily_prices_loop]. unfold bind at 1. unfold print at 1.
    unfold bind at 1.
    destruct (fetch_market_chart_events c (emit (Print (FetchingCoin i c)) w))
      as [j [evs [E [Hreq Hsl]]]].
    rewrite E. unfold bind at 1. cbn [List.length] in Hi.
    set (result' := if is_None j then result else dict_set c j result).
    assert (NoDup (map fst result')) as Hnd'
      by (unfold result'; destruct (is_None j); auto using dict_set_nodup).
    assert (incl (map fst result') (c :: map fst result)) as Hincl.
    { unfold result'. destruct (is_None j).
      - intros x Hx. now right.
      - apply dict_set_incl. }
    destruct (i <? total)%nat eqn:Elt.
    + unfold sleep at 1.
      destruct (IH (S i) total result'
                  (emit (Sleep DELAY_SECONDS)
                     (replay (Get (MARKET_CHART_URL c) :: evs)
                        (emit (Print (FetchingCoin i c)) w))))
        as [out [evs' [E' [Hreq' [Hsl' [Hin' Hnd'']]]]]]; [lia | assumption |].
      exists out,
        ([Print (FetchingCoin i c)] ++ (Get (MARKET_CHART_URL c) :: evs)
         ++ [Sleep DELAY_SECONDS] ++ evs').
      rewrite E'. rewrite !replay_app. split; [reflexivity|].
      apply Nat.ltb_lt in Elt.
      rewrite !count_requests_app, !count_sleeps_app, Hreq', Hsl'.
      change (Get (MARKET_CHART_URL c) :: evs) with ([Get (MARKET_CHART_URL c)] ++ evs).
      rewrite count_requests_app, count_sleeps_app, Hreq, Hsl.
      cbn. repeat split; auto; try lia.
      intros x Hx. apply Hin' in Hx. apply in_app_or in Hx.
      apply in_or_app. destruct Hx as [Hx | Hx].
      * apply Hincl in Hx. destruct Hx as [<- | Hx]; [right; now left | now left].
      * right. now right.
    + unfold ret at 1. apply Nat.ltb_ge in Elt.
      destruct (IH (S i) total result'
                  (replay (Get (MARKET_CHART_URL c) :: evs)
                     (emit (Print (FetchingCoin i c)) w)))
        as [out [evs' [E' [Hreq' [Hsl' [Hin' Hnd'']]]]]]; [lia | assumption |].
      exists out,
        ([Print (FetchingCoin i c)] ++ (Get (MARKET_CHART_URL c) :: evs) ++ evs').
      rewrite E'. rewrite !replay_app. split; [reflexivity|].
      rewrite !count_requests_app, !count_sleeps_app, Hreq', Hsl'.
      change (Get (MARKET_CHART_URL c) :: evs) with ([Get (MARKET_CHART_URL c)] ++ evs).
      rewrite count_requests_app, count_sleeps_app, Hreq, Hsl.
      cbn. repeat split; auto; try lia.
      intros x Hx. apply Hin' in Hx. apply in_app_or in Hx.
      apply in_or_app. destruct Hx as [Hx | Hx].
      * apply Hincl in Hx. destruct Hx as [<- | Hx]; [right; now left | now left].
      * right. now right.
Qed.

(** X5: a batch of coins always returns; it makes one request per coin,
    waits [DELAY_SECONDS] once between two successive coins and not after
    the last, and its result has pairwise distinct keys, all coins of the
    batch. *)
Theorem coin_batch_requests_and_delays : forall (coins : list string) (w : world),
  exists out events,
    fetch_all_daily_prices_of coins w = (Returned out, replay events w) /\
    count_requests events = List.length coins /\
    count_sleeps DELAY_SECONDS events = (List.length coins - 1)%nat /\
    incl (map fst out) coins /\
    NoDup (map fst out).
Proof.
  intros coins w. unfold fetch_all_daily_prices_of.
  destruct (fetch_all_daily_prices_loop_events coins 1 (List.length coins) [] w)
    as [out [events H]]; [lia | constructor |].
  exists out, events. exact H.
Qed.

(** X6: whatever the provider answers, [fetch_page] makes at least one
    request and at most [MAX_RETRIES], and waits [RETRY_DELAY] exactly once
    between two successive requests. *)
Theorem fetch_page_attempts_bounded : forall (page : nat) (w : world),
  exists events,
    trace (snd (fetch_page page w)) = trace w ++ events /\
    calls (snd (fetch_page page w)) = (calls w + count_requests events)%nat /\
    (1 <= count_requests events <= MAX_RETRIES)%nat /\
    count_sleeps RETRY_DELAY events = (count_requests events - 1)%nat.
Proof.
  intros page w. unfold fetch_page, MAX_RETRIES. cbn [seq fetch_page_loop].
  remember (BASE_URL page) as url eqn:Eurl. clear Eurl.
  run_io.
  repeat match goal with
  | |- context [network w ?n url] =>
      destruct (network w n url) as [?r|]; cbn
  | |- context [(status_code ?r =? 429)%Z] =>
      let E := fresh "E" in
      destruct (status_code r =? 429)%Z eqn:E;
      [apply Z.eqb_eq in E; rewrite ?E | ]; cbn
  | |- context [((400 <=? status_code ?r) && (status_code ?r <? 600))%Z] =>
      destruct ((400 <=? status_code r) && (status_code r <? 600))%Z; cbn
  | |- context [body ?r] => destruct (body r); cbn
  end.
  all: eexists; rewrite <- ?app_assoc; split; [reflexivity|]; cbn; lia.
Qed.

(** X7: a page that is throttled [k] times, [k] below [MAX_RETRIES], and
    then answered without error is fetched: after [k] waits of
    [RETRY_DELAY] the body of the last answer is returned. *)
Theorem fetch_page_recovers_after_throttling :
  forall (page : nat) (w : world) (k : nat) (r : response) (b : json),
    (k < MAX_RETRIES)%nat ->
    (forall n, (n < k)%nat ->
       exists r', network w (calls w + n) (BASE_URL page) = Reply r' /\
                  status_code r' = 429%Z) ->
    network w (calls w + k) (BASE_URL page) = Reply r ->
    (status_code r < 400 \/ 600 <= status_code r)%Z ->
    body r = Some b ->
    fetch_page page w =
    (Returned b,
     replay (List.concat (repeat [Get (BASE_URL page); Print RateLimitedWaiting;
                                  Sleep RETRY_DELAY] k)
             ++ [Get (BASE_URL page)]) w).
Proof.
  intros page w k r b Hk Hthr Hr Hst Hb.
  assert ((status_code r =? 429)%Z = false) as Hne by (apply Z.eqb_neq; lia).
  assert (((400 <=? status_code r) && (status_code r <? 600))%Z = false) as Hok.
  { apply andb_false_iff. destruct Hst; [left; apply Z.leb_gt | right; apply Z.ltb_ge]; lia. }
  unfold fetch_page, MAX_RETRIES in *. cbn [seq fetch_page_loop].
  remember (BASE_URL page) as url eqn:Eurl. clear Eurl.
  destruct k as [|[|[|k]]]; [| | | lia].
  - rewrite Nat.add_0_r in Hr. run_io. rewrite Hr, Hne, Hok, Hb. reflexivity.
  - destruct (Hthr 0%nat) as [r0 [H0 Hs0]]; [lia|].
    rewrite Nat.add_0_r in H0. rewrite Nat.add_1_r in Hr.
    run_io. rewrite H0, Hs0. cbn. rewrite Hr, Hne, Hok, Hb. reflexivity.
  - destruct (Hthr 0%nat) as [r0 [H0 Hs0]]; [lia|].
    destruct (Hthr 1%nat) as [r1 [H1 Hs1]]; [lia|].
    rewrite Nat.add_0_r in H0. rewrite Nat.add_1_r in H1.
    replace (calls w + 2)%nat with (S (S (calls w))) in Hr by lia.
    run_io. rewrite H0, Hs0. cbn. rewrite H1, Hs1. cbn.
    rewrite Hr, Hne, Hok, Hb. reflexivity.
Qed.

Lemma fetch_all_pages_loop_ok (pages : nat -> list json) :
  forall len first num_pages all_data w,
    (forall n url, network w n url =
                   Reply {| status_code := 200; body := Some (JArr (pages n)) |}) ->
    (first + len = S num_pages)%nat ->
    exists events,
      fetch_all_pages_loop (seq first len) num_pages all_data w =
        (Returned (all_data ++ flat_map pages (seq (calls w) len)), replay events w) /\
      count_requests events = len /\
      count_sleeps DELAY_SECONDS events = (len - 1)%nat.
Proof.
  induction len as [|len IH]; intros first num_pages all_data w Hnet Hlen.
  - exists []. cbn. rewrite app_nil_r. auto.
  - cbn [seq fetch_all_pages_loop]. unfold fetch_page, MAX_RETRIES.
    cbn [seq fetch_page_loop].
    remember (BASE_URL first) as url eqn:Eurl. clear Eurl.
    unfold extend. run_io. rewrite Hnet. cbn [status_code body Z.eqb Pos.eqb
      Z.leb Z.ltb Z.compare Pos.compare Pos.compare_cont andb py_iter].
    destruct (first <? num_pages)%nat eqn:Elt.
    + destruct (IH (S first) num_pages (all_data ++ pages (calls w))
                  (replay [Print (FetchingPage first); Get url;
                           Print WaitingNextRequest; Sleep DELAY_SECONDS] w))
        as [evs [E [Hreq Hsl]]]; [intros; rewrite replay_network; apply Hnet | lia |].
      exists ([Print (FetchingPage first); Get url;
               Print WaitingNextRequest; Sleep DELAY_SECONDS] ++ evs).
      split; [|split].
      * rewrite replay_app. cbn [seq flat_map]. rewrite app_assoc. exact E.
      * rewrite count_requests_app, Hreq. reflexivity.
      * rewrite count_sleeps_app, Hsl. apply Nat.ltb_lt in Elt. cbn. lia.
    + destruct (IH (S first) num_pages (all_data ++ pages (calls w))
                  (replay [Print (FetchingPage first); Get url] w))
        as [evs [E [Hreq Hsl]]]; [intros; rewrite replay_network; apply Hnet | lia |].
      exists ([Print (FetchingPage first); Get url] ++ evs).
      split; [|split].
      * rewrite replay_app. cbn [seq flat_map]. rewrite app_assoc. exact E.
      * rewrite count_requests_app, Hreq. reflexivity.
      * rewrite count_sleeps_app, Hsl. apply Nat.ltb_ge in Elt. cbn. lia.
Qed.

(** X8: when every page is answered at once with a JSON list,
    [fetch_all_pages] returns the lists joined in page order; it makes one
    request per page and waits [DELAY_SECONDS] between two pages, not after
    the last. *)
Theorem fetch_all_pages_joins_pages :
  forall (num_pages : nat) (w : world) (pages : nat -> list json),
    (forall n url, network w n url =
                   Reply {| status_code := 200; body := Some (JArr (pages n)) |}) ->
    exists events,
      fetch_all_pages_of num_pages w =
        (Returned (flat_map pages (seq (calls w) num_pages)), replay events w) /\
      count_requests events = num_pages /\
      count_sleeps DELAY_SECONDS events = (num_pages - 1)%nat.
Proof.
  intros num_pages w pages Hnet. unfold fetch_all_pages_of.
  destruct (fetch_all_pages_loop_ok pages num_pages 1 num_pages [] w Hnet)
    as [events H]; [lia|].
  exists events. exact H.
Qed.

(** X9: an error of a history download that is not a rate limit is not
    caught: it leaves [download_all_tickers] at once, and the remaining
    tickers are not downloaded. *)
Theorem download_error_aborts_batch :
  forall (t : string) (rest : list string) (i : nat) (df : option (list frame_row))
         (frames : list (list frame_row)) (w : world) (e : exn),
    yahoo w (calls w) t = Raised e ->
    is_YFRateLimitError e = false ->
    download_frames (t :: rest) i df frames w =
      (Raised e,
       replay ((if (0 <? i)%nat then [Sleep DELAY_BETWEEN_TICKERS] else [])
               ++ [Print (Downloading t); History t]) w) /\
    download_all_tickers (t :: rest) w =
      (Raised e, replay [Print (Downloading t); History t] w).
Proof.
  intros t rest i df frames w e Hy He.
  assert (forall i df frames,
    download_frames (t :: rest) i df frames w =
      (Raised e,
       replay ((if (0 <? i)%nat then [Sleep DELAY_BETWEEN_TICKERS] else [])
               ++ [Print (Downloading t); History t]) w)) as H.
  { intros i' df' frames'. cbn [download_frames]. unfold RATE_LIMIT_RETRIES.
    cbn [seq download_attempts]. unfold download_ticker_history.
    destruct (0 <? i')%nat; run_io; rewrite Hy, He; reflexivity. }
  split; [apply H|].
  unfold download_all_tickers. unfold bind. rewrite (H 0%nat None []). reflexivity.
Qed.

(** X10: a ticker that is rate-limited [k] times, [k] below
    [RATE_LIMIT_RETRIES], and then answered with a non-empty history is
    downloaded: after [k] waits of [RATE_LIMIT_WAIT_SEC] its frame is
    returned, every row with the ticker column. *)
Theorem download_recovers_after_rate_limit :
  forall (t : string) (df : option (list frame_row)) (w : world) (k : nat)
         (raw : list raw_row),
    (k < RATE_LIMIT_RETRIES)%nat ->
    (forall n, (n < k)%nat -> yahoo w (calls w + n) t = Raised YFRateLimitError) ->
    yahoo w (calls w + k) t = Returned raw ->
    raw <> [] ->
    download_attempts t (seq 1 RATE_LIMIT_RETRIES) df w =
    (Returned (map (with_ticker (remove_carets t)) raw),
     replay (List.concat (repeat [Print (Downloading t); History t;
                                  Print RateLimitedWaiting;
                                  Sleep RATE_LIMIT_WAIT_SEC] k)
             ++ [Print (Downloading t); History t;
                 Print (Retrieved t (List.length raw))]) w).
Proof.
  intros t df w k raw Hk Hlim Hr Hne.
  unfold RATE_LIMIT_RETRIES in *. cbn [seq download_attempts].
  unfold download_ticker_history.
  destruct raw as [|x raw]; [congruence|].
  destruct k as [|[|[|[|k]]]]; [| | | | lia].
  - rewrite Nat.add_0_r in Hr. run_io. rewrite Hr. reflexivity.
  - pose proof (Hlim 0%nat ltac:(lia)) as H0.
    rewrite Nat.add_0_r in H0. rewrite Nat.add_1_r in Hr.
    run_io. rewrite H0. cbn. rewrite Hr. reflexivity.
  - pose proof (Hlim 0%nat ltac:(lia)) as H0.
    pose proof (Hlim 1%nat ltac:(lia)) as H1.
    rewrite Nat.add_0_r in H0. rewrite Nat.add_1_r in H1.
    replace (calls w + 2)%nat with (S (S (calls w))) in Hr by lia.
    run_io. rewrite H0. cbn. rewrite H1. cbn. rewrite Hr. reflexivity.
  - pose proof (Hlim 0%nat ltac:(lia)) as H0.
    pose proof (Hlim 1%nat ltac:(lia)) as H1.
    pose proof (Hlim 2%nat ltac:(lia)) as H2.
    rewrite Nat.add_0_r in H0. rewrite Nat.add_1_r in H1.
    replace (calls w + 2)%nat with (S (S (calls w))) in H2 by lia.
    replace (calls w + 3)%nat with (S (S (S (calls w)))) in Hr by lia.
    run_io. rewrite H0. cbn. rewrite H1. cbn. rewrite H2. cbn. rewrite Hr.
    reflexivity.
Qed.

(** X11: whatever Yahoo answers, the attempts for one ticker make at
    least one download and at most [RATE_LIMIT_RETRIES], and wait
    [RATE_LIMIT_WAIT_SEC] exactly once between two successive downloads. *)
Theorem download_attempts_bounded :
  forall (t : string) (df : option (list frame_row)) (w : world),
  exists events,
    trace (snd (download_attempts t (seq 1 RATE_LIMIT_RETRIES) df w)) = trace w ++ events /\
    calls (snd (download_attempts t (seq 1 RATE_LIMIT_RETRIES) df w)) =
      (calls w + count_requests events)%nat /\
    (1 <= count_requests events <= RATE_LIMIT_RETRIES)%nat /\
    count_sleeps RATE_LIMIT_WAIT_SEC events = (count_requests events - 1)%nat.
Proof.
  intros t df w. unfold RATE_LIMIT_RETRIES. cbn [seq download_attempts].
  unfold download_ticker_history. run_io.
  repeat match goal with
  | |- context [yahoo w ?n t] =>
      let e := fresh "e" in
      destruct (yahoo w n t) as [[|? ?]|e]; [| | destruct e]; cbn
  end.
  all: eexists; rewrite <- ?app_assoc; split; [reflexivity|]; cbn; lia.
Qed.

End WorldMore.

(** ** More on the store: reading back, and what a failed or interrupted
       call leaves *)

Section StoreMore.
Context {RT : PyRuntime}.

(** [LIMIT n] at the end of a query; SQLite reads a negative [n] as no
    limit.  [None] is a query without the clause. *)
Definition sql_limit {A} (limit : option Z) (rows : list A) : list A :=
  match limit with
  | None => rows
  | Some n => if (n <? 0)%Z then rows else firstn (Z.to_nat n) rows
  end.

(** [select_oil_price(limit)]: ["SELECT * FROM oil_price ORDER BY date"],
    with [LIMIT int(limit)] when a limit is given. *)
Definition select_oil_price (limit : option Z) (d : database) : list oil_price_row :=
  sql_limit limit (sort_by_key oil_date (oil_price d)).

(** X12: after [insert_oil_prices(rows)], for rows none of which has a NaN
    price (the table would reject it), on a store whose dates are unique,
    [select_oil_price()] lists the table in date order, one row per date;
    for every date of the batch the row listed for it is the batch's last
    row for it, and that row is listed. *)
Theorem select_oil_price_after_insert :
  forall (rows : list oil_price_row) (d : database),
    Forall (fun r => isnan (oil_price_usd r) = false) rows ->
    pk_unique oil_date (oil_price d) ->
    Sorted (key_le oil_date)
      (select_oil_price None (store_after (insert_oil_prices rows d))) /\
    NoDup (map oil_date (select_oil_price None (store_after (insert_oil_prices rows d)))) /\
    (forall k r, last_with_key oil_date string_dec k rows = Some r ->
       forall r', In r' (select_oil_price None (store_after (insert_oil_prices rows d))) ->
                  oil_date r' = k -> r' = r) /\
    (forall k r, last_with_key oil_date string_dec k rows = Some r ->
       In r (select_oil_price None (store_after (insert_oil_prices rows d)))).
Proof.
  intros rows d Hok Hpk.
  rewrite insert_oil_prices_accepted by now apply oil_prices_accepted.
  unfold select_oil_price, store_after, sql_limit. cbn [fst snd oil_price set_oil_price].
  set (t := executemany_replace oil_date string_dec rows (oil_price d)).
  assert (forall k r, last_with_key oil_date string_dec k rows = Some r ->
                      select_key oil_date string_dec k t = [r]) as Hsel
    by (intros; now apply select_executemany_touched).
  repeat split.
  - apply sort_by_key_sorted.
  - eapply Permutation_NoDup.
    + symmetry. apply Permutation_map. apply sort_by_key_perm.
    + now apply executemany_replace_pk.
  - intros k r Hl r' Hin Hk.
    apply (Permutation_in _ (sort_by_key_perm oil_date t)) in Hin.
    assert (In r' (select_key oil_date string_dec k t)) as X
      by (apply filter_In; split; [assumption | now apply has_key_true]).
    rewrite (Hsel k r Hl) in X. destruct X as [e | []]. congruence.
  - intros k r Hl.
    apply (Permutation_in _ (Permutation_sym (sort_by_key_perm oil_date t))).
    assert (In r (select_key oil_date string_dec k t)) as X
      by (rewrite (Hsel k r Hl); now left).
    apply filter_In in X. tauto.
Qed.

(** X13: a frame that repeats an id makes [push_dataframe_to_table] raise
    [IntegrityError], and the committed database is then exactly the one the
    call found: the [DELETE] is undone with the rejected [INSERT]s, and no
    state in between was ever committed. *)
Theorem rejected_refresh_leaves_store :
  forall (df : list coin_row) (d : database),
    ~ NoDup (map coin_id df) ->
    result_of (push_dataframe_to_table df d) = Raised IntegrityError /\
    store_after (push_dataframe_to_table df d) = d /\
    Forall (fun seen => seen = d) (states_seen (push_dataframe_to_table df d)).
Proof.
  intros df d Hnd. destruct (push_dataframe_to_table_run df d) as [n [m E]].
  destruct (insert_all coin_id string_dec df []) as [t|] eqn:Ei.
  - apply insert_all_some in Ei. tauto.
  - rewrite E. repeat split. unfold states_seen. cbn [snd].
    apply Forall_forall. intros x Hx. now apply repeat_spec in Hx.
Qed.


End StoreMore.

(** ** The commodity normalizer ([oil_price.py]) *)

Section Oil.
Context {RT : PyRuntime}.

(** A row of the WTI frame once [pd.to_datetime] has converted its [Date]
    column: the timestamp, [None] when it is [NaT], and the price. *)
Record wti_row := {
  wti_date : option Z;
  wti_price : pyfloat
}.

(** The mask [(df[date_col] >= start_ts) & (df[date_col] <= end_ts)]; a
    comparison with [NaT] is false. *)
Definition in_range (start_ts end_ts : Z) (r : wti_row) : bool :=
  match wti_date r with
  | Some t => ((start_ts <=? t) && (t <=? end_ts))%Z
  | None => false
  end.

Definition date_key (r : wti_row) : Z :=
  match wti_date r with Some t => t | None => 0%Z end.

(** [filter_date_range(df, "Date", start, end)], from the converted frame
    and the two bounds as timestamps.  [sort_values] orders the frame by
    the column as [sort_index] orders one by its index. *)
Definition filter_date_range (df : list wti_row) (start_ts end_ts : Z) : list wti_row :=
  sort_index wti_row date_key (filter (in_range start_ts end_ts) df).

Definition oil_tuple (r : wti_row) : oil_price_row :=
  {| oil_date := timestamp_ymd (date_key r); oil_price_usd := round6 (wti_price r) |}.

(** [prepare_oil_price_rows(df)]; [None] when it raises, which [strftime]
    does on [NaT]. *)
Fixpoint prepare_oil_price_rows (df : list wti_row) : option (list oil_price_row) :=
  match df with
  | [] => Some []
  | r :: rest =>
    match wti_date r, prepare_oil_price_rows rest with
    | Some _, Some rows => Some (oil_tuple r :: rows)
    | _, _ => None
    end
  end.

Lemma prepare_oil_price_rows_dated df :
  Forall (fun r => wti_date r <> None) df ->
  prepare_oil_price_rows df = Some (map oil_tuple df).
Proof.
  induction df as [|r df IH]; simpl; intros H; auto.
  inversion H as [|? ? Hr Hdf]; subst.
  destruct (wti_date r); [|congruence]. now rewrite IH.
Qed.

(** X15: the commodity normalizer keeps exactly the rows whose date lies
    in the window, bounds included, orders them by date, and makes of each
    the pair of its day and its price rounded to 6 decimals; rows without a
    date are dropped, and the preparation does not raise. *)
Theorem oil_rows_in_window_sorted :
  forall (df : list wti_row) (start_ts end_ts : Z),
    Sorted (fun a b => (date_key a <= date_key b)%Z) (filter_date_range df start_ts end_ts) /\
    (forall r, In r (filter_date_range df start_ts end_ts) <->
               In r df /\ exists t, wti_date r = Some t /\ (start_ts <= t <= end_ts)%Z) /\
    exists rows,
      prepare_oil_price_rows (filter_date_range df start_ts end_ts) = Some rows /\
      Permutation rows (map oil_tuple (filter (in_range start_ts end_ts) df)).
Proof.
  intros df start_ts end_ts. unfold filter_date_range.
  assert (forall r, In r (sort_index wti_row date_key (filter (in_range start_ts end_ts) df)) <->
                    In r df /\ exists t, wti_date r = Some t /\ (start_ts <= t <= end_ts)%Z)
    as Hin.
  { intros r. split.
    - intros H. apply (Permutation_in _ (sort_index_perm _ _ _)) in H.
      apply filter_In in H. destruct H as [H Hr]. split; auto.
      unfold in_range in Hr. destruct (wti_date r) as [t|]; [|discriminate].
      exists t. split; auto. apply andb_true_iff in Hr. lia.
    - intros [H [t [Ht Hr]]].
      apply (Permutation_in _ (Permutation_sym (sort_index_perm _ _ _))).
      apply filter_In. split; auto. unfold in_range. rewrite Ht.
      apply andb_true_iff. lia. }
  split; [apply sort_index_sorted|]. split; [exact Hin|].
  exists (map oil_tuple (sort_index wti_row date_key (filter (in_range start_ts end_ts) df))).
  split.
  - apply prepare_oil_price_rows_dated. apply Forall_forall. intros r Hr.
    apply Hin in Hr. destruct Hr as [_ [t [Ht _]]]. congruence.
  - apply Permutation_map. apply sort_index_perm.
Qed.

End Oil.

(** ** More on the equity pipeline *)

Section EquityMore.
Context {RT : PyRuntime}.

Lemma astype_int_none : forall df,
  astype_int df = None ->
  exists r, In r df /\ int_of_float (f_volume r) = None.
Proof.
  induction df as [|r df IH]; simpl; [discriminate|].
  unfold int_volume at 1.
  destruct (int_of_float (f_volume r)) as [v|] eqn:E.
  - destruct (astype_int df); [discriminate|].
    intros _. destruct (IH eq_refl) as [x [Hx Hv]]. exists x. auto.
  - intros _. exists r. auto.
Qed.

(** X16: the end of [download_all_tickers] followed by
    [prepare_stock_price_rows] emits one tuple for each downloaded row that
    has all five OHLCV values, with the prices rounded to 6 decimals and
    the volume as an integer, and none for a row with a missing value; the
    only way it raises is a [ValueError] of the cast, at a complete row
    whose volume has no integer. *)
Theorem equity_rows_from_complete_rows :
  forall (frames : list (list frame_row)) (w : world),
    match fst (combine frames w) with
    | Returned combined =>
      List.length (prepare_stock_price_rows combined) =
        List.length (dropna (List.concat frames)) /\
      forall out,
        In out (prepare_stock_price_rows combined) <->
        exists r v, In r (List.concat frames) /\ complete r = true /\
                    int_of_float (f_volume r) = Some v /\ out = tuple_of r v
    | Raised e =>
      e = ValueError /\
      exists r, In r (List.concat frames) /\ complete r = true /\
                int_of_float (f_volume r) = None
    end.
Proof.
  intros frames w. destruct (combine frames w) as [o w'] eqn:E. cbn [fst].
  destruct o as [combined|e].
  - split; [|now apply (equity_rows_characterised frames combined w w')].
    unfold combine in E. destruct frames as [|f frames].
    + injection E as <- _. reflexivity.
    + destruct (astype_int (dropna (List.concat (f :: frames)))) as [rows|] eqn:Ea;
        [|discriminate].
      injection E as <- _. unfold prepare_stock_price_rows. rewrite length_map.
      rewrite (Permutation_length (sort_index_perm _ c_date rows)).
      clear -Ea. revert rows Ea.
      induction (dropna (List.concat (f :: frames))) as [|x l IH]; simpl; intros rows Ea.
      * now injection Ea as <-.
      * destruct (int_volume x); [|discriminate].
        destruct (astype_int l) as [out|]; [|discriminate].
        injection Ea as <-. simpl. now rewrite (IH out).
  - unfold combine in E. destruct frames as [|f frames]; [discriminate|].
    destruct (astype_int (dropna (List.concat (f :: frames)))) as [rows|] eqn:Ea;
      [discriminate|].
    injection E as <- _. split; auto.
    apply astype_int_none in Ea. destruct Ea as [r [Hr Hv]].
    apply filter_In in Hr. exists r. tauto.
Qed.

End EquityMore.

(** ** More queries of [data_report.py] *)

Section QueryMore.
Context {RT : PyRuntime}.

(** [l INNER JOIN r ON on] *)
Definition inner_join {A B} (on : A -> B -> bool) (l : list A) (r : list B)
  : list (A * B) :=
  flat_map (fun a => map (fun b => (a, b)) (filter (on a) r)) l.

(** A row of a same-date comparison: the date, the coin's price, the
    ticker's close. *)
Record comparison_row := {
  cmp_date : string;
  cmp_price : pyfloat;
  cmp_close : pyfloat
}.

(** The shape of ["Bitcoin vs S&P 500 (correlation idea: same-date
    comparison)"] and ["NASDAQ (^IXIC) vs Ethereum price trends"]: the
    coin's series inner-joined with the ticker's on the date, ordered by
    date. *)
Definition same_date_comparison (coin ticker : string) (d : database)
  : list comparison_row :=
  sort_by_key cmp_date
    (map (fun x => {| cmp_date := fst (fst x); cmp_price := snd (fst x);
                      cmp_close := snd (snd x) |})
         (inner_join (fun b s => String.eqb (fst b) (fst s))
            (price_series coin d) (close_series ticker d))).

Definition btc_vs_sp500 (d : database) : list comparison_row :=
  same_date_comparison "bitcoin" "^GSPC" d.

Definition nasdaq_vs_ethereum (d : database) : list comparison_row :=
  same_date_comparison "ethereum" "^IXIC" d.

(** The query of [page_top3_crypto]:
    ["SELECT date, price_usd FROM Crypto_prices WHERE coin_id = ? AND
    date >= ? AND date <= ? ORDER BY date"]. *)
Definition coin_prices_in_range (coin_id start_s end_s : string) (d : database)
  : list (string * pyfloat) :=
  sort_by_key fst
    (filter (fun p => in_window start_s end_s (fst p)) (price_series coin_id d)).

Lemma in_inner_join {A B} (on : A -> B -> bool) l r a b :
  In (a, b) (inner_join on l r) <-> In a l /\ In b r /\ on a b = true.
Proof.
  unfold inner_join. rewrite in_flat_map. split.
  - intros [a' [Ha H]]. apply in_map_iff in H. destruct H as [b' [e Hb]].
    injection e as <- <-. apply filter_In in Hb. tauto.
  - intros [Ha [Hb Hon]]. exists a. split; auto.
    apply in_map_iff. exists b. split; auto. apply filter_In. auto.
Qed.

Lemma in_price_series coin d date price :
  In (date, price) (price_series coin d) <->
  exists r, In r (Crypto_prices d) /\ cp_coin_id r = coin /\
            cp_date r = date /\ cp_price_usd r = price.
Proof.
  unfold price_series. rewrite in_map_iff. split.
  - intros [r [e Hr]]. injection e as <- <-. apply filter_In in Hr.
    destruct Hr as [Hr Hc]. apply String.eqb_eq in Hc. exists r. auto.
  - intros [r [Hr [Hc [<- <-]]]]. exists r. split; auto.
    apply filter_In. split; auto. now apply String.eqb_eq.
Qed.

Lemma in_close_series ticker d date close :
  In (date, close) (close_series ticker d) <->
  exists s, In s (stock_price d) /\ st_ticker s = ticker /\
            st_date s = date /\ st_close s = close.
Proof.
  unfold close_series. rewrite in_map_iff. split.
  - intros [r [e Hr]]. injection e as <- <-. apply filter_In in Hr.
    destruct Hr as [Hr Hc]. apply String.eqb_eq in Hc. exists r. auto.
  - intros [r [Hr [Hc [<- <-]]]]. exists r. split; auto.
    apply filter_In. split; auto. now apply String.eqb_eq.
Qed.

Lemma inner_join_dates_unique (l r : list (string * pyfloat)) :
  NoDup (map fst l) -> NoDup (map fst r) ->
  NoDup (map (fun x : (string * pyfloat) * (string * pyfloat) => fst (fst x))
             (inner_join (fun b s => String.eqb (fst b) (fst s)) l r)).
Proof.
  intros Hl Hr. unfold inner_join.
  induction l as [|a l IH]; simpl; [constructor|].
  inversion Hl as [|? ? Ha Hl']; subst.
  rewrite map_app, map_map. cbn [fst]. apply NoDup_app.
  - assert (NoDup (map fst (filter (fun s : string * pyfloat => String.eqb (fst a) (fst s)) r)))
      as Hf.
    { clear -Hr. induction r as [|x r IHr]; simpl; [constructor|].
      inversion Hr as [|? ? Hx Hr']; subst.
      destruct (String.eqb (fst a) (fst x)); simpl; auto.
      constructor; auto. intros Hin. apply Hx.
      apply in_map_iff in Hin. destruct Hin as [y [e Hy]].
      apply filter_In in Hy. rewrite <- e. apply in_map. tauto. }
    revert Hf.
    induction (filter (fun s : string * pyfloat => String.eqb (fst a) (fst s)) r)
      as [|x m IHm] eqn:Em; simpl; intros Hf; [constructor|].
    assert (In x (filter (fun s : string * pyfloat => String.eqb (fst a) (fst s)) r)) as Hx
      by (rewrite Em; now left).
    destruct m as [|y m]; [repeat constructor; simpl; tauto|].
    exfalso. inversion Hf as [|? ? Hxy _]; subst. apply Hxy.
    assert (In y (filter (fun s : string * pyfloat => String.eqb (fst a) (fst s)) r)) as Hy
      by (rewrite Em; right; now left).
    apply filter_In in Hx, Hy. destruct Hx as [_ Hx]. destruct Hy as [_ Hy].
    apply String.eqb_eq in Hx, Hy. left. congruence.
  - now apply IH.
  - intros k Hk1 Hk2. apply in_map_iff in Hk1. destruct Hk1 as [x [e _]]. subst k.
    apply Ha. apply in_map_iff in Hk2. destruct Hk2 as [[b s] [e Hbs]].
    cbn [fst] in e. rewrite <- e.
    apply in_flat_map in Hbs. destruct Hbs as [b' [Hb' Hbs]].
    apply in_map_iff in Hbs. destruct Hbs as [s' [e' _]]. injection e' as -> _.
    now apply in_map.
Qed.

(** X17: a same-date comparison of a coin with a ticker lists exactly the
    dates on which the store has both a price of the coin and a close of
    the ticker, with those two values; in a store that satisfies the
    primary keys, each such date once, in date order. *)
Theorem same_date_comparison_rows :
  forall (coin ticker : string) (d : database),
    pk_unique crypto_key (Crypto_prices d) ->
    pk_unique stock_key (stock_price d) ->
    (forall row,
       In row (same_date_comparison coin ticker d) <->
       exists p s, In p (Crypto_prices d) /\ cp_coin_id p = coin /\
                   In s (stock_price d) /\ st_ticker s = ticker /\
                   cp_date p = st_date s /\
                   row = {| cmp_date := cp_date p; cmp_price := cp_price_usd p;
                            cmp_close := st_close s |}) /\
    Sorted (key_le cmp_date) (same_date_comparison coin ticker d) /\
    NoDup (map cmp_date (same_date_comparison coin ticker d)).
Proof.
  intros coin ticker d Hc Hs. unfold same_date_comparison. split; [|split].
  - intros row. split.
    + intros H. apply (Permutation_in _ (sort_by_key_perm cmp_date _)) in H.
      apply in_map_iff in H. destruct H as [[[bd bp] [sd sc]] [<- H]].
      apply in_inner_join in H. destruct H as [Hb [Hst Hon]].
      cbn [fst snd] in *. apply String.eqb_eq in Hon. subst sd.
      apply in_price_series in Hb. destruct Hb as [p [Hp [Hpc [Hpd Hpp]]]].
      apply in_close_series in Hst. destruct Hst as [s [Hs' [Hsc [Hsd Hss]]]].
      exists p, s. repeat split; auto; congruence.
    + intros [p [s [Hp [Hpc [Hs' [Hst [Hd ->]]]]]]].
      apply (Permutation_in _ (Permutation_sym (sort_by_key_perm cmp_date _))).
      apply in_map_iff.
      exists ((cp_date p, cp_price_usd p), (st_date s, st_close s)).
      split; [reflexivity|]. apply in_inner_join. cbn [fst]. repeat split.
      * apply in_price_series. exists p. auto.
      * apply in_close_series. exists s. auto.
      * now apply String.eqb_eq.
  - apply sort_by_key_sorted.
  - eapply Permutation_NoDup.
    + symmetry. apply Permutation_map. apply sort_by_key_perm.
    + rewrite map_map. cbn [cmp_date].
      apply inner_join_dates_unique;
        [now apply price_series_dates_unique | now apply close_series_dates_unique].
Qed.

(** X18: once [insert_crypto_prices(rows)] has run, for rows none of which
    has a NaN price (the table would reject it), on a store that satisfies
    the primary key, the price query of the Top 3 page answers,
    for a coin and a window, with exactly the stored prices of that coin
    whose date is in the window, in date order and one per date; the entry
    for a date of the batch is the batch's last row for that coin and
    date. *)
Theorem coin_prices_in_range_after_insert :
  forall (rows : list crypto_price_row) (d : database)
         (coin_id start_s end_s : string),
    Forall (fun r => isnan (cp_price_usd r) = false) rows ->
    pk_unique crypto_key (Crypto_prices d) ->
    (forall date price,
       In (date, price)
          (coin_prices_in_range coin_id start_s end_s
             (store_after (insert_crypto_prices rows d))) <->
       in_window start_s end_s date = true /\
       exists r, In r (Crypto_prices (store_after (insert_crypto_prices rows d))) /\
                 cp_coin_id r = coin_id /\ cp_date r = date /\ cp_price_usd r = price) /\
    Sorted (key_le fst)
      (coin_prices_in_range coin_id start_s end_s
         (store_after (insert_crypto_prices rows d))) /\
    NoDup (map fst (coin_prices_in_range coin_id start_s end_s
                      (store_after (insert_crypto_prices rows d)))) /\
    (forall date r,
       last_with_key crypto_key key2_eq_dec (coin_id, date) rows = Some r ->
       in_window start_s end_s date = true ->
       In (date, cp_price_usd r)
          (coin_prices_in_range coin_id start_s end_s
             (store_after (insert_crypto_prices rows d)))).
Proof.
  intros rows d coin_id start_s end_s Hok Hpk.
  apply crypto_prices_accepted in Hok.
  set (d' := store_after (insert_crypto_prices rows d)).
  assert (pk_unique crypto_key (Crypto_prices d')) as Hpk'.
  { unfold d'. rewrite insert_crypto_prices_accepted by assumption. unfold store_after.
    cbn [fst snd Crypto_prices set_Crypto_prices]. now apply executemany_replace_pk. }
  assert (forall date price,
            In (date, price) (coin_prices_in_range coin_id start_s end_s d') <->
            in_window start_s end_s date = true /\
            exists r, In r (Crypto_prices d') /\ cp_coin_id r = coin_id /\
                      cp_date r = date /\ cp_price_usd r = price) as Hin.
  { intros date price. unfold coin_prices_in_range. split.
    - intros H. apply (Permutation_in _ (sort_by_key_perm fst _)) in H.
      apply filter_In in H. destruct H as [H Hw]. split; auto.
      now apply in_price_series.
    - intros [Hw H].
      apply (Permutation_in _ (Permutation_sym (sort_by_key_perm fst _))).
      apply filter_In. split; auto. now apply in_price_series. }
  split; [exact Hin|]. split; [apply sort_by_key_sorted|]. split.
  - unfold coin_prices_in_range. eapply Permutation_NoDup.
    + symmetry. apply Permutation_map. apply sort_by_key_perm.
    + pose proof (price_series_dates_unique coin_id d' Hpk') as Hnd.
      revert Hnd. induction (price_series coin_id d') as [|x l IH]; simpl; intros Hnd;
        [constructor|].
      inversion Hnd as [|? ? Hx Hl]; subst.
      destruct (in_window start_s end_s (fst x)); simpl; auto.
      constructor; auto. intros H. apply Hx.
      apply in_map_iff in H. destruct H as [y [e Hy]]. apply filter_In in Hy.
      rewrite <- e. apply in_map. tauto.
  - intros date r Hl Hw. apply Hin. split; auto.
    pose proof (last_with_key_some _ _ _ _ _ Hl) as [_ Hk].
    exists r. unfold crypto_key in Hk. injection Hk as Hc Hd.
    repeat split; auto.
    unfold d'. rewrite insert_crypto_prices_accepted by assumption. unfold store_after.
    cbn [fst snd Crypto_prices set_Crypto_prices].
    assert (In r (select_key crypto_key key2_eq_dec (coin_id, date)
                    (executemany_replace crypto_key key2_eq_dec rows (Crypto_prices d))))
      as X by (rewrite (select_executemany_touched _ _ _ _ _ _ Hl); now left).
    apply filter_In in X. tauto.
Qed.

End QueryMore.

(** *** The three coins of largest market capitalisation *)

Section Top3.
Context {RT : PyRuntime}.

Definition rank_of (r : coin_row) : Z :=
  match market_cap_rank r with Some z => z | None => 0%Z end.

Definition has_rank (r : coin_row) : bool :=
  match market_cap_rank r with Some _ => true | None => false end.

(** [ORDER BY market_cap_rank ASC]: the rows in rank order; SQL leaves the
    order among rows of one rank open, so the order is any function that
    sorts. *)
Variable order_by_rank : list coin_row -> list coin_row.
Hypothesis order_by_rank_perm : forall l, Permutation (order_by_rank l) l.
Hypothesis order_by_rank_sorted : forall l,
  Sorted (fun a b => (rank_of a <= rank_of b)%Z) (order_by_rank l).

(** The rows behind the first query of [page_top3_crypto]:
    [FROM Cryptocurrencies WHERE market_cap_rank IS NOT NULL
     ORDER BY market_cap_rank ASC LIMIT 3]. *)
Definition top3_coins (d : database) : list coin_row :=
  firstn 3 (order_by_rank (filter has_rank (Cryptocurrencies d))).

(** [SELECT id, symbol, name, market_cap_rank] of them. *)
Definition top3_df (d : database) : list (string * string * string * Z) :=
  map (fun r => (coin_id r, coin_symbol r, coin_name r, rank_of r)) (top3_coins d).

(** X19: the Top 3 query returns at most three coins, all of them ranked
    coins of the table, in rank order; it returns three whenever the table
    has three ranked coins, and no ranked coin it leaves out has a smaller
    rank than one it returns. *)
Theorem top3_are_the_lowest_ranks : forall d : database,
  exists rest,
    Permutation (filter has_rank (Cryptocurrencies d)) (top3_coins d ++ rest) /\
    (List.length (top3_coins d) <= 3)%nat /\
    (rest <> [] -> List.length (top3_coins d) = 3%nat) /\
    Sorted (fun a b => (rank_of a <= rank_of b)%Z) (top3_coins d) /\
    (forall a b, In a (top3_coins d) -> In b rest -> (rank_of a <= rank_of b)%Z).
Proof.
  intros d. unfold top3_coins.
  set (l := order_by_rank (filter has_rank (Cryptocurrencies d))).
  exists (skipn 3 l).
  assert (StronglySorted (fun a b => (rank_of a <= rank_of b)%Z) l) as Hss.
  { apply Sorted_StronglySorted; [|apply order_by_rank_sorted].
    intros x y z. lia. }
  split; [|split; [|split; [|split]]].
  - rewrite firstn_skipn. symmetry. apply order_by_rank_perm.
  - apply firstn_le_length.
  - intros Hne. rewrite length_firstn.
    destruct (Nat.le_gt_cases 3 (List.length l)) as [H | H]; [lia|].
    exfalso. apply Hne. apply skipn_all2. lia.
  - rewrite <- (firstn_skipn 3 l) in Hss.
    clear -Hss. induction (firstn 3 l) as [|x m IH]; [constructor|].
    simpl in Hss. inversion Hss as [|? ? Hm Hx]; subst.
    constructor; auto. destruct m as [|y m]; constructor.
    inversion Hx; assumption.
  - intros a b Ha Hb. rewrite <- (firstn_skipn 3 l) in Hss.
    revert Ha. clear -Hss Hb. induction (firstn 3 l) as [|x m IH]; [intros []|].
    simpl in Hss. inversion Hss as [|? ? Hm Hx]; subst.
    intros [<- | Ha]; [|now apply IH].
    rewrite Forall_forall in Hx. apply Hx. apply in_or_app. now right.
Qed.

End Top3.

(** ** A reference runtime

    Floats are exact rationals, with one more value for NaN; instants are
    milliseconds since the epoch on the proleptic Gregorian calendar.  It is
    the runtime of the worked examples below. *)

From Stdlib Require Import QArith.
Local Close Scope Q_scope.

Module Reference.

(** [n] rounded to the nearest integer, ties to even. *)
Definition round_half_even (q : Q) : Z :=
  let n := Qnum q in
  let d := Zpos (Qden q) in
  let fl := (n / d)%Z in
  match (2 * (n mod d) ?= d)%Z with
  | Lt => fl
  | Gt => (fl + 1)%Z
  | Eq => if Z.even fl then fl else (fl + 1)%Z
  end.

Definition ref_round6 (x : option Q) : option Q :=
  match x with
  | Some q => Some (Qred (Qmake (round_half_even (Qmult q (inject_Z 1000000))) 1000000))
  | None => None
  end.

Definition ref_int_of_float (x : option Q) : option Z :=
  match x with
  | Some q => Some (Z.quot (Qnum q) (Zpos (Qden q)))
  | None => None
  end.

Definition digit (n : Z) : string :=
  String (ascii_of_nat (48 + Z.to_nat n)) EmptyString.

Definition pad2 (n : Z) : string := digit (n / 10) ++ digit (n mod 10).

Definition pad4 (n : Z) : string := pad2 (n / 100) ++ pad2 (n mod 100).

(** The civil date of a day number counted from 1970-01-01. *)
Definition civil_of_days (days : Z) : Z * Z * Z :=
  let z := (days + 719468)%Z in
  let era := (z / 146097)%Z in
  let doe := (z mod 146097)%Z in
  let yoe := ((doe - doe / 1460 + doe / 36524 - doe / 146096) / 365)%Z in
  let doy := (doe - (365 * yoe + yoe / 4 - yoe / 100))%Z in
  let mp := ((5 * doy + 2) / 153)%Z in
  let d := (doy - (153 * mp + 2) / 5 + 1)%Z in
  let m := (if mp <? 10 then mp + 3 else mp - 9)%Z in
  let y := (yoe + era * 400 + (if m <=? 2 then 1 else 0))%Z in
  (y, m, d).

Definition ymd_of_ms (ms : Z) : string :=
  let '(y, m, d) := civil_of_days (ms / 86400000) in
  pad4 y ++ "-" ++ pad2 m ++ "-" ++ pad2 d.

(** [datetime] covers the years 1 to 9999. *)
Definition ref_utc_day_of_ms (ms : Z) : option string :=
  let '(y, _, _) := civil_of_days (ms / 86400000) in
  if ((1 <=? y) && (y <=? 9999))%Z then Some (ymd_of_ms ms) else None.

Definition ref_utc_day_of_float_ms (x : option Q) : option string :=
  match x with
  | Some q => ref_utc_day_of_ms (Qnum q / Zpos (Qden q))
  | None => None
  end.

Definition ref_float_truthy (x : option Q) : bool :=
  match x with
  | Some q => negb (Qnum q =? 0)%Z
  | None => true
  end.

Definition ref_isnan (x : option Q) : bool :=
  match x with Some _ => false | None => true end.

Fixpoint insert_by_index {A} (f : A -> Z) (x : A) (l : list A) : list A :=
  match l with
  | [] => [x]
  | y :: l' => if (f x <=? f y)%Z then x :: l else y :: insert_by_index f x l'
  end.

Definition ref_sort_index (A : Type) (f : A -> Z) (l : list A) : list A :=
  fold_right (insert_by_index f) [] l.

Lemma insert_by_index_perm {A} (f : A -> Z) x l :
  Permutation (insert_by_index f x l) (x :: l).
Proof.
  induction l as [|y l IH]; simpl; auto.
  destruct (f x <=? f y)%Z; auto. rewrite IH. apply perm_swap.
Qed.

Lemma ref_sort_index_perm A (f : A -> Z) l : Permutation (ref_sort_index A f l) l.
Proof.
  induction l as [|x l IH]; simpl; auto.
  rewrite insert_by_index_perm. now constructor.
Qed.

Lemma insert_by_index_sorted {A} (f : A -> Z) x l :
  Sorted (fun a b => (f a <= f b)%Z) l ->
  Sorted (fun a b => (f a <= f b)%Z) (insert_by_index f x l).
Proof.
  induction l as [|y l IH]; simpl; intros H.
  - repeat constructor.
  - destruct (f x <=? f y)%Z eqn:E.
    + constructor; auto. constructor. now apply Z.leb_le.
    + apply Z.leb_gt in E. inversion H as [|? ? Hs Hh]; subst.
      constructor; auto.
      destruct l as [|z l]; simpl.
      * constructor. lia.
      * inversion Hh; subst. destruct (f x <=? f z)%Z; constructor; lia.
Qed.

Lemma ref_sort_index_sorted A (f : A -> Z) l :
  Sorted (fun a b => (f a <= f b)%Z) (ref_sort_index A f l).
Proof.
  induction l as [|x l IH]; simpl; [constructor | now apply insert_by_index_sorted].
Qed.

(** The examples carry numbers as numbers: this runtime reads no text as a
    float. *)
#[export] Instance runtime : PyRuntime := {|
  pyfloat := option Q;
  float_of_int := fun z => Some (Some (inject_Z z));
  float_of_str := fun _ => None;
  round6 := ref_round6;
  int_of_float := ref_int_of_float;
  utc_day_of_ms := ref_utc_day_of_ms;
  utc_day_of_float_ms := ref_utc_day_of_float_ms;
  timestamp_ymd := ymd_of_ms;
  float_truthy := ref_float_truthy;
  isnan := ref_isnan;
  sort_index := ref_sort_index;
  sort_index_perm := ref_sort_index_perm;
  sort_index_sorted := ref_sort_index_sorted
|}.

(** A decimal literal: [dec 1015 1] is 101.5. *)
Definition dec (digits : Z) (places : nat) : option Q :=
  Some (Qred (Qmake digits (Pos.pow 10 (Pos.of_nat places)))).

Example ymd_new_year_2025 : ymd_of_ms 1735696800000 = "2025-01-01".
Proof. reflexivity. Qed.

Example ymd_leap_day : ymd_of_ms 1709251199999 = "2024-02-29".
Proof. reflexivity. Qed.

Example ymd_epoch : ymd_of_ms 0 = "1970-01-01".
Proof. reflexivity. Qed.

Example round6_example : ref_round6 (dec 100123456789 9) = dec 100123457 6.
Proof. reflexivity. Qed.

End Reference.

(** ** Worked examples on the reference runtime *)

Import Reference.

Definition empty_db : database :=
  {| Cryptocurrencies := []; Crypto_prices := []; oil_price := []; stock_price := [] |}.

Definition a_coin (id symbol name : string) (price : option Q) (day : string) : coin_row :=
  {| coin_id := id; coin_symbol := symbol; coin_name := name;
     current_price := Some price; market_cap := None; market_cap_rank := None;
     total_volume := None; circulating_supply := None; total_supply := None;
     ath := None; atl := None; last_updated := day |}.

Definition a_price (coin day : string) (price : option Q) : crypto_price_row :=
  {| cp_coin_id := coin; cp_date := day; cp_price_usd := price |}.

Definition an_oil_price (day : string) (price : option Q) : oil_price_row :=
  {| oil_date := day; oil_price_usd := price |}.

Definition a_close (day ticker : string) (close : option Q) : stock_price_row :=
  {| st_date := day; st_open := close; st_high := close; st_low := close;
     st_close := close; st_volume := 1000; st_ticker := ticker |}.

Ltac distinct_keys :=
  unfold pk_unique; simpl; repeat constructor; simpl; intuition discriminate.

(** The upsert example of the specification: the second price of the day
    replaces the first. *)
Example upsert_overwrite :
  Crypto_prices
    (store_after
       (insert_crypto_prices [a_price "bitcoin" "2024-01-01" (dec 430000 1)]
          (store_after
             (insert_crypto_prices [a_price "bitcoin" "2024-01-01" (dec 420000 1)]
                empty_db))))
  = [a_price "bitcoin" "2024-01-01" (dec 430000 1)].
Proof. reflexivity. Qed.

(** A batch that repeats a key: the last row is stored, the count returned
    is the length of the batch. *)
Example repeated_key_in_batch :
  insert_oil_prices [an_oil_price "2024-01-02" (dec 700 1);
                     an_oil_price "2024-01-03" (dec 710 1);
                     an_oil_price "2024-01-02" (dec 720 1)] empty_db
  = (Returned 3%nat,
     set_oil_price [an_oil_price "2024-01-03" (dec 710 1);
                    an_oil_price "2024-01-02" (dec 720 1)] empty_db,
     repeat empty_db 5 ++
     repeat (set_oil_price [an_oil_price "2024-01-03" (dec 710 1);
                            an_oil_price "2024-01-02" (dec 720 1)] empty_db) 2).
Proof. reflexivity. Qed.

(** C1 as stated fails for the snapshot table: a frame that lists the id
    ["bitcoin"] twice is rejected, and the store holds no row for that id
    after the call.  It fails for a historical table too when a row of the
    batch has a NaN price: the row is rejected, and the store holds no row
    for its key after the call. *)
Lemma snapshot_repeated_id_not_replaced :
  result_of (push_dataframe_to_table
               [a_coin "bitcoin" "btc" "Bitcoin" (dec 420000 1) "2024-01-01";
                a_coin "bitcoin" "btc" "Bitcoin" (dec 430000 1) "2024-01-01"] empty_db)
  = Raised IntegrityError /\
  ~ snapshot_replaced
      [a_coin "bitcoin" "btc" "Bitcoin" (dec 420000 1) "2024-01-01";
       a_coin "bitcoin" "btc" "Bitcoin" (dec 430000 1) "2024-01-01"]
      (Cryptocurrencies
         (store_after
            (push_dataframe_to_table
               [a_coin "bitcoin" "btc" "Bitcoin" (dec 420000 1) "2024-01-01";
                a_coin "bitcoin" "btc" "Bitcoin" (dec 430000 1) "2024-01-01"] empty_db))) /\
  result_of (insert_oil_prices [an_oil_price "2024-01-02" None] empty_db)
  = Raised IntegrityError /\
  ~ upserted oil_date string_dec [an_oil_price "2024-01-02" None]
      (oil_price empty_db)
      (oil_price (store_after
                    (insert_oil_prices [an_oil_price "2024-01-02" None] empty_db))).
Proof.
  split; [reflexivity|]. split; [|split; [reflexivity|]].
  - intros [H _]. destruct (H "bitcoin" eq_refl) as [r [_ Hr]].
    discriminate Hr.
  - intros [H _].
    specialize (H "2024-01-02" (an_oil_price "2024-01-02" None) eq_refl).
    discriminate H.
Qed.

(** C9 as stated fails for a list with a row the table rejects: of two
    rows for one key the last has a NaN price; the call raises instead of
    returning 2, and the row stored for the key is not that last row: none
    is stored, the first row is lost with the connection. *)
Lemma nan_price_batch_not_stored :
  last_with_key crypto_key key2_eq_dec ("bitcoin", "2024-01-01")
    [a_price "bitcoin" "2024-01-01" (dec 420000 1);
     a_price "bitcoin" "2024-01-01" None]
  = Some (a_price "bitcoin" "2024-01-01" None) /\
  result_of (insert_crypto_prices
               [a_price "bitcoin" "2024-01-01" (dec 420000 1);
                a_price "bitcoin" "2024-01-01" None] empty_db)
  = Raised IntegrityError /\
  select_key crypto_key key2_eq_dec ("bitcoin", "2024-01-01")
    (Crypto_prices
       (store_after
          (insert_crypto_prices
             [a_price "bitcoin" "2024-01-01" (dec 420000 1);
              a_price "bitcoin" "2024-01-01" None] empty_db)))
  = [].
Proof. repeat split. Qed.

(** A volume beyond 64 bits cannot be bound: the call raises
    [OverflowError] and the store is as it was found. *)
Example volume_beyond_int64_not_stored :
  insert_stock_prices
    [{| st_date := "2024-01-02"; st_open := dec 474283 2; st_high := dec 474283 2;
        st_low := dec 474283 2; st_close := dec 474283 2;
        st_volume := 2 ^ 63; st_ticker := "GSPC" |}] empty_db
  = (Raised OverflowError, empty_db, repeat empty_db 4).
Proof. reflexivity. Qed.

(** The snapshot refresh on a frame of distinct ids, step by step: the old
    snapshot is what is committed until the new one is, whole. *)
Example snapshot_refresh_states :
  states_seen
    (push_dataframe_to_table
       [a_coin "bitcoin" "btc" "Bitcoin" (dec 430000 1) "2024-01-02";
        a_coin "ethereum" "eth" "Ethereum" (dec 23000 1) "2024-01-02"]
       (set_Cryptocurrencies
          [a_coin "tether" "usdt" "Tether" (dec 10 1) "2024-01-01"] empty_db))
  = repeat (set_Cryptocurrencies
              [a_coin "tether" "usdt" "Tether" (dec 10 1) "2024-01-01"] empty_db) 5
    ++ repeat (set_Cryptocurrencies
                 [a_coin "bitcoin" "btc" "Bitcoin" (dec 430000 1) "2024-01-02";
                  a_coin "ethereum" "eth" "Ethereum" (dec 23000 1) "2024-01-02"]
                 empty_db) 3.
Proof. reflexivity. Qed.

(** The collapse example of the specification: 02:00 and 23:00 UTC on
    2025-01-01. *)
Lemma same_day_samples_collapse_witness :
  process_prices_to_rows
    [("bitcoin", market_chart [(1735696800000%Z, dec 100123456789 9);
                               (1735772400000%Z, dec 1015 1)])]
  = Some [a_price "bitcoin" "2025-01-01" (dec 1015 1)].
Proof.
  refine (proj1 (proj2 (same_day_samples_collapse_to_last
            "bitcoin" "2025-01-01" [(1735696800000%Z, dec 100123456789 9)]
            1735772400000%Z (dec 1015 1) _ _))).
  - repeat constructor.
  - simpl. repeat constructor; lia.
Defined.

(** Two samples a day, over two days, given latest day first: one row per
    day, sorted by date. *)
Example two_days_sorted :
  process_prices_to_rows
    [("bitcoin", market_chart [(1735783200000%Z, dec 1020 1);
                               (1735696800000%Z, dec 1001234564 7);
                               (1735772400000%Z, dec 1015 1);
                               (1735858800000%Z, dec 1031 1)])]
  = Some [a_price "bitcoin" "2025-01-01" (dec 1015 1);
          a_price "bitcoin" "2025-01-02" (dec 1031 1)].
Proof. reflexivity. Qed.

(** A payload in which one coin has no prices: the rows of the coins
    before and after it are emitted. *)
Lemma missing_prices_witness :
  exists rows,
    process_prices_to_rows
      [("bitcoin", market_chart [(1735696800000%Z, dec 1015 1)]);
       ("tether", JObj [("market_caps", JArr [])]);
       ("solana", market_chart [(1735696800000%Z, dec 20 1)])] = Some rows /\
    In (a_price "bitcoin" "2025-01-01" (dec 1015 1)) rows /\
    In (a_price "solana" "2025-01-01" (dec 20 1)) rows.
Proof.
  destruct (@missing_prices_yield_no_rows runtime "tether" [("market_caps", JArr [])]
              [("bitcoin", @market_chart runtime [(1735696800000%Z, dec 1015 1)])]
              [("solana", @market_chart runtime [(1735696800000%Z, dec 20 1)])]
              (or_introl eq_refl)) as [_ [_ [_ H]]].
  destruct (H [("bitcoin", [(1735696800000%Z, dec 1015 1)])]
              [("solana", [(1735696800000%Z, dec 20 1)])] eq_refl eq_refl)
    as [rows [E Hin]].
  - repeat constructor; intros X; vm_compute in X; discriminate X.
  - exists rows. split; [exact E|]. split.
    + apply (Hin "bitcoin" [(1735696800000%Z, dec 1015 1)] "2025-01-01" (dec 1015 1));
        [now left | reflexivity].
    + apply (Hin "solana" [(1735696800000%Z, dec 20 1)] "2025-01-01" (dec 20 1));
        [right; now left | reflexivity].
Defined.

Example missing_prices_rows :
  process_prices_to_rows
    [("bitcoin", market_chart [(1735696800000%Z, dec 1015 1)]);
     ("tether", JObj [("market_caps", JArr [])]);
     ("ethereum", JObj [("prices", JNull)]);
     ("solana", market_chart [(1735696800000%Z, dec 20 1)])]
  = Some [a_price "bitcoin" "2025-01-01" (dec 1015 1);
          a_price "solana" "2025-01-01" (dec 20 1)].
Proof. reflexivity. Qed.

(** *** A provider that throttles every request *)

Definition throttle_body : json :=
  JObj [("status", JObj [("error_code", JInt 429);
                         ("error_message", JStr "Too many requests")])].

Definition always_throttled : world :=
  {| network := fun _ _ => Reply {| status_code := 429; body := Some throttle_body |};
     yahoo := fun _ _ => Raised YFRateLimitError;
     calls := 0;
     trace := [] |}.

(** C3 at a coin whose every request is answered 429: [fetch_market_chart]
    asks once, sleeps once, and returns the body of the throttling answer as
    its result; the batch files that body as the coin's data, and the
    normalizer makes no row of it. *)
Theorem fetch_market_chart_returns_throttled_body :
  fetch_market_chart "bitcoin" always_throttled =
    (Returned throttle_body,
     replay [Get (MARKET_CHART_URL "bitcoin"); Print RateLimitedWaiting;
             Sleep RETRY_DELAY] always_throttled) /\
  fst (fetch_all_daily_prices_of ["bitcoin"] always_throttled) =
    Returned [("bitcoin", throttle_body)] /\
  process_prices_to_rows [("bitcoin", throttle_body)] = Some [].
Proof.
  split; [|split].
  - apply (fetch_market_chart_throttled "bitcoin" always_throttled
             {| status_code := 429; body := Some throttle_body |} throttle_body);
      reflexivity.
  - reflexivity.
  - reflexivity.
Qed.

(** The page fetcher and the ticker loop, on the same provider, keep to the
    bound: three requests and two waits, then the error; four downloads and
    three waits, then the skip. *)
Example fetch_page_throttled_trace :
  fst (fetch_page 1 always_throttled) = Raised (HTTPError 429) /\
  trace (snd (fetch_page 1 always_throttled)) =
    [Get (BASE_URL 1); Print RateLimitedWaiting; Sleep 60;
     Get (BASE_URL 1); Print RateLimitedWaiting; Sleep 60;
     Get (BASE_URL 1)].
Proof. split; reflexivity. Qed.

Example download_throttled_trace :
  fst (download_all_tickers ["^GSPC"] always_throttled) = Returned [] /\
  trace (snd (download_all_tickers ["^GSPC"] always_throttled)) =
    [Print (Downloading "^GSPC"); History "^GSPC"; Print RateLimitedWaiting; Sleep 45;
     Print (Downloading "^GSPC"); History "^GSPC"; Print RateLimitedWaiting; Sleep 45;
     Print (Downloading "^GSPC"); History "^GSPC"; Print RateLimitedWaiting; Sleep 45;
     Print (Downloading "^GSPC"); History "^GSPC"; Print (Skipping "^GSPC")].
Proof. split; reflexivity. Qed.

(** *** A provider that fails on the first page *)

Definition first_call_fails : world :=
  {| network := fun n _ =>
       match n with
       | O => Reply {| status_code := 500; body := None |}
       | _ => Reply {| status_code := 200; body := Some (JArr [JObj [("id", JStr "bitcoin")]]) |}
       end;
     yahoo := fun _ _ => Returned [];
     calls := 0;
     trace := [] |}.


(** The same failure in a batch of coins is contained. *)
Example failed_coin_is_skipped :
  fst (fetch_all_daily_prices_of ["bitcoin"; "ethereum"] first_call_fails) =
    Returned [("ethereum", JArr [JObj [("id", JStr "bitcoin")]])] /\
  trace (snd (fetch_all_daily_prices_of ["bitcoin"; "ethereum"] first_call_fails)) =
    [Print (FetchingCoin 1 "bitcoin"); Get (MARKET_CHART_URL "bitcoin");
     Print (ErrorFetching "bitcoin" (HTTPError 500)); Sleep 15;
     Print (FetchingCoin 2 "ethereum"); Get (MARKET_CHART_URL "ethereum")].
Proof. split; reflexivity. Qed.

(** *** The equity pipeline on [^GSPC] *)

Definition a_day (ms : Z) (close volume : option Q) : raw_row :=
  {| r_date := ms; r_open := close; r_high := close; r_low := close;
     r_close := close; r_volume := volume |}.

(** Yahoo answers with two trading days; the volume of the second is
    missing. *)
Definition yahoo_answers : world :=
  {| network := fun _ _ => NoReply;
     yahoo := fun _ _ =>
       Returned [a_day 1704153600000 (dec 47428312345678 10) (dec 30000000000 1);
                 a_day 1704240000000 (dec 470481 2) None];
     calls := 0;
     trace := [] |}.

Definition gspc_rows : list stock_price_row :=
  match fst (download_all_tickers ["^GSPC"] yahoo_answers) with
  | Returned df => prepare_stock_price_rows df
  | Raised _ => []
  end.

(** C7 at the ticker [^GSPC]: the row with a missing value is dropped, the
    prices are rounded and the volume is an integer, but the only ticker the
    rows carry is ["GSPC"]; once stored, the dashboard's query for
    [^GSPC] finds nothing. *)
Theorem stored_ticker_loses_caret :
  gspc_rows =
    [{| st_date := "2024-01-02"; st_open := dec 4742831235 6;
        st_high := dec 4742831235 6; st_low := dec 4742831235 6;
        st_close := dec 4742831235 6; st_volume := 3000000000;
        st_ticker := "GSPC" |}] /\
  all_stock_prices_for_ticker "^GSPC"
    (store_after (insert_stock_prices gspc_rows empty_db)) = [] /\
  all_stock_prices_for_ticker "GSPC"
    (store_after (insert_stock_prices gspc_rows empty_db)) = gspc_rows.
Proof. repeat split; reflexivity. Qed.

(** Only the caret is removed, wherever it stands. *)
Example remove_carets_examples :
  remove_carets "^GSPC" = "GSPC" /\ remove_carets "A^B" = "AB" /\
  remove_carets "=X" = "=X".
Proof. repeat split. Qed.

(** *** The snapshot query *)

(** Three commodity dates; Bitcoin on the first; three tickers on the
    second; nothing but oil on the third. *)
Definition a_store : database :=
  {| Cryptocurrencies := [];
     Crypto_prices := [a_price "bitcoin" "2024-01-01" (dec 420000 1);
                       a_price "ethereum" "2024-01-01" (dec 23000 1)];
     oil_price := [an_oil_price "2024-01-02" (dec 704 1);
                   an_oil_price "2024-01-01" (dec 716 1);
                   an_oil_price "2024-01-06" (dec 738 1)];
     stock_price := [a_close "2024-01-02" "^GSPC" (dec 474283 2);
                     a_close "2024-01-02" "^IXIC" (dec 1476569 2);
                     a_close "2024-01-02" "^NSEI" (dec 2166580 2)] |}.

Lemma oil_left_join_witness :
  map (fun x : joined_row => fst (fst (fst x))) (snapshot_join a_store)
  = oil_price a_store /\
  snapshot_sql a_store "2024-01-01" "2024-01-31" =
    [{| snap_date := "2024-01-01"; btc_price := Some (dec 420000 1);
        snap_oil_price := dec 716 1; sp500_close := None; nifty_close := None |};
     {| snap_date := "2024-01-02"; btc_price := None;
        snap_oil_price := dec 704 1; sp500_close := Some (dec 474283 2);
        nifty_close := Some (dec 2166580 2) |};
     {| snap_date := "2024-01-06"; btc_price := None;
        snap_oil_price := dec 738 1; sp500_close := None; nifty_close := None |}].
Proof.
  split.
  - refine (proj1 (oil_left_join_complete a_store _ _)); distinct_keys.
  - reflexivity.
Defined.

(** *** The normalizer on several days, on a bad sample, and into the store *)

Definition four_samples : list (Z * pyfloat) :=
  [(1735783200000%Z, dec 1020 1);
   (1735696800000%Z, dec 1001234564 7);
   (1735772400000%Z, dec 1015 1);
   (1735858800000%Z, dec 1031 1)].

Example last_of_day_examples :
  last_of_day "2025-01-01" four_samples = Some (dec 1015 1) /\
  last_of_day "2025-01-02" four_samples = Some (dec 1031 1) /\
  last_of_day "2025-01-03" four_samples = None.
Proof. repeat split. Qed.


Lemma bad_sample_witness :
  process_prices_to_rows
    ([("bitcoin", market_chart four_samples)]
     ++ ("tether", JObj [("prices", JArr [@sample runtime (1735696800000%Z, dec 10 1);
                                           JArr [JInt 1735772400000; JNull]])])
     :: [("solana", market_chart four_samples)])
  = None.
Proof.
  apply (bad_sample_fails_whole_payload
           [("bitcoin", market_chart four_samples)]
           [("solana", market_chart four_samples)] "tether"
           [("prices", JArr [@sample runtime (1735696800000%Z, dec 10 1);
                             JArr [JInt 1735772400000; JNull]])]
           [@sample runtime (1735696800000%Z, dec 10 1); JArr [JInt 1735772400000; JNull]]
           (JArr [JInt 1735772400000; JNull])).
  - reflexivity.
  - right. left. reflexivity.
  - reflexivity.
Defined.

Lemma normalized_rows_stored_witness :
  NoDup (map crypto_key
           [a_price "bitcoin" "2025-01-01" (dec 1015 1);
            a_price "bitcoin" "2025-01-02" (dec 1031 1);
            a_price "solana" "2025-01-01" (dec 20 1)]) /\
  result_of (store_prices_to_sqlite
               [a_price "bitcoin" "2025-01-01" (dec 1015 1);
                a_price "bitcoin" "2025-01-02" (dec 1031 1);
                a_price "solana" "2025-01-01" (dec 20 1)]
               (set_Crypto_prices [a_price "bitcoin" "2025-01-01" (dec 990 1);
                                   a_price "ethereum" "2025-01-01" (dec 33000 1)] empty_db))
  = Returned 3%nat /\
  Crypto_prices
    (store_after
       (store_prices_to_sqlite
          [a_price "bitcoin" "2025-01-01" (dec 1015 1);
           a_price "bitcoin" "2025-01-02" (dec 1031 1);
           a_price "solana" "2025-01-01" (dec 20 1)]
          (set_Crypto_prices [a_price "bitcoin" "2025-01-01" (dec 990 1);
                              a_price "ethereum" "2025-01-01" (dec 33000 1)] empty_db)))
  = filter (fun r => negb (key_in crypto_key key2_eq_dec (crypto_key r)
                             [a_price "bitcoin" "2025-01-01" (dec 1015 1);
                              a_price "bitcoin" "2025-01-02" (dec 1031 1);
                              a_price "solana" "2025-01-01" (dec 20 1)]))
           (Crypto_prices
              (set_Crypto_prices [a_price "bitcoin" "2025-01-01" (dec 990 1);
                                  a_price "ethereum" "2025-01-01" (dec 33000 1)] empty_db))
    ++ [a_price "bitcoin" "2025-01-01" (dec 1015 1);
        a_price "bitcoin" "2025-01-02" (dec 1031 1);
        a_price "solana" "2025-01-01" (dec 20 1)].
Proof.
  apply (normalized_rows_stored_verbatim
           [("bitcoin", market_chart four_samples);
            ("solana", @market_chart runtime [(1735696800000%Z, dec 20 1)])]).
  - simpl. repeat constructor; simpl; intuition discriminate.
  - reflexivity.
  - repeat constructor.
Defined.

Example normalized_rows_stored :
  Crypto_prices
    (store_after
       (store_prices_to_sqlite
          [a_price "bitcoin" "2025-01-01" (dec 1015 1);
           a_price "bitcoin" "2025-01-02" (dec 1031 1);
           a_price "solana" "2025-01-01" (dec 20 1)]
          (set_Crypto_prices [a_price "bitcoin" "2025-01-01" (dec 990 1);
                              a_price "ethereum" "2025-01-01" (dec 33000 1)] empty_db)))
  = [a_price "ethereum" "2025-01-01" (dec 33000 1);
     a_price "bitcoin" "2025-01-01" (dec 1015 1);
     a_price "bitcoin" "2025-01-02" (dec 1031 1);
     a_price "solana" "2025-01-01" (dec 20 1)].
Proof. reflexivity. Qed.

(** *** Providers that recover *)

Definition a_page : json := JArr [JObj [("id", JStr "bitcoin")]].

Definition throttled_once : world :=
  {| network := fun n _ =>
       match n with
       | O => Reply {| status_code := 429; body := Some throttle_body |}
       | _ => Reply {| status_code := 200; body := Some a_page |}
       end;
     yahoo := fun n _ =>
       match n with
       | O => Raised YFRateLimitError
       | _ => Returned [a_day 1704153600000 (dec 474283 2) (dec 30000000000 1)]
       end;
     calls := 0;
     trace := [] |}.

Lemma fetch_page_recovers_witness :
  fetch_page 1 throttled_once =
  (Returned a_page,
   replay [Get (BASE_URL 1); Print RateLimitedWaiting; Sleep RETRY_DELAY;
           Get (BASE_URL 1)] throttled_once).
Proof.
  refine (fetch_page_recovers_after_throttling 1 throttled_once 1
            {| status_code := 200; body := Some a_page |} a_page _ _ _ _ _).
  - unfold MAX_RETRIES. lia.
  - intros n Hn. exists {| status_code := 429; body := Some throttle_body |}.
    destruct n; [split; reflexivity | lia].
  - reflexivity.
  - left. simpl. lia.
  - reflexivity.
Defined.

Lemma download_recovers_witness :
  download_attempts "^GSPC" (seq 1 RATE_LIMIT_RETRIES) None throttled_once =
  (Returned [with_ticker "GSPC" (a_day 1704153600000 (dec 474283 2) (dec 30000000000 1))],
   replay [Print (Downloading "^GSPC"); History "^GSPC"; Print RateLimitedWaiting;
           Sleep RATE_LIMIT_WAIT_SEC;
           Print (Downloading "^GSPC"); History "^GSPC";
           Print (Retrieved "^GSPC" 1)] throttled_once).
Proof.
  refine (download_recovers_after_rate_limit "^GSPC" None throttled_once 1
            [a_day 1704153600000 (dec 474283 2) (dec 30000000000 1)] _ _ _ _).
  - unfold RATE_LIMIT_RETRIES. lia.
  - intros n Hn. destruct n; [reflexivity | lia].
  - reflexivity.
  - discriminate.
Defined.

(** *** A provider that answers every page *)

Definition every_page_answered : world :=
  {| network := fun n _ =>
       Reply {| status_code := 200;
                body := Some (JArr [JInt (Z.of_nat n); JInt (Z.of_nat n)]) |};
     yahoo := fun _ _ => Raised ValueError;
     calls := 0;
     trace := [] |}.

Lemma fetch_all_pages_joins_witness :
  exists events,
    fetch_all_pages_of 3 every_page_answered =
      (Returned (flat_map (fun n => [JInt (Z.of_nat n); JInt (Z.of_nat n)])
                   (seq (calls every_page_answered) 3)),
       replay events every_page_answered) /\
    count_requests events = 3%nat /\
    count_sleeps DELAY_SECONDS events = (3 - 1)%nat.
Proof.
  apply (fetch_all_pages_joins_pages 3 every_page_answered
           (fun n => [JInt (Z.of_nat n); JInt (Z.of_nat n)])).
  intros n url. reflexivity.
Defined.

Example fetch_all_pages_joined :
  fst (fetch_all_pages_of 3 every_page_answered) =
    Returned [JInt 0; JInt 0; JInt 1; JInt 1; JInt 2; JInt 2] /\
  trace (snd (fetch_all_pages_of 3 every_page_answered)) =
    [Print (FetchingPage 1); Get (BASE_URL 1); Print WaitingNextRequest; Sleep 15;
     Print (FetchingPage 2); Get (BASE_URL 2); Print WaitingNextRequest; Sleep 15;
     Print (FetchingPage 3); Get (BASE_URL 3)].
Proof. split; reflexivity. Qed.

(** On that provider every history download fails with an error that is
    no rate limit. *)
Lemma download_error_witness :
  download_frames ("^GSPC" :: ["^IXIC"; "^NSEI"]) 0 None [] every_page_answered =
    (Raised ValueError,
     replay ((if (0 <? 0)%nat then [Sleep DELAY_BETWEEN_TICKERS] else [])
             ++ [Print (Downloading "^GSPC"); History "^GSPC"]) every_page_answered) /\
  download_all_tickers ("^GSPC" :: ["^IXIC"; "^NSEI"]) every_page_answered =
    (Raised ValueError,
     replay [Print (Downloading "^GSPC"); History "^GSPC"] every_page_answered).
Proof.
  apply (download_error_aborts_batch "^GSPC" ["^IXIC"; "^NSEI"] 0 None []
           every_page_answered ValueError); reflexivity.
Defined.

(** *** Reading the store back *)

Lemma select_oil_price_witness :
  Sorted (key_le oil_date)
    (select_oil_price None
       (store_after
          (insert_oil_prices [an_oil_price "2024-01-03" (dec 725 1);
                              an_oil_price "2024-01-02" (dec 999 1);
                              an_oil_price "2024-01-02" (dec 710 1)] a_store))) /\
  In (an_oil_price "2024-01-02" (dec 710 1))
    (select_oil_price None
       (store_after
          (insert_oil_prices [an_oil_price "2024-01-03" (dec 725 1);
                              an_oil_price "2024-01-02" (dec 999 1);
                              an_oil_price "2024-01-02" (dec 710 1)] a_store))).
Proof.
  assert (pk_unique oil_date (oil_price a_store)) as Hpk by distinct_keys.
  assert (Forall (fun r => isnan (oil_price_usd r) = false)
            [an_oil_price "2024-01-03" (dec 725 1);
             an_oil_price "2024-01-02" (dec 999 1);
             an_oil_price "2024-01-02" (dec 710 1)]) as Hok by (repeat constructor).
  pose proof (select_oil_price_after_insert
                [an_oil_price "2024-01-03" (dec 725 1);
                 an_oil_price "2024-01-02" (dec 999 1);
                 an_oil_price "2024-01-02" (dec 710 1)] a_store Hok Hpk) as H.
  destruct H as [Hs [_ [_ Hin]]]. split; [exact Hs|].
  apply (Hin "2024-01-02"). reflexivity.
Defined.

Example select_oil_price_listed :
  select_oil_price None
    (store_after
       (insert_oil_prices [an_oil_price "2024-01-03" (dec 725 1);
                           an_oil_price "2024-01-02" (dec 999 1);
                           an_oil_price "2024-01-02" (dec 710 1)] a_store))
  = [an_oil_price "2024-01-01" (dec 716 1);
     an_oil_price "2024-01-02" (dec 710 1);
     an_oil_price "2024-01-03" (dec 725 1);
     an_oil_price "2024-01-06" (dec 738 1)] /\
  select_oil_price (Some 2%Z) a_store
  = [an_oil_price "2024-01-01" (dec 716 1); an_oil_price "2024-01-02" (dec 704 1)] /\
  select_oil_price (Some 0%Z) a_store = [] /\
  List.length (select_oil_price (Some (-1)%Z) a_store) = 3%nat.
Proof. repeat split. Qed.

Lemma rejected_refresh_witness :
  result_of (push_dataframe_to_table
               [a_coin "bitcoin" "btc" "Bitcoin" (dec 420000 1) "2024-01-01";
                a_coin "bitcoin" "btc" "Bitcoin" (dec 430000 1) "2024-01-01"]
               (set_Cryptocurrencies
                  [a_coin "tether" "usdt" "Tether" (dec 10 1) "2024-01-01"] empty_db))
  = Raised IntegrityError /\
  store_after (push_dataframe_to_table
                 [a_coin "bitcoin" "btc" "Bitcoin" (dec 420000 1) "2024-01-01";
                  a_coin "bitcoin" "btc" "Bitcoin" (dec 430000 1) "2024-01-01"]
                 (set_Cryptocurrencies
                    [a_coin "tether" "usdt" "Tether" (dec 10 1) "2024-01-01"] empty_db))
  = set_Cryptocurrencies
      [a_coin "tether" "usdt" "Tether" (dec 10 1) "2024-01-01"] empty_db /\
  Forall (fun seen =>
            seen = set_Cryptocurrencies
                     [a_coin "tether" "usdt" "Tether" (dec 10 1) "2024-01-01"] empty_db)
    (states_seen
       (push_dataframe_to_table
          [a_coin "bitcoin" "btc" "Bitcoin" (dec 420000 1) "2024-01-01";
           a_coin "bitcoin" "btc" "Bitcoin" (dec 430000 1) "2024-01-01"]
          (set_Cryptocurrencies
             [a_coin "tether" "usdt" "Tether" (dec 10 1) "2024-01-01"] empty_db))).
Proof.
  apply rejected_refresh_leaves_store.
  intros H. inversion H as [|? ? Hx _]. apply Hx. now left.
Defined.

(** *** Comparisons and ranges *)

(** Bitcoin on three days, the S&P 500 on two of them and on a fourth. *)
Definition a_market : database :=
  {| Cryptocurrencies :=
       [a_coin "tether" "usdt" "Tether" (dec 10 1) "2024-01-03";
        a_coin "bitcoin" "btc" "Bitcoin" (dec 430000 1) "2024-01-03";
        a_coin "solana" "sol" "Solana" (dec 1000 1) "2024-01-03";
        a_coin "ethereum" "eth" "Ethereum" (dec 23000 1) "2024-01-03"];
     Crypto_prices := [a_price "bitcoin" "2024-01-03" (dec 430000 1);
                       a_price "bitcoin" "2024-01-01" (dec 420000 1);
                       a_price "ethereum" "2024-01-02" (dec 23000 1);
                       a_price "bitcoin" "2024-01-02" (dec 425000 1)];
     oil_price := [];
     stock_price := [a_close "2024-01-03" "^GSPC" (dec 470481 2);
                     a_close "2024-01-02" "^GSPC" (dec 474283 2);
                     a_close "2024-01-02" "^IXIC" (dec 1476569 2);
                     a_close "2024-01-04" "^GSPC" (dec 468868 2)] |}.

Lemma same_date_comparison_witness :
  Sorted (key_le cmp_date) (same_date_comparison "bitcoin" "^GSPC" a_market) /\
  NoDup (map cmp_date (same_date_comparison "bitcoin" "^GSPC" a_market)).
Proof.
  refine (proj2 (same_date_comparison_rows "bitcoin" "^GSPC" a_market _ _));
    distinct_keys.
Defined.

Example btc_vs_sp500_rows :
  btc_vs_sp500 a_market =
    [{| cmp_date := "2024-01-02"; cmp_price := dec 425000 1; cmp_close := dec 474283 2 |};
     {| cmp_date := "2024-01-03"; cmp_price := dec 430000 1; cmp_close := dec 470481 2 |}].
Proof. reflexivity. Qed.

Lemma coin_prices_in_range_witness :
  In ("2024-01-02", dec 431000 1)
     (coin_prices_in_range "bitcoin" "2024-01-02" "2024-01-31"
        (store_after
           (insert_crypto_prices [a_price "bitcoin" "2024-01-02" (dec 429000 1);
                                  a_price "bitcoin" "2024-01-02" (dec 431000 1)]
              a_market))).
Proof.
  assert (pk_unique crypto_key (Crypto_prices a_market)) as Hpk by distinct_keys.
  assert (Forall (fun r => isnan (cp_price_usd r) = false)
            [a_price "bitcoin" "2024-01-02" (dec 429000 1);
             a_price "bitcoin" "2024-01-02" (dec 431000 1)]) as Hok by (repeat constructor).
  pose proof (coin_prices_in_range_after_insert
                [a_price "bitcoin" "2024-01-02" (dec 429000 1);
                 a_price "bitcoin" "2024-01-02" (dec 431000 1)]
                a_market "bitcoin" "2024-01-02" "2024-01-31" Hok Hpk) as H.
  destruct H as [_ [_ [_ Hin]]].
  apply (Hin "2024-01-02" (a_price "bitcoin" "2024-01-02" (dec 431000 1))); reflexivity.
Defined.

Example coin_prices_in_range_rows :
  coin_prices_in_range "bitcoin" "2024-01-02" "2024-01-31"
    (store_after
       (insert_crypto_prices [a_price "bitcoin" "2024-01-02" (dec 429000 1);
                              a_price "bitcoin" "2024-01-02" (dec 431000 1)]
          a_market))
  = [("2024-01-02", dec 431000 1); ("2024-01-03", dec 430000 1)].
Proof. reflexivity. Qed.

(** *** The Top 3 query, ordered by the reference sort *)

Definition ranked (r : coin_row) (rank : option Z) : coin_row :=
  {| coin_id := coin_id r; coin_symbol := coin_symbol r; coin_name := coin_name r;
     current_price := current_price r; market_cap := market_cap r;
     market_cap_rank := rank; total_volume := total_volume r;
     circulating_supply := circulating_supply r; total_supply := total_supply r;
     ath := ath r; atl := atl r; last_updated := last_updated r |}.

Definition a_ranking : database :=
  set_Cryptocurrencies
    [ranked (a_coin "tether" "usdt" "Tether" (dec 10 1) "2024-01-03") (Some 3%Z);
     ranked (a_coin "newcoin" "new" "New Coin" (dec 1 1) "2024-01-03") None;
     ranked (a_coin "solana" "sol" "Solana" (dec 1000 1) "2024-01-03") (Some 5%Z);
     ranked (a_coin "bitcoin" "btc" "Bitcoin" (dec 430000 1) "2024-01-03") (Some 1%Z);
     ranked (a_coin "ethereum" "eth" "Ethereum" (dec 23000 1) "2024-01-03") (Some 2%Z)]
    empty_db.

Lemma top3_witness :
  exists rest,
    Permutation (filter has_rank (Cryptocurrencies a_ranking))
      (top3_coins (ref_sort_index coin_row rank_of) a_ranking ++ rest) /\
    (List.length (top3_coins (ref_sort_index coin_row rank_of) a_ranking) <= 3)%nat /\
    (rest <> [] ->
     List.length (top3_coins (ref_sort_index coin_row rank_of) a_ranking) = 3%nat) /\
    Sorted (fun a b => (rank_of a <= rank_of b)%Z)
      (top3_coins (ref_sort_index coin_row rank_of) a_ranking) /\
    (forall a b,
       In a (top3_coins (ref_sort_index coin_row rank_of) a_ranking) ->
       In b rest -> (rank_of a <= rank_of b)%Z).
Proof.
  apply (top3_are_the_lowest_ranks (ref_sort_index coin_row rank_of)
           (ref_sort_index_perm coin_row rank_of)
           (ref_sort_index_sorted coin_row rank_of) a_ranking).
Defined.

Example top3_df_rows :
  top3_df (ref_sort_index coin_row rank_of) a_ranking =
    [("bitcoin", "btc", "Bitcoin", 1%Z); ("ethereum", "eth", "Ethereum", 2%Z);
     ("tether", "usdt", "Tether", 3%Z)].
Proof. reflexivity. Qed.

(** *** The commodity normalizer on a small frame *)

Example oil_rows_example :
  prepare_oil_price_rows
    (filter_date_range
       [{| wti_date := Some 1704240000000%Z; wti_price := dec 7271234567 8 |};
        {| wti_date := Some 1577750400000%Z; wti_price := dec 610 1 |};
        {| wti_date := None; wti_price := dec 1 1 |};
        {| wti_date := Some 1577836800000%Z; wti_price := dec 612 1 |};
        {| wti_date := Some 1769904000000%Z; wti_price := dec 650 1 |}]
       1577836800000 1769817600000)
  = Some [an_oil_price "2020-01-01" (dec 612 1);
          an_oil_price "2024-01-03" (dec 72712346 6)].
Proof. reflexivity. Qed.

(** A blank price in the CSV is a NaN in the frame: the normalizer passes
    it on, and the store rejects the batch it is part of, whole. *)
Example blank_oil_price_rejects_batch :
  prepare_oil_price_rows
    [{| wti_date := Some 1577836800000%Z; wti_price := dec 612 1 |};
     {| wti_date := Some 1704240000000%Z; wti_price := None |}]
  = Some [an_oil_price "2020-01-01" (dec 612 1); an_oil_price "2024-01-03" None] /\
  insert_oil_prices
    [an_oil_price "2020-01-01" (dec 612 1); an_oil_price "2024-01-03" None] a_store
  = (Raised IntegrityError, a_store, repeat a_store 5).
Proof. split; reflexivity. Qed.
